(** * AI-Stock-Analysis: the article analysis and scoring pipeline

    A shallow embedding of [utils.py], [analyzer.py] and the list
    functions of [scraper.py] (the title de-duplication and the filter
    of recent articles), with the properties of the specification
    stated over it, and further properties of the code after them.

    Modelling conventions.
    - A Python [str] is a Rocq [string] of ASCII characters.  [lower],
      [strip], [split] and the regular-expression classes [\d], [\s]
      and [\w] are the ASCII restrictions of the Python ones.  The rupee
      sign of the currency pattern appears as its three UTF-8 bytes.
    - A Python [float] is an exact rational ([Q]); comparisons between
      scores and thresholds are the rational ones.
    - A [dict] used as a record with optional keys (an article, an
      analysis) is a [gmap string pyval]: [d.get(k, default)] is a
      lookup with a default, [d[k] = v] an insert, and [d.update(e)]
      the union [e ∪ d], in which the keys of [e] win.  The dict of
      keywords (category to phrases) is an association list in
      insertion order; the company table is a list of typed rows.
    - A [datetime] is its second on the scale of the clock; a naive
      one and one with a time zone are different values, which the
      code can neither subtract nor order with each other.
    - Code that can raise is written in the [result] monad; [try/except]
      is a match on the result.
    - What the repository takes from third-party libraries or from the
      run-time environment (TextBlob's sentiment, NLTK's sentence
      splitter, the clock, the iteration order of a [set], the printed
      form of a value that is not a string) is a field of the [Env]
      record. *)

From Stdlib Require Import ZArith QArith Qabs Qminmax Lqa Lia List String Ascii Bool.
From Stdlib Require Import Sorting.Sorted.
From stdpp Require Import base list strings pretty gmap.

Local Open Scope string_scope.

(** ** Python strings *)

Module PyStr.

Definition is_upper (c : ascii) : bool :=
  let n := nat_of_ascii c in (65 <=? n)%nat && (n <=? 90)%nat.

Definition is_lower (c : ascii) : bool :=
  let n := nat_of_ascii c in (97 <=? n)%nat && (n <=? 122)%nat.

Definition is_digit (c : ascii) : bool :=
  let n := nat_of_ascii c in (48 <=? n)%nat && (n <=? 57)%nat.

(** [str.isspace] on ASCII: tab, LF, VT, FF, CR, the four separators
    0x1c..0x1f and the space. *)
Definition is_space (c : ascii) : bool :=
  let n := nat_of_ascii c in
  ((9 <=? n)%nat && (n <=? 13)%nat) || ((28 <=? n)%nat && (n <=? 32)%nat).

(** [\w] on ASCII: letters, digits and the underscore. *)
Definition is_word (c : ascii) : bool :=
  is_upper c || is_lower c || is_digit c || (nat_of_ascii c =? 95)%nat.

Definition lower_char (c : ascii) : ascii :=
  if is_upper c then ascii_of_nat (nat_of_ascii c + 32) else c.

Definition upper_char (c : ascii) : ascii :=
  if is_lower c then ascii_of_nat (nat_of_ascii c - 32) else c.

Fixpoint map_chars (f : ascii -> ascii) (s : string) : string :=
  match s with
  | EmptyString => EmptyString
  | String c t => String (f c) (map_chars f t)
  end.

(** [s.lower()] *)
Definition lower (s : string) : string := map_chars lower_char s.

(** [len(s)] *)
Definition len (s : string) : nat := String.length s.

(** [bool(s)]: a string is truthy when it is not empty. *)
Definition truthy (s : string) : bool :=
  match s with EmptyString => false | String _ _ => true end.

Fixpoint starts_with (p s : string) : bool :=
  match p, s with
  | EmptyString, _ => true
  | String a p', String b s' => if Ascii.eqb a b then starts_with p' s' else false
  | String _ _, EmptyString => false
  end.

(** [needle in hay] *)
Fixpoint contains (needle hay : string) : bool :=
  starts_with needle hay ||
  match hay with
  | EmptyString => false
  | String _ t => contains needle t
  end.

Fixpoint take (n : nat) (s : string) : string :=
  match n, s with
  | S n', String c t => String c (take n' t)
  | _, _ => EmptyString
  end.

Fixpoint lstrip (s : string) : string :=
  match s with
  | String c t => if is_space c then lstrip t else s
  | EmptyString => EmptyString
  end.

Fixpoint rstrip (s : string) : string :=
  match s with
  | EmptyString => EmptyString
  | String c t =>
      match rstrip t with
      | EmptyString => if is_space c then EmptyString else String c EmptyString
      | t' => String c t'
      end
  end.

(** [s.strip()] *)
Definition strip (s : string) : string := rstrip (lstrip s).

(** [s.split()]: the maximal runs of non-whitespace characters.  [cur]
    is the run being read, in reverse. *)
Fixpoint split_aux (cur : list ascii) (s : string) : list string :=
  match s with
  | EmptyString =>
      match cur with
      | [] => []
      | _ => [string_of_list_ascii (rev cur)]
      end
  | String c t =>
      if is_space c then
        match cur with
        | [] => split_aux [] t
        | _ => string_of_list_ascii (rev cur) :: split_aux [] t
        end
      else split_aux (c :: cur) t
  end.

Definition split (s : string) : list string := split_aux [] s.

(** [sep.join(parts)] *)
Fixpoint join (sep : string) (parts : list string) : string :=
  match parts with
  | [] => EmptyString
  | [p] => p
  | p :: rest => p ++ sep ++ join sep rest
  end.

(** [s.replace(old, new)] for a non-empty [old]: the leftmost
    non-overlapping occurrences.  [skip] counts the characters of the
    occurrence that is being replaced and are still to be dropped. *)
Fixpoint replace_aux (old new : string) (skip : nat) (s : string) : string :=
  match s with
  | EmptyString => EmptyString
  | String c t =>
      match skip with
      | S k => replace_aux old new k t
      | O =>
          if starts_with old s
          then new ++ replace_aux old new (len old - 1) t
          else String c (replace_aux old new 0 t)
      end
  end.

Definition replace (old new s : string) : string := replace_aux old new 0 s.

(** [re.sub(r'[^\w\s]', ' ', s)] *)
Definition sub_nonword_space (s : string) : string :=
  map_chars (fun c => if is_word c || is_space c then c else " "%char) s.

(** [re.sub(r'\s+', ' ', s)]: every run of whitespace becomes one space. *)
Fixpoint collapse_spaces_aux (in_run : bool) (s : string) : string :=
  match s with
  | EmptyString => EmptyString
  | String c t =>
      if is_space c then
        if in_run then collapse_spaces_aux true t
        else String " "%char (collapse_spaces_aux true t)
      else String c (collapse_spaces_aux false t)
  end.

Definition collapse_spaces (s : string) : string := collapse_spaces_aux false s.

End PyStr.

(** ** The regular expressions of [re.findall]

    The patterns of the repository use literals, [\d], [\s], sequence,
    alternation, the greedy [?], [*] and [+], non-capturing groups and
    one capturing group.  The matcher is the backtracking one of Python's
    [re]: alternatives left to right, greedy repetition first, written
    with a success continuation. *)

Module Re.

Inductive regex : Type :=
| Eps
| Lit (c : ascii)
| Digit
| Space
| Seq (r1 r2 : regex)
| Alt (r1 r2 : regex)
| Opt (r : regex)
| Star (r : regex)
| Plus (r : regex)
| Group (r : regex).

(** A literal string, character by character. *)
Fixpoint lit (s : string) : regex :=
  match s with
  | EmptyString => Eps
  | String c EmptyString => Lit c
  | String c t => Seq (Lit c) (lit t)
  end.

Section Matcher.
Context {R : Type}.

(** [ignorecase] is the flag [re.IGNORECASE].  [cap] is the text of
    the capturing group, when it has been closed. *)
Variable ignorecase : bool.

Definition char_matches (c d : ascii) : bool :=
  if ignorecase then Ascii.eqb (PyStr.lower_char c) (PyStr.lower_char d)
  else Ascii.eqb c d.

Definition one_char (p : ascii -> bool) (s : string) (cap : option string)
    (k : string -> option string -> option R) : option R :=
  match s with
  | String d t => if p d then k t cap else None
  | EmptyString => None
  end.

Definition or_else (a : option R) (b : unit -> option R) : option R :=
  match a with Some x => Some x | None => b tt end.

Fixpoint run (r : regex) (s : string) (cap : option string)
    (k : string -> option string -> option R) {struct r} : option R :=
  match r with
  | Eps => k s cap
  | Lit c => one_char (char_matches c) s cap k
  | Digit => one_char PyStr.is_digit s cap k
  | Space => one_char PyStr.is_space s cap k
  | Seq r1 r2 => run r1 s cap (fun s1 cap1 => run r2 s1 cap1 k)
  | Alt r1 r2 => or_else (run r1 s cap k) (fun _ => run r2 s cap k)
  | Opt r1 => or_else (run r1 s cap k) (fun _ => k s cap)
  | Star r1 =>
      (fix star (n : nat) (s0 : string) (cap0 : option string) {struct n} : option R :=
         match n with
         | O => k s0 cap0
         | S n' =>
             or_else
               (run r1 s0 cap0 (fun s1 cap1 =>
                  if (PyStr.len s1 <? PyStr.len s0)%nat then star n' s1 cap1 else None))
               (fun _ => k s0 cap0)
         end) (PyStr.len s) s cap
  | Plus r1 =>
      run r1 s cap (fun s' cap' =>
      (fix star (n : nat) (s0 : string) (cap0 : option string) {struct n} : option R :=
         match n with
         | O => k s0 cap0
         | S n' =>
             or_else
               (run r1 s0 cap0 (fun s1 cap1 =>
                  if (PyStr.len s1 <? PyStr.len s0)%nat then star n' s1 cap1 else None))
               (fun _ => k s0 cap0)
         end) (PyStr.len s') s' cap')
  | Group r1 =>
      run r1 s cap (fun s' _ => k s' (Some (PyStr.take (PyStr.len s - PyStr.len s') s)))
  end.
End Matcher.

(** [pattern.match] at the start of [s]: the captured group (the empty
    string when the group took no part) and the rest of the text. *)
Definition match_here (ignorecase : bool) (r : regex) (s : string) : option (string * string) :=
  run ignorecase r s None (fun rest cap => Some (default EmptyString cap, rest)).

(** [re.findall(pattern, text, flags)] for a pattern with one group:
    the group of every non-overlapping match, left to right. *)
Fixpoint findall_aux (fuel : nat) (ignorecase : bool) (r : regex) (s : string) : list string :=
  match fuel with
  | O => []
  | S fuel' =>
      match match_here ignorecase r s with
      | Some (g, rest) =>
          if (PyStr.len rest <? PyStr.len s)%nat
          then g :: findall_aux fuel' ignorecase r rest
          else g :: match s with
                    | EmptyString => []
                    | String _ t => findall_aux fuel' ignorecase r t
                    end
      | None =>
          match s with
          | EmptyString => []
          | String _ t => findall_aux fuel' ignorecase r t
          end
      end
  end.

Definition findall (ignorecase : bool) (r : regex) (s : string) : list string :=
  findall_aux (S (PyStr.len s)) ignorecase r s.

End Re.

(** ** Numbers *)

(** [x < y] on floats *)
Definition Qlt_bool (x y : Q) : bool := negb (Qle_bool y x).

(** The value of a string of decimal digits. *)
Fixpoint digits_value (acc : Z) (s : string) : option Z :=
  match s with
  | EmptyString => Some acc
  | String c t =>
      if PyStr.is_digit c
      then digits_value (10 * acc + Z.of_nat (nat_of_ascii c - 48)) t
      else None
  end.

Fixpoint split_at_dot (s : string) : string * option string :=
  match s with
  | EmptyString => (EmptyString, None)
  | String c t =>
      if Ascii.eqb c "."%char then (EmptyString, Some t)
      else let '(a, b) := split_at_dot t in (String c a, b)
  end.

(** [float(s)] on the texts the patterns capture, the unsigned decimal
    numerals [ddd] and [ddd.ddd] (and on [ddd.] and [.ddd]).  A text
    with any other character gives [None], the [ValueError] that skips
    the match; no pattern captures such a text. *)
Definition float_of_string (s : string) : option Q :=
  match split_at_dot s with
  | (ip, None) =>
      if PyStr.truthy ip then inject_Z <$> digits_value 0 ip else None
  | (ip, Some fp) =>
      if PyStr.truthy ip || PyStr.truthy fp then
        i ← digits_value 0 ip;
        f ← digits_value 0 fp;
        Some (inject_Z i + Qmake f (Pos.pow 10 (Pos.of_nat (PyStr.len fp))))%Q
      else None
  end.

(** ** Exceptions and values *)

Inductive exn : Type :=
| TypeError (msg : string)
| AttributeError (msg : string)
| ZeroDivisionError (msg : string)
| OverflowError (msg : string)
| LibraryError (msg : string).

(** [str(e)] *)
Definition str_of_exn (e : exn) : string :=
  match e with
  | TypeError m | AttributeError m | ZeroDivisionError m | OverflowError m
  | LibraryError m => m
  end.

Inductive result (A : Type) : Type :=
| Ok (a : A)
| Raise (e : exn).
Arguments Ok {A} a.
Arguments Raise {A} e.

#[global] Instance result_ret : MRet result := fun A a => Ok a.
#[global] Instance result_bind : MBind result := fun A B f m =>
  match m with
  | Ok a => f a
  | Raise e => Raise e
  end.

#[global] Instance result_fmap : FMap result := fun A B f m =>
  match m with
  | Ok a => Ok (f a)
  | Raise e => Raise e
  end.

Definition is_ok {A} (r : result A) : bool :=
  match r with Ok _ => true | Raise _ => false end.

(** [mapM]: the results of [f] on the elements, left to right, or the
    first exception. *)
Fixpoint result_map {A B} (f : A -> result B) (l : list A) : result (list B) :=
  match l with
  | [] => Ok []
  | x :: t => y ← f x; ys ← result_map f t; Ok (y :: ys)
  end.

(** A company match, the dict built in [match_companies]. *)
Record CompanyMatch : Type := {
  cm_symbol : string;
  cm_company_name : string;
  cm_matched_variant : string;
  cm_confidence : Q
}.

(** A row of the company table. *)
Record CompanyRecord : Type := {
  symbol : string;
  company_name : string
}.

(** The values stored in an article or an analysis.  A [datetime] is
    given by its second, counted from 1970-01-01 00:00:00 on its own
    clock; it is naive ([VDate], what [datetime.now()] and the RSS
    parser give) or carries a time zone ([VAwareDate], what the
    article parser can give), and the two kinds can be neither
    subtracted nor ordered with each other. *)
Inductive pyval : Type :=
| VNone
| VStr (s : string)
| VInt (n : Z)
| VFloat (q : Q)
| VDate (t : Z)                                  (* a naive [datetime], in seconds *)
| VAwareDate (t : Z)                             (* a [datetime] with a time zone *)
| VFloats (l : list Q)
| VStrs (l : list string)
| VKeywords (d : list (string * list string))    (* category -> phrases, in insertion order *)
| VCompanies (l : list CompanyMatch).

Abbreviation pydict := (gmap string pyval).

(** [bool(v)] *)
Definition truthy (v : pyval) : bool :=
  match v with
  | VNone => false
  | VStr s => PyStr.truthy s
  | VInt n => negb (n =? 0)%Z
  | VFloat q => negb (Qeq_bool q 0)
  | VDate _ | VAwareDate _ => true
  | VFloats l => match l with [] => false | _ => true end
  | VStrs l => match l with [] => false | _ => true end
  | VKeywords d => match d with [] => false | _ => true end
  | VCompanies l => match l with [] => false | _ => true end
  end.

(** [d.get(k, default)] *)
Definition get (d : pydict) (k : string) (dflt : pyval) : pyval :=
  default dflt (d !! k).

(** A value used as a number: an [int] or a [float]. *)
Definition as_number (v : pyval) : result Q :=
  match v with
  | VInt n => Ok (inject_Z n)
  | VFloat q => Ok q
  | _ => Raise (TypeError "unsupported operand type(s)")
  end.

(** [d[k]] for a dict of lists: the list under [k]. *)
Fixpoint kw_lookup (d : list (string * list string)) (k : string) : option (list string) :=
  match d with
  | [] => None
  | (k', v) :: t => if String.eqb k' k then Some v else kw_lookup t k
  end.

(** ** The environment *)

Record Env : Type := {
  (** [TextBlob(text).sentiment]: polarity and subjectivity *)
  textblob_sentiment : string -> result (Q * Q);
  (** [nltk.tokenize.sent_tokenize] *)
  sent_tokenize : string -> result (list string);
  (** [list(set(l))]: the elements of [l], once each, in the order the
      set iterates them *)
  list_of_set : list string -> list string;
  (** [datetime.now()], in seconds *)
  now : Z;
  (** [str(v)] for a value that is not a string *)
  str_of_other : pyval -> string
}.

(** What is known of [list(set(l))]: no repetition, the same elements. *)
Definition set_order_ok (env : Env) : Prop :=
  forall l, NoDup (list_of_set env l) /\ forall x, x ∈ list_of_set env l <-> x ∈ l.

(** [str(v)] *)
Definition py_str (env : Env) (v : pyval) : string :=
  match v with
  | VStr s => s
  | _ => str_of_other env v
  end.

(** ** config.py *)

Definition INVESTMENT_KEYWORDS : list (string * list string) :=
  [ ("positive",
     [ "new project"; "expansion"; "investment"; "acquisition"; "merger";
       "contract"; "order"; "partnership"; "launch"; "growth"; "profit";
       "revenue increase"; "earnings beat"; "dividend"; "buyback";
       "capacity expansion"; "new facility"; "joint venture"; "collaboration";
       "funding"; "ipo"; "listing"; "upgraded"; "outperform"; "buy rating";
       "tie-up"; "agreement"; "approval"; "license"; "patent"; "innovation";
       "technology"; "digital transformation"; "renewable energy"; "green";
       "sustainable"; "export"; "international expansion" ]);
    ("negative",
     [ "loss"; "decline"; "fall"; "drop"; "downgrade"; "sell rating";
       "bankruptcy"; "debt"; "lawsuit"; "fine"; "penalty"; "investigation";
       "scandal"; "fraud"; "closure"; "layoff"; "restructuring"; "warning";
       "miss"; "disappointing"; "weak"; "poor performance"; "regulatory action";
       "suspension"; "delisting"; "default"; "impairment"; "write-off" ]);
    ("neutral",
     [ "announcement"; "statement"; "results"; "quarterly"; "annual";
       "meeting"; "conference"; "presentation"; "update"; "report";
       "guidance"; "outlook"; "forecast"; "management change"; "appointment" ]) ].

Definition min_article_length : nat := 100.
Definition relevance_threshold : Q := 0.3.

(** ** utils.py *)

Definition suffixes_to_remove : list string :=
  [ " limited"; " ltd"; " ltd."; " corporation"; " corp"; " corp.";
    " company"; " co"; " co."; " inc"; " inc."; " llc";
    " private limited"; " pvt ltd"; " pvt. ltd.";
    " public limited"; " plc" ].

(** [clean_company_name]: lower-case, the suffixes removed one after
    the other wherever they occur, punctuation to spaces, whitespace
    collapsed and stripped. *)
Definition clean_company_name (name : string) : string :=
  let name_clean :=
    fold_left (fun acc suffix => PyStr.replace suffix "" acc)
              suffixes_to_remove (PyStr.lower name) in
  let name_clean := PyStr.sub_nonword_space name_clean in
  PyStr.strip (PyStr.collapse_spaces name_clean).

(** [''.join([word[0].upper() for word in words if word])] *)
Fixpoint acronym_of (words : list string) : string :=
  match words with
  | [] => EmptyString
  | String c _ :: t => String (PyStr.upper_char c) (acronym_of t)
  | EmptyString :: t => acronym_of t
  end.

(** The list [variants] of [extract_company_variants] before the final
    [list(set(variants))]. *)
Definition company_variants_list (company_name : string) : list string :=
  let variants := [company_name] in
  let clean_name := clean_company_name company_name in
  let variants :=
    if PyStr.truthy clean_name && negb (String.eqb clean_name (PyStr.lower company_name))
    then (variants ++ [clean_name])%list else variants in
  let words := PyStr.split clean_name in
  let variants :=
    if (1 <? length words)%nat then
      let acronym := acronym_of words in
      if (1 <? PyStr.len acronym)%nat then (variants ++ [acronym])%list else variants
    else variants in
  let variants :=
    if (2 <=? length words)%nat then
      (variants ++ [PyStr.join " " (take (Nat.min 3 (length words)) words)])%list
    else variants in
  variants.

Definition extract_company_variants (env : Env) (company_name : string) : list string :=
  list_of_set env (company_variants_list company_name).

Import Re.

(** [\d+(?:\.\d+)?] *)
Definition re_number : regex :=
  Seq (Plus Digit) (Opt (Seq (Lit "."%char) (Plus Digit))).

(** [\d+(?:,\d+)*(?:\.\d+)?] *)
Definition re_number_commas : regex :=
  Seq (Plus Digit)
      (Seq (Star (Seq (Lit ","%char) (Plus Digit)))
           (Opt (Seq (Lit "."%char) (Plus Digit)))).

(** [(number)\s*(?:unit)] *)
Definition re_with_unit (unit : regex) : regex :=
  Seq (Group re_number) (Seq (Star Space) unit).

(** The seven patterns of [extract_numbers_from_text], in order. *)
Definition number_patterns : list regex :=
  [ re_with_unit (Alt (Seq (lit "crore") (Opt (Lit "s"%char)))
                      (Seq (lit "cr") (Opt (Lit "."%char))));
    re_with_unit (Alt (Seq (lit "lakh") (Opt (Lit "s"%char))) (lit "lakh"));
    re_with_unit (Alt (Seq (lit "thousand") (Opt (Lit "s"%char))) (Lit "k"%char));
    re_with_unit (Alt (Seq (lit "million") (Opt (Lit "s"%char)))
                      (Seq (lit "mn") (Opt (Lit "."%char))));
    re_with_unit (Alt (Seq (lit "billion") (Opt (Lit "s"%char)))
                      (Seq (lit "bn") (Opt (Lit "."%char))));
    Seq (lit "₹") (Seq (Star Space) (Group re_number_commas));
    Seq (Lit "$"%char) (Seq (Star Space) (Group re_number_commas)) ].

(** [float(match.replace(',', ''))] for every match, a [ValueError]
    skipping the match. *)
Definition floats_of_matches (matches : list string) : list Q :=
  omap (fun m => float_of_string (PyStr.replace "," "" m)) matches.

Definition extract_numbers_from_text (text : string) : list Q :=
  flat_map (fun pattern => floats_of_matches (findall true pattern text))
           number_patterns.

(** [len(keywords_found.get(category, []))] *)
Definition category_count (keywords_found : list (string * list string))
    (category : string) : nat :=
  length (default [] (kw_lookup keywords_found category)).

Definition categorize_news_impact (keywords_found : list (string * list string))
    (sentiment_score : Q) : string :=
  let positive_count := category_count keywords_found "positive" in
  let negative_count := category_count keywords_found "negative" in
  if (negative_count <? positive_count)%nat && Qlt_bool 0.1 sentiment_score then
    "Highly Positive"
  else if (0 <? positive_count)%nat && Qlt_bool 0.05 sentiment_score then
    "Positive"
  else if (positive_count <? negative_count)%nat && Qlt_bool sentiment_score (-0.1) then
    "Highly Negative"
  else if (0 <? negative_count)%nat && Qlt_bool sentiment_score (-0.05) then
    "Negative"
  else
    "Neutral".

Local Open Scope Q_scope.

Definition credible_sources : list string :=
  [ "economic times"; "business standard"; "mint"; "moneycontrol" ].

(** [(datetime.now() - pub_date).days]: whole days, rounded down. *)
Definition days_old (env : Env) (pub_date : Z) : Z :=
  ((now env - pub_date) / 86400)%Z.

(** The loop over [keywords.items()]. *)
Definition keyword_score (keywords : list (string * list string)) : Q :=
  fold_left
    (fun acc '(category, words) =>
       let n := inject_Z (Z.of_nat (length words)) in
       if String.eqb category "positive" then acc + n * 0.1
       else if String.eqb category "negative" then acc + n * 0.1
       else acc + n * 0.05)
    keywords 0.

Definition calculate_investment_score (env : Env) (article_data : pydict) : result Q :=
  let score := 0 in
  sentiment ← as_number (get article_data "sentiment_score" (VInt 0));
  let score := score + Qabs sentiment * 0.4 in
  keywords ← match get article_data "keywords_found" (VKeywords []) with
              | VKeywords d => Ok d
              | _ => Raise (AttributeError "object has no attribute 'items'")
              end;
  let score := score + Qmin (keyword_score keywords) 0.3 in
  let pub_date := get article_data "published_date" VNone in
  score ← (if truthy pub_date then
              match pub_date with
              | VDate t =>
                  let recency_score :=
                    Qmax 0 ((7 - inject_Z (days_old env t)) / 7) * 0.2 in
                  Ok (score + recency_score)
              | VAwareDate _ =>
                  Raise (TypeError "can't subtract offset-naive and offset-aware datetimes")
              | _ => Raise (TypeError "unsupported operand type(s) for -")
              end
            else Ok score);
  source ← match get article_data "source" (VStr "") with
            | VStr s => Ok (PyStr.lower s)
            | _ => Raise (AttributeError "object has no attribute 'lower'")
            end;
  let score :=
    if existsb (fun cs => PyStr.contains cs source) credible_sources
    then score + 0.1 else score in
  Ok (Qmin score 1).

(** ** analyzer.py *)

(** [NewsAnalyzer.__init__]: the lexicon of [config.py] with the
    analyzer's own positive and negative phrases appended. *)
Definition extend_category (category : string) (more : list string)
    (d : list (string * list string)) : list (string * list string) :=
  map (fun '(k, v) => if String.eqb k category then (k, (v ++ more)%list) else (k, v)) d.

Definition investment_keywords : list (string * list string) :=
  extend_category "negative"
    [ "bear"; "pessimistic"; "concern"; "worry"; "risk"; "threat";
      "challenge"; "struggle"; "disappointing"; "miss estimates";
      "cut"; "reduce"; "lower"; "below expectations"; "uncertainty" ]
    (extend_category "positive"
       [ "breakthrough"; "milestone"; "success"; "achievement"; "win";
         "record"; "strong performance"; "beat expectations"; "exceed";
         "surge"; "rally"; "boost"; "positive outlook"; "optimistic";
         "upgrade"; "recommend"; "target price"; "bull"; "momentum" ]
       INVESTMENT_KEYWORDS).

Definition content_fields : list string :=
  [ "content"; "description"; "summary"; "title" ].

Definition _extract_text_content (env : Env) (article : pydict) : string :=
  let content_parts :=
    omap (fun field =>
            match article !! field with
            | Some v => if truthy v then Some (py_str env v) else None
            | None => None
            end) content_fields in
  PyStr.strip (PyStr.join " " content_parts).

Definition _get_sentiment_label (polarity : Q) : string :=
  if Qlt_bool 0.1 polarity then "Positive"
  else if Qlt_bool polarity (-0.1) then "Negative"
  else "Neutral".

(** The body of the [try] of [analyze_sentiment]. *)
Definition analyze_sentiment_try (env : Env) (text : string) : result pydict :=
  '(polarity, subjectivity) ← textblob_sentiment env text;
  sentences ← sent_tokenize env text;
  sentence_sentiments ←
    result_map (fun sentence => fst <$> textblob_sentiment env sentence)
               (List.filter (fun sentence => (3 <? length (PyStr.split sentence))%nat) sentences);
  let positive_sentences := length (List.filter (fun s => Qlt_bool 0.1 s) sentence_sentiments) in
  let negative_sentences := length (List.filter (fun s => Qlt_bool s (-0.1)) sentence_sentiments) in
  let neutral_sentences :=
    (Z.of_nat (length sentence_sentiments) - Z.of_nat positive_sentences
     - Z.of_nat negative_sentences)%Z in
  Ok (list_to_map
        [ ("sentiment_score", VFloat polarity);
          ("sentiment_subjectivity", VFloat subjectivity);
          ("sentiment_label", VStr (_get_sentiment_label polarity));
          ("positive_sentences", VInt (Z.of_nat positive_sentences));
          ("negative_sentences", VInt (Z.of_nat negative_sentences));
          ("neutral_sentences", VInt neutral_sentences);
          ("sentence_sentiments", VFloats sentence_sentiments) ]).

Definition analyze_sentiment (env : Env) (text : string) : pydict :=
  match analyze_sentiment_try env text with
  | Ok d => d
  | Raise e =>
      list_to_map
        [ ("sentiment_score", VFloat 0);
          ("sentiment_subjectivity", VFloat 0);
          ("sentiment_label", VStr "Neutral");
          ("error", VStr (str_of_exn e)) ]
  end.

Definition extract_investment_keywords (env : Env) (text : string) : pydict :=
  let text_lower := PyStr.lower text in
  let keywords_found :=
    map (fun '(category, keywords) =>
           (category,
            list_of_set env
              (List.filter (fun keyword => PyStr.contains (PyStr.lower keyword) text_lower)
                           keywords)))
        investment_keywords in
  let total_words := length (PyStr.split text) in
  let total_keywords := fold_right (fun '(_, kw_list) acc => (length kw_list + acc)%nat) O keywords_found in
  let keyword_density :=
    if (0 <? total_words)%nat
    then VFloat (inject_Z (Z.of_nat total_keywords) / inject_Z (Z.of_nat total_words))
    else VInt 0 in
  list_to_map
    [ ("keywords_found", VKeywords keywords_found);
      ("keyword_density", keyword_density);
      ("total_investment_keywords", VInt (Z.of_nat total_keywords)) ].

(** [sorted(l, key=key, reverse=True)] and [l.sort(key=key,
    reverse=True)]: descending by key, elements of equal key in their
    original order.  The sort of Python is stable, also when reversed,
    which determines the result; it is written as an insertion sort. *)
Section Sort.
Context {A : Type} (key : A -> Q).

Fixpoint insert_desc (x : A) (l : list A) : list A :=
  match l with
  | [] => [x]
  | y :: t => if Qlt_bool (key x) (key y) then y :: insert_desc x t else x :: y :: t
  end.

Fixpoint sort_desc (l : list A) : list A :=
  match l with
  | [] => []
  | x :: t => insert_desc x (sort_desc t)
  end.

(** The order of the result: descending by key. *)
Definition desc (x y : A) : Prop := key y <= key x.
End Sort.

Definition context_words : list string :=
  [ "company"; "limited"; "ltd"; "corporation"; "inc"; "announces"; "reports" ].

Definition common_words : list string :=
  [ "the"; "and"; "or"; "in"; "on"; "at"; "to"; "for"; "of"; "with" ].

(** [x in l] for a list of strings *)
Definition str_in_list (x : string) (l : list string) : bool :=
  existsb (String.eqb x) l.

(** The indices [i] with [match in words[i]]. *)
Fixpoint match_positions_from (i : nat) (mtch : string) (words : list string) : list nat :=
  match words with
  | [] => []
  | word :: t =>
      if PyStr.contains mtch word
      then i :: match_positions_from (S i) mtch t
      else match_positions_from (S i) mtch t
  end.

(** [words[start:stop]] *)
Definition slice {A} (start stop : nat) (l : list A) : list A :=
  take (stop - start) (drop start l).

Definition _get_words_around_match (text mtch : string) (window : nat) : list string :=
  let words := PyStr.split text in
  let match_positions := match_positions_from 0 mtch words in
  flat_map (fun pos =>
              let start := Nat.max 0 (pos - window) in
              let stop := Nat.min (length words) (pos + window + 1) in
              slice start stop words)
           match_positions.

Definition _calculate_match_confidence (text variant full_name : string) : Q :=
  let text_lower := PyStr.lower text in
  let variant_lower := PyStr.lower variant in
  let confidence := 0 in
  let confidence :=
    if PyStr.contains variant_lower text_lower then confidence + 0.4 else confidence in
  let confidence :=
    if PyStr.contains (PyStr.lower full_name) text_lower then confidence + 0.3 else confidence in
  let words_around_match := _get_words_around_match text_lower variant_lower 10 in
  let confidence :=
    fold_left (fun confidence word =>
                 if str_in_list word words_around_match then confidence + 0.1 else confidence)
              context_words confidence in
  let confidence :=
    if str_in_list variant_lower common_words then confidence - 0.5 else confidence in
  Qmin confidence 1.

(** The loop over the variants of one company: the match appended to
    [matched_companies], if any.  The [break] is taken only inside the
    test [confidence > 0.3]. *)
Fixpoint scan_variants (text text_lower : string) (row : CompanyRecord)
    (variants : list string) : option CompanyMatch :=
  match variants with
  | [] => None
  | variant :: rest =>
      if (2 <? PyStr.len variant)%nat && PyStr.contains (PyStr.lower variant) text_lower then
        let confidence := _calculate_match_confidence text variant (company_name row) in
        if Qlt_bool 0.3 confidence then
          Some {| cm_symbol := symbol row;
                  cm_company_name := company_name row;
                  cm_matched_variant := variant;
                  cm_confidence := confidence |}
        else scan_variants text text_lower row rest
      else scan_variants text text_lower row rest
  end.

(** The variants scanned for a row: those of the name, then the symbol
    when it is not empty. *)
Definition row_variants (env : Env) (row : CompanyRecord) : list string :=
  let variants := extract_company_variants env (company_name row) in
  if PyStr.truthy (symbol row) then (variants ++ [symbol row])%list else variants.

Definition match_row (env : Env) (text text_lower : string) (row : CompanyRecord)
    : option CompanyMatch :=
  if negb (PyStr.truthy (company_name row)) then None
  else scan_variants text text_lower row (row_variants env row).

(** [unique_companies[symbol] = company] when the symbol is new or the
    confidence is higher; the dict keeps the position of the first
    insertion of a key. *)
Fixpoint unique_update (company : CompanyMatch) (unique : list (string * CompanyMatch))
    : list (string * CompanyMatch) :=
  match unique with
  | [] => [(cm_symbol company, company)]
  | (k, old) :: t =>
      if String.eqb k (cm_symbol company) then
        if Qlt_bool (cm_confidence old) (cm_confidence company)
        then (k, company) :: t else (k, old) :: t
      else (k, old) :: unique_update company t
  end.

Definition match_companies (env : Env) (text : string) (companies_df : list CompanyRecord)
    : pydict :=
  let text_lower := PyStr.lower text in
  let matched_companies := omap (match_row env text text_lower) companies_df in
  let unique_companies := fold_left (fun u c => unique_update c u) matched_companies [] in
  let sorted_companies := sort_desc cm_confidence (map snd unique_companies) in
  list_to_map
    [ ("matched_companies", VCompanies (take 5 sorted_companies));
      ("company_count", VInt (Z.of_nat (length sorted_companies))) ].

(** [(\d+(?:\.\d+)?)\s*(?:%|percent|per cent)] *)
Definition percentage_pattern : regex :=
  re_with_unit (Alt (Lit "%"%char) (Alt (lit "percent") (lit "per cent"))).

Definition financial_terms : list string :=
  [ "revenue"; "profit"; "loss"; "earnings"; "ebitda"; "dividend";
    "market cap"; "valuation"; "investment"; "funding"; "debt";
    "cash flow"; "assets"; "liabilities"; "equity"; "roe"; "roa";
    "pe ratio"; "eps"; "book value"; "sales"; "growth" ].

Definition extract_financial_info (text : string) : result pydict :=
  let numbers := extract_numbers_from_text text in
  let percentages := omap float_of_string (findall true percentage_pattern text) in
  let text_lower := PyStr.lower text in
  let financial_mentions := List.filter (fun term => PyStr.contains term text_lower) financial_terms in
  financial_density ←
    (if PyStr.truthy text then
       match length (PyStr.split text) with
       | O => Raise (ZeroDivisionError "division by zero")
       | S _ as n => Ok (VFloat (inject_Z (Z.of_nat (length financial_mentions)) / inject_Z (Z.of_nat n)))
       end
     else Ok (VInt 0));
  Ok (list_to_map
        [ ("financial_numbers", VFloats numbers);
          ("percentages_mentioned", VFloats percentages);
          ("financial_terms", VStrs financial_mentions);
          ("financial_density", financial_density) ]).

Definition _calculate_relevance_score (analysis : pydict) : result Q :=
  let score := 0 in
  n ← as_number (get analysis "total_investment_keywords" (VInt 0));
  let keyword_score := Qmin (n * 0.05) 0.3 in
  let score := score + keyword_score in
  s ← as_number (get analysis "sentiment_score" (VInt 0));
  let sentiment_strength := Qabs s * 0.25 in
  let score := score + sentiment_strength in
  c ← as_number (get analysis "company_count" (VInt 0));
  let company_score := Qmin (c * 0.1) 0.2 in
  let score := score + company_score in
  d ← as_number (get analysis "financial_density" (VInt 0));
  let financial_score := d * 0.15 in
  let score := score + financial_score in
  content_length ← as_number (get analysis "content_length" (VInt 0));
  let quality_score := Qmin (content_length / 1000) 1 * 0.1 in
  let score := score + quality_score in
  Ok (Qmin score 1).

(** [analysis.get('keywords_found', {})] read as a dict of lists *)
Definition as_keywords (v : pyval) : result (list (string * list string)) :=
  match v with
  | VKeywords d => Ok d
  | _ => Raise (AttributeError "object has no attribute 'get'")
  end.

(** The identity fields set when [analyze_article] starts. *)
Definition identity_fields (article : pydict) : pydict :=
  list_to_map
    [ ("article_id", get article "url" (get article "link" (VStr "")));
      ("title", get article "title" (VStr ""));
      ("source", get article "source" (VStr ""));
      ("published_date", get article "published_date" VNone);
      ("url", get article "url" (get article "link" (VStr ""))) ].

(** [not content or len(content) < ANALYSIS_CONFIG['min_article_length']] *)
Definition insufficient (content : string) : bool :=
  negb (PyStr.truthy content) || (PyStr.len content <? min_article_length)%nat.

Definition analyze_article (env : Env) (article : pydict)
    (companies_df : option (list CompanyRecord)) : result pydict :=
  let analysis := identity_fields article in
  let content := _extract_text_content env article in
  if insufficient content then
    Ok (<["error" := VStr "Insufficient content"]> analysis)
  else
    let analysis := <["content_length" := VInt (Z.of_nat (PyStr.len content))]> analysis in
    (* analysis.update(r) is r ∪ analysis: the keys of r win *)
    let analysis := analyze_sentiment env content ∪ analysis in
    let analysis := extract_investment_keywords env content ∪ analysis in
    let analysis :=
      match companies_df with
      | Some df => match_companies env content df ∪ analysis
      | None => analysis
      end in
    financial_result ← extract_financial_info content;
    let analysis := financial_result ∪ analysis in
    investment_score ← calculate_investment_score env analysis;
    let analysis := <["investment_score" := VFloat investment_score]> analysis in
    keywords_found ← as_keywords (get analysis "keywords_found" (VKeywords []));
    sentiment_score ← as_number (get analysis "sentiment_score" (VInt 0));
    let analysis :=
      <["impact_category" := VStr (categorize_news_impact keywords_found sentiment_score)]>
        analysis in
    relevance_score ← _calculate_relevance_score analysis;
    Ok (<["relevance_score" := VFloat relevance_score]> analysis).

(** [v[:50]] inside the log line of the batch: a string or a list can
    be sliced, the other values cannot. *)
Definition check_sliceable (v : pyval) : result unit :=
  match v with
  | VStr _ | VFloats _ | VStrs _ | VCompanies _ => Ok tt
  | _ => Raise (TypeError "object is not subscriptable")
  end.

(** The [try] block of the batch for the article of index [i]. *)
Definition analyze_logged (env : Env) (companies_df : option (list CompanyRecord))
    (article : pydict) : result pydict :=
  _ ← check_sliceable (get article "title" (VStr "No title"));
  analyze_article env article companies_df.

(** The dict appended by the [except] branch of the batch. *)
Definition error_analysis (i : nat) (article : pydict) (e : exn) : pydict :=
  list_to_map
    [ ("article_id", get article "url" (get article "link" (VStr ("article_" +:+ pretty i))));
      ("error", VStr (str_of_exn e));
      ("title", get article "title" (VStr ""));
      ("source", get article "source" (VStr "")) ].

Definition batch_step (env : Env) (companies_df : option (list CompanyRecord))
    (i : nat) (article : pydict) : pydict :=
  match analyze_logged env companies_df article with
  | Ok analysis => analysis
  | Raise e => error_analysis i article e
  end.

Definition batch_analyze_articles (env : Env) (articles : list pydict)
    (companies_df : option (list CompanyRecord)) : list pydict :=
  imap (batch_step env companies_df) articles.

(** [article.get('relevance_score', 0)] used as a number *)
Definition relevance_of (article : pydict) : result Q :=
  as_number (get article "relevance_score" (VInt 0)).

(** The loop that fills [relevant_articles]. *)
Fixpoint keep_relevant (min_relevance : Q) (analyzed_articles : list pydict)
    : result (list pydict) :=
  match analyzed_articles with
  | [] => Ok []
  | article :: rest =>
      r ← relevance_of article;
      kept ← keep_relevant min_relevance rest;
      Ok (if Qle_bool min_relevance r then article :: kept else kept)
  end.

(** [filter_relevant_articles]; the sort computes the key of every
    element once, then sorts. *)
Definition filter_relevant_articles (analyzed_articles : list pydict)
    (min_relevance : option Q) : result (list pydict) :=
  let min_relevance := default relevance_threshold min_relevance in
  relevant_articles ← keep_relevant min_relevance analyzed_articles;
  keys ← result_map relevance_of relevant_articles;
  Ok (map snd (sort_desc fst (zip keys relevant_articles))).

(** ** scraper.py: title de-duplication *)

(** [article.get('title', '').lower().strip()] *)
Definition title_of (article : pydict) : result string :=
  match get article "title" (VStr "") with
  | VStr s => Ok (PyStr.strip (PyStr.lower s))
  | _ => Raise (AttributeError "object has no attribute 'lower'")
  end.

(** [set(title.split())] *)
Definition word_set (title : string) : gset string := list_to_set (PyStr.split title).

(** [len(a & b) / len(a | b)] *)
Definition title_similarity (title seen_title : string) : result Q :=
  let a := word_set title in
  let b := word_set seen_title in
  match size (a ∪ b) with
  | O => Raise (ZeroDivisionError "division by zero")
  | S _ as n => Ok (inject_Z (Z.of_nat (size (a ∩ b))) / inject_Z (Z.of_nat n))
  end.

(** The inner loop: [is_duplicate] after the scan of [seen_titles],
    which stops at the first similarity above 0.7. *)
Fixpoint is_duplicate (title : string) (seen_titles : list string) : result bool :=
  match seen_titles with
  | [] => Ok false
  | seen_title :: rest =>
      similarity ← title_similarity title seen_title;
      if Qlt_bool 0.7 similarity then Ok true else is_duplicate title rest
  end.

Fixpoint dedup_loop (articles unique_articles : list pydict) (seen_titles : list string)
    : result (list pydict) :=
  match articles with
  | [] => Ok unique_articles
  | article :: rest =>
      title ← title_of article;
      if negb (PyStr.truthy title) then dedup_loop rest unique_articles seen_titles
      else
        dup ← is_duplicate title seen_titles;
        if (dup : bool) then dedup_loop rest unique_articles seen_titles
        else dedup_loop rest (unique_articles ++ [article])%list (seen_titles ++ [title])%list
  end.

Definition _remove_duplicate_articles (articles : list pydict) : result (list pydict) :=
  dedup_loop articles [] [].

(** ** utils.py: text similarity *)

Definition calculate_text_similarity (text1 text2 : string) : Q :=
  if negb (PyStr.truthy text1) || negb (PyStr.truthy text2) then 0
  else
    let text1_words := word_set (PyStr.lower text1) in
    let text2_words := word_set (PyStr.lower text2) in
    let intersection := size (text1_words ∩ text2_words) in
    let union := size (text1_words ∪ text2_words) in
    if (0 <? union)%nat
    then inject_Z (Z.of_nat intersection) / inject_Z (Z.of_nat union)
    else 0.

(** ** scraper.py: recent articles *)

(** [pub_date and pub_date >= cutoff_date], then [elif not pub_date]:
    whether the article is appended.  The cutoff is a naive
    [datetime]: a date with a time zone cannot be ordered with it, nor
    can a value that is truthy and not a [datetime]. *)
Definition is_recent (cutoff_date : Z) (article : pydict) : result bool :=
  let pub_date := get article "published_date" VNone in
  if truthy pub_date then
    match pub_date with
    | VDate t => Ok (cutoff_date <=? t)%Z
    | VAwareDate _ =>
        Raise (TypeError "can't compare offset-naive and offset-aware datetimes")
    | _ => Raise (TypeError "'>=' not supported between instances")
    end
  else Ok true.

Fixpoint filter_recent_loop (cutoff_date : Z) (articles : list pydict) : result (list pydict) :=
  match articles with
  | [] => Ok []
  | article :: rest =>
      keep ← is_recent cutoff_date article;
      recent_articles ← filter_recent_loop cutoff_date rest;
      Ok (if (keep : bool) then article :: recent_articles else recent_articles)
  end.

(** The range of [timedelta] and of [datetime]: at most 999999999
    days, and from 0001-01-01 00:00:00 to 9999-12-31 23:59:59. *)
Definition max_timedelta_days : Z := 999999999.
Definition datetime_min : Z := -62135596800.
Definition datetime_max : Z := 253402300799.

(** [datetime.now() - timedelta(days=days_back)]: the [timedelta] is
    [days_back] times 86400 seconds; it is refused when it has too
    many days, and so is the subtraction when it leaves the range of
    [datetime]. *)
Definition cutoff_date (env : Env) (days_back : Z) : result Z :=
  if (max_timedelta_days <? Z.abs days_back)%Z then
    Raise (OverflowError
             ("days=" +:+ pretty days_back +:+ "; must have magnitude <= 999999999"))
  else
    let cutoff := (now env - days_back * 86400)%Z in
    if ((cutoff <? datetime_min) || (datetime_max <? cutoff))%Z
    then Raise (OverflowError "date value out of range")
    else Ok cutoff.

Definition filter_recent_articles (env : Env) (articles : list pydict) (days_back : Z)
    : result (list pydict) :=
  cutoff ← cutoff_date env days_back;
  filter_recent_loop cutoff articles.

(** ** analyzer.py: the summary *)

(** The values of the summary dict. *)
Inductive sumval : Type :=
| SStr (s : string)
| SInt (n : Z)
| SFloat (q : Q)
| SCounts (d : list (pyval * nat))                  (* key -> count, in insertion order *)
| SPairs (l : list ((string * string) * nat)).      (* ((keyword, category), count) *)

(** A value that can be the key of a dict: the lists and the dicts
    cannot. *)
Definition hashable (v : pyval) : bool :=
  match v with
  | VFloats _ | VStrs _ | VKeywords _ | VCompanies _ => false
  | _ => true
  end.

(** [a == b] on the values that can be keys; an int and a float of
    the same value are the same key. *)
Definition py_eqb (a b : pyval) : bool :=
  match a, b with
  | VNone, VNone => true
  | VStr s, VStr t => String.eqb s t
  | VInt n, VInt m => (n =? m)%Z
  | VFloat p, VFloat q => Qeq_bool p q
  | VInt n, VFloat q => Qeq_bool (inject_Z n) q
  | VFloat p, VInt m => Qeq_bool p (inject_Z m)
  | VDate s, VDate t => (s =? t)%Z
  | VAwareDate s, VAwareDate t => (s =? t)%Z
  | _, _ => false
  end.

(** [Counter(l)]: every key with the number of its occurrences, the
    keys in the order of their first occurrence. *)
Section Counter.
Context {A : Type} (eqb : A -> A -> bool).

Fixpoint counter_add (x : A) (c : list (A * nat)) : list (A * nat) :=
  match c with
  | [] => [(x, 1%nat)]
  | (y, n) :: t => if eqb y x then (y, S n) :: t else (y, n) :: counter_add x t
  end.

Definition counter (l : list A) : list (A * nat) :=
  fold_left (fun c x => counter_add x c) l [].

(** [c.most_common(n)]: the [n] entries of highest count, entries of
    equal count in the order of the counter. *)
Definition most_common (n : nat) (c : list (A * nat)) : list (A * nat) :=
  take n (sort_desc (fun p => inject_Z (Z.of_nat (snd p))) c).
End Counter.

(** [Counter] of values: an unhashable value is a [TypeError]. *)
Definition counter_of_values (l : list pyval) : result (list (pyval * nat)) :=
  if forallb hashable l then Ok (counter py_eqb l)
  else Raise (TypeError "unhashable type").

Definition pair_eqb (p q : string * string) : bool :=
  String.eqb (fst p) (fst q) && String.eqb (snd p) (snd q).

(** [[c['symbol'] for c in article.get('matched_companies', [])]]:
    the value is a list of matches, or something that iterates to
    nothing. *)
Definition symbols_of (v : pyval) : result (list string) :=
  match v with
  | VCompanies l => Ok (map cm_symbol l)
  | VStr EmptyString | VFloats [] | VStrs [] | VKeywords [] => Ok []
  | _ => Raise (TypeError "indices must be integers")
  end.

(** [[(kw, category) for kw in kw_list]] over [keywords.items()] *)
Definition keyword_pairs (keywords : list (string * list string)) : list (string * string) :=
  flat_map (fun '(category, kw_list) => map (fun kw => (kw, category)) kw_list) keywords.

(** [np.mean] of a list of numbers *)
Definition mean (l : list Q) : Q :=
  fold_right Qplus 0 l / inject_Z (Z.of_nat (length l)).

(** [a.get(key, 0)] of every article, as numbers *)
Definition numbers_at (key : string) (articles : list pydict) : result (list Q) :=
  result_map (fun a => as_number (get a key (VInt 0))) articles.

(** [generate_summary_insights].  [round3] is [round(x, 3)]. *)
Definition generate_summary_insights (round3 : Q -> Q) (analyzed_articles : list pydict)
    : result (gmap string sumval) :=
  match analyzed_articles with
  | [] => Ok {[ "error" := SStr "No articles to analyze" ]}
  | _ =>
      let valid_articles :=
        List.filter (fun a => negb (bool_decide (is_Some (a !! "error")))) analyzed_articles in
      match valid_articles with
      | [] => Ok {[ "error" := SStr "No valid articles found" ]}
      | _ =>
          let sentiment_labels :=
            map (fun a => get a "sentiment_label" (VStr "Neutral")) valid_articles in
          sentiment_dist ← counter_of_values sentiment_labels;
          let impact_categories :=
            map (fun a => get a "impact_category" (VStr "Neutral")) valid_articles in
          impact_dist ← counter_of_values impact_categories;
          all_companies ←
            result_map (fun a => symbols_of (get a "matched_companies" (VCompanies [])))
                       valid_articles;
          let top_companies := most_common 10 (counter String.eqb (concat all_companies)) in
          sentiments ← numbers_at "sentiment_score" valid_articles;
          relevances ← numbers_at "relevance_score" valid_articles;
          investments ← numbers_at "investment_score" valid_articles;
          all_keywords ←
            result_map (fun a => keyword_pairs <$>
                                   as_keywords (get a "keywords_found" (VKeywords [])))
                       valid_articles;
          let top_keywords := most_common 15 (counter pair_eqb (concat all_keywords)) in
          let highly_relevant :=
            length (List.filter (fun r => Qlt_bool 0.6 r) relevances) in
          Ok (list_to_map
                [ ("total_articles", SInt (Z.of_nat (length analyzed_articles)));
                  ("valid_articles", SInt (Z.of_nat (length valid_articles)));
                  ("sentiment_distribution", SCounts sentiment_dist);
                  ("impact_distribution", SCounts impact_dist);
                  ("top_companies_mentioned",
                   SCounts (map (fun '(s, n) => (VStr s, n)) top_companies));
                  ("average_sentiment_score", SFloat (round3 (mean sentiments)));
                  ("average_relevance_score", SFloat (round3 (mean relevances)));
                  ("average_investment_score", SFloat (round3 (mean investments)));
                  ("top_keywords", SPairs top_keywords);
                  ("highly_relevant_articles", SInt (Z.of_nat highly_relevant)) ])
      end
  end.

(** [sorted_companies] of [match_companies]: the matches, one per
    symbol, by descending confidence, before the cut to five. *)
Definition sorted_companies (env : Env) (text : string) (companies_df : list CompanyRecord)
    : list CompanyMatch :=
  let text_lower := PyStr.lower text in
  let matched_companies := omap (match_row env text text_lower) companies_df in
  let unique_companies := fold_left (fun u c => unique_update c u) matched_companies [] in
  sort_desc cm_confidence (map snd unique_companies).

(** * Specification predicates and sample inputs *)

(** The branches of the specification, each guarded by the failure of
    the ones before it: [impact_spec P N s c] says that [c] is the
    category the specification gives for [P] positive matches, [N]
    negative matches and the sentiment score [s]. *)
Definition impact_spec (P N : nat) (s : Q) (c : string) : Prop :=
  let b1 := (P > N)%nat /\ 0.1 < s in
  let b2 := (P > 0)%nat /\ 0.05 < s in
  let b3 := (N > P)%nat /\ s < -0.1 in
  let b4 := (N > 0)%nat /\ s < -0.05 in
  (b1 /\ c = "Highly Positive") \/
  (~ b1 /\ b2 /\ c = "Positive") \/
  (~ b1 /\ ~ b2 /\ b3 /\ c = "Highly Negative") \/
  (~ b1 /\ ~ b2 /\ ~ b3 /\ b4 /\ c = "Negative") \/
  (~ b1 /\ ~ b2 /\ ~ b3 /\ ~ b4 /\ c = "Neutral").

(** The shape of an analysis the score functions accept: every key
    they read is absent or holds a value of the type the pipeline
    stores there, counts and densities being non-negative, a date
    being [None] or a naive [datetime]. *)
Definition is_number (v : pyval) : Prop :=
  match v with VInt _ | VFloat _ => True | _ => False end.

Definition is_nonneg_number (v : pyval) : Prop :=
  match v with
  | VInt n => (0 <= n)%Z
  | VFloat q => 0 <= q
  | _ => False
  end.

Definition is_keywords (v : pyval) : Prop :=
  match v with VKeywords _ => True | _ => False end.

Definition is_date_or_none (v : pyval) : Prop :=
  match v with VNone | VDate _ => True | _ => False end.

Definition is_str (v : pyval) : Prop :=
  match v with VStr _ => True | _ => False end.

Definition when_present (P : pyval -> Prop) (o : option pyval) : Prop :=
  match o with Some v => P v | None => True end.

Record analysis_input (a : pydict) : Prop := {
  input_sentiment : when_present is_number (a !! "sentiment_score");
  input_keywords : when_present is_keywords (a !! "keywords_found");
  input_date : when_present is_date_or_none (a !! "published_date");
  input_source : when_present is_str (a !! "source");
  input_total : when_present is_nonneg_number (a !! "total_investment_keywords");
  input_companies : when_present is_nonneg_number (a !! "company_count");
  input_density : when_present is_nonneg_number (a !! "financial_density");
  input_length : when_present is_nonneg_number (a !! "content_length")
}.

(** A pair of the decorated list: the key is the relevance of the
    article and passes the threshold. *)
Definition decorated (min_relevance : Q) (p : Q * pydict) : Prop :=
  relevance_of (snd p) = Ok (fst p) /\ Qle_bool min_relevance (fst p) = true.

(** A variant is a hit when it is longer than two characters and
    occurs in the text, case-insensitively. *)
Definition variant_hit (text : string) (variant : string) : bool :=
  (2 <? PyStr.len variant)%nat && PyStr.contains (PyStr.lower variant) (PyStr.lower text).

(** A hit is accepted when its confidence exceeds 0.3. *)
Definition variant_accepted (text : string) (row : CompanyRecord) (variant : string) : bool :=
  variant_hit text variant &&
  Qlt_bool 0.3 (_calculate_match_confidence text variant (company_name row)).

(** The match recorded for a variant. *)
Definition match_of (text : string) (row : CompanyRecord) (variant : string) : CompanyMatch :=
  {| cm_symbol := symbol row;
     cm_company_name := company_name row;
     cm_matched_variant := variant;
     cm_confidence := _calculate_match_confidence text variant (company_name row) |}.

(** The short-circuit as the specification words it: once a variant
    is a hit, whatever its confidence, the variants after it play no
    part in the result. *)
Definition first_hit_stops_scan : Prop :=
  forall (text : string) (row : CompanyRecord) (pre : list string) (v : string)
         (post : list string),
    Forall (fun u => variant_hit text u = false) pre ->
    variant_hit text v = true ->
    scan_variants text (PyStr.lower text) row (pre ++ v :: post)%list
    = scan_variants text (PyStr.lower text) row (pre ++ [v])%list.

(** The context words that earn a bonus: those found among the words
    around the occurrences of the variant. *)
Definition satisfied_context_words (text variant : string) : list string :=
  List.filter
    (fun word =>
       str_in_list word
         (_get_words_around_match (PyStr.lower text) (PyStr.lower variant) 10))
    context_words.

Definition context_bonus_count (text variant : string) : nat :=
  length (satisfied_context_words text variant).

(** The keys of the analysis the batch records for a failed article. *)
Definition minimal_keys : gset string := {[ "article_id"; "error"; "title"; "source" ]}.

(** The derived score fields. *)
Definition score_keys : list string :=
  [ "investment_score"; "relevance_score"; "impact_category" ].

(** [|A ∩ B| / |A ∪ B|] over the word sets of two titles. *)
Definition jaccard (title1 title2 : string) : Q :=
  inject_Z (Z.of_nat (size (word_set title1 ∩ word_set title2)))
  / inject_Z (Z.of_nat (size (word_set title1 ∪ word_set title2))).

(** The title the de-duplication compares: lower-cased and stripped,
    empty when the article has no title. *)
Definition norm_title (article : pydict) : string :=
  match get article "title" (VStr "") with
  | VStr s => PyStr.strip (PyStr.lower s)
  | _ => EmptyString
  end.

(** The title of the article, when it has one, is a string. *)
Definition has_str_title (article : pydict) : Prop :=
  when_present is_str (article !! "title").

(** A string of whitespace only (the empty string included). *)
Fixpoint all_space (s : string) : bool :=
  match s with
  | EmptyString => true
  | String c t => PyStr.is_space c && all_space t
  end.

(** The title is missing, empty or made of whitespace only. *)
Definition blank_title (article : pydict) : Prop :=
  article !! "title" = None \/
  exists s, article !! "title" = Some (VStr s) /\ all_space s = true.

(** [Deduplicated articles kept]: [kept] is what is left of
    [articles], read in order, when an article of blank title is
    dropped, an article whose title is more than 0.7 similar to the
    title of an article kept before it is dropped, and every other
    article is kept. *)
Inductive Deduplicated : list pydict -> list pydict -> Prop :=
| dedup_nil : Deduplicated [] []
| dedup_blank (articles kept : list pydict) (a : pydict) :
    Deduplicated articles kept ->
    blank_title a ->
    Deduplicated (articles ++ [a])%list kept
| dedup_near (articles kept : list pydict) (a : pydict) :
    Deduplicated articles kept ->
    ~ blank_title a ->
    Exists (fun k => 0.7 < jaccard (norm_title a) (norm_title k)) kept ->
    Deduplicated (articles ++ [a])%list kept
| dedup_keep (articles kept : list pydict) (a : pydict) :
    Deduplicated articles kept ->
    ~ blank_title a ->
    Forall (fun k => jaccard (norm_title a) (norm_title k) <= 0.7) kept ->
    Deduplicated (articles ++ [a])%list (kept ++ [a])%list.

(** The analysis of an article of sufficient content before the
    scores are added: the identity fields and the content length,
    updated with the sentiment, the keywords, the companies when a
    table is given, and the financial information [financial]. *)
Definition signals (env : Env) (article : pydict) (companies_df : option (list CompanyRecord))
    (financial : pydict) : pydict :=
  let content := _extract_text_content env article in
  let analysis :=
    <["content_length" := VInt (Z.of_nat (PyStr.len content))]> (identity_fields article) in
  let analysis := analyze_sentiment env content ∪ analysis in
  let analysis := extract_investment_keywords env content ∪ analysis in
  let analysis :=
    match companies_df with
    | Some df => match_companies env content df ∪ analysis
    | None => analysis
    end in
  financial ∪ analysis.

(** The bound as the specification words it: whatever the analysis
    input, both scores return a value within [0, 1]. *)
Definition scores_always_within_unit_interval : Prop :=
  forall (env : Env) (a : pydict),
  exists i r,
    calculate_investment_score env a = Ok i /\
    _calculate_relevance_score a = Ok r /\
    0 <= i <= 1 /\ 0 <= r <= 1.

(** The invariant as the specification words it: an analysis that
    has the key [error] has none of the derived score fields. *)
Definition error_excludes_scores : Prop :=
  forall (env : Env) (article : pydict) (companies_df : option (list CompanyRecord))
         (a : pydict),
    analyze_article env article companies_df = Ok a ->
    is_Some (a !! "error") ->
    Forall (fun k => a !! k = None) score_keys.

(** The lower-cased words of a text, as [calculate_text_similarity]
    reads them. *)
Definition lower_words (text : string) : gset string := word_set (PyStr.lower text).

(** The text has a decimal digit. *)
Fixpoint has_digit (s : string) : bool :=
  match s with
  | EmptyString => false
  | String c t => PyStr.is_digit c || has_digit t
  end.

(** Every match of the pattern goes through a [\d]. *)
Fixpoint needs_digit (r : regex) : bool :=
  match r with
  | Digit => true
  | Seq r1 r2 => needs_digit r1 || needs_digit r2
  | Alt r1 r2 => needs_digit r1 && needs_digit r2
  | Plus r1 | Group r1 => needs_digit r1
  | Eps | Lit _ | Space | Opt _ | Star _ => false
  end.

(** The text has a whitespace character. *)
Fixpoint has_space (s : string) : bool :=
  match s with
  | EmptyString => false
  | String c t => PyStr.is_space c || has_space t
  end.

(** What a match says of the table: it is the match of a row for one
    of the variants of the row, accepted with a confidence above 0.3. *)
Definition match_from (env : Env) (text : string) (companies_df : list CompanyRecord)
    (m : CompanyMatch) : Prop :=
  0.3 < cm_confidence m <= 1 /\
  exists row,
    row ∈ companies_df /\
    cm_symbol m = symbol row /\
    cm_company_name m = company_name row /\
    cm_matched_variant m ∈ row_variants env row /\
    cm_confidence m
    = _calculate_match_confidence text (cm_matched_variant m) (company_name row).

(** The dict [unique_companies]: every key once, the key of a match
    being its symbol. *)
Definition keyed (P : CompanyMatch -> Prop) (unique : list (string * CompanyMatch)) : Prop :=
  NoDup (map fst unique) /\ Forall (fun p => fst p = cm_symbol (snd p) /\ P (snd p)) unique.


(** The sentiment label and the impact category agree: a high impact
    has the label of its sign, and no label comes with an impact of
    the opposite sign. *)
Definition labels_coherent (label impact : string) : Prop :=
  (impact = "Highly Positive" -> label = "Positive") /\
  (impact = "Highly Negative" -> label = "Negative") /\
  (label = "Positive" ->
   impact = "Highly Positive" \/ impact = "Positive" \/ impact = "Neutral") /\
  (label = "Negative" ->
   impact = "Highly Negative" \/ impact = "Negative" \/ impact = "Neutral") /\
  (label = "Neutral" -> impact = "Positive" \/ impact = "Negative" \/ impact = "Neutral").

(** An analysis carried to the end: the fields the filter and the
    summary read hold values of the types the analysis stores. *)
Definition is_companies (v : pyval) : Prop :=
  match v with VCompanies _ => True | _ => False end.

Record scored_analysis (a : pydict) : Prop := {
  scored_label : exists label, a !! "sentiment_label" = Some (VStr label);
  scored_impact : exists impact, a !! "impact_category" = Some (VStr impact);
  scored_companies : when_present is_companies (a !! "matched_companies");
  scored_keywords : exists d, a !! "keywords_found" = Some (VKeywords d);
  scored_sentiment : exists p, a !! "sentiment_score" = Some (VFloat p);
  scored_relevance : exists r, a !! "relevance_score" = Some (VFloat r);
  scored_investment : exists i, a !! "investment_score" = Some (VFloat i)
}.

(** An analysis that stopped early: it carries an error and no
    relevance score. *)
Definition rejected_analysis (a : pydict) : Prop :=
  is_Some (a !! "error") /\ a !! "relevance_score" = None.

(** The sum of the counts of a counter. *)
Definition total_count {A} (c : list (A * nat)) : nat :=
  fold_right (fun p acc => (snd p + acc)%nat) O c.

(** The key of [most_common]: the count. *)
Definition count_key {A} (p : A * nat) : Q := inject_Z (Z.of_nat (snd p)).

(** The articles the summary takes into account: those without the
    key [error]. *)
Definition valid_articles (analyzed_articles : list pydict) : list pydict :=
  List.filter (fun a => negb (bool_decide (is_Some (a !! "error")))) analyzed_articles.

(** The relevance the filter reads: the score, 0 when there is none. *)
Definition relevance_or_zero (article : pydict) : Q :=
  match relevance_of article with Ok r => r | Raise _ => 0 end.

(** The test of [filter_recent_articles] on an article whose date is
    a [datetime] or missing. *)
Definition recent (cutoff_date : Z) (article : pydict) : bool :=
  match article !! "published_date" with
  | Some (VDate t) => (cutoff_date <=? t)%Z
  | _ => true
  end.

(** A look-back the clock can take: a number of days a [timedelta]
    holds, and a cutoff within the range of [datetime]. *)
Definition look_back_in_range (env : Env) (days_back : Z) : Prop :=
  (Z.abs days_back <= max_timedelta_days /\
   datetime_min <= now env - days_back * 86400 <= datetime_max)%Z.

Definition undated (article : pydict) : bool :=
  match article !! "published_date" with
  | Some (VDate _) | Some (VAwareDate _) => false
  | _ => true
  end.

(** A naive [datetime]. *)
Definition is_date (v : pyval) : Prop :=
  match v with VDate _ => True | _ => False end.

(** The keys [_calculate_relevance_score] reads. *)
Definition relevance_inputs : list string :=
  [ "total_investment_keywords"; "sentiment_score"; "company_count";
    "financial_density"; "content_length" ].

(** ** Sample inputs *)

(** An environment for the examples: TextBlob answers [sentiment] for
    every text, every text is one sentence, a set iterates its elements
    in the order of their last occurrence in the list it is built from,
    and the clock reads 0. *)
Definition sample_env (sentiment : result (Q * Q)) : Env :=
  {| textblob_sentiment := fun _ => sentiment;
     sent_tokenize := fun text => Ok [text];
     list_of_set := remove_dups;
     now := 0;
     str_of_other := fun _ => "" |}.

(** An analysis input with a negative financial density, and nothing
    else. *)
Definition negative_density_analysis : pydict :=
  {[ "financial_density" := VFloat (-4) ]}.

(** An analysis with extreme values: a thousand keyword matches, fifty
    companies, a publication date ten days before the clock. *)
Definition extreme_analysis : pydict :=
  list_to_map
    [ ("sentiment_score", VFloat (-1));
      ("keywords_found", VKeywords [("positive", repeat "growth" 1000)]);
      ("total_investment_keywords", VInt 1000);
      ("company_count", VInt 50);
      ("financial_density", VFloat 3);
      ("content_length", VInt 1000000);
      ("published_date", VDate (-864000));
      ("source", VStr "The Economic Times") ].

(** Five analyses: two of relevance 0.5, one rejected, one of
    relevance 0.9, one below the default threshold. *)
Definition scored (title : string) (relevance : Q) : pydict :=
  list_to_map [ ("title", VStr title); ("relevance_score", VFloat relevance) ].

Definition sample_analyses : list pydict :=
  [ scored "first" 0.5;
    list_to_map [ ("title", VStr "short"); ("error", VStr "Insufficient content") ];
    scored "second" 0.9;
    scored "third" 0.5;
    scored "fourth" 0.1 ].

(** A company whose acronym is a common word. *)
Definition horizon_row : CompanyRecord :=
  {| symbol := "THORIZ"; company_name := "Tata Horizon Enterprises" |}.

Definition horizon_text : string :=
  "Shares of THORIZ rose as the company reports profit".

(** The sample article of [analyzer.py] and a company table for it. *)
Definition sample_content : string :=
  "Reliance Industries Limited has announced a significant investment of Rs 75,000 crores in renewable energy projects. The company plans to expand its green energy portfolio with new solar and wind projects. This move is expected to boost the company's growth prospects and align with India's carbon neutrality goals. Market experts have upgraded their rating for RIL stock.".

Definition sample_article : pydict :=
  list_to_map
    [ ("title", VStr "Reliance Industries announces major investment in renewable energy sector");
      ("content", VStr sample_content);
      ("source", VStr "Economic Times");
      ("url", VStr "https://example.com/test-article") ].

Definition sample_table : list CompanyRecord :=
  [ {| symbol := "RIL"; company_name := "Reliance Industries" |} ].

(** The sample article with a source that is [None], and an article
    whose title is [None]. *)
Definition sourceless_article : pydict := <["source" := VNone]> sample_article.

Definition untitled_article : pydict :=
  list_to_map [ ("title", VNone); ("link", VStr "https://example.com/untitled") ].

(** Five articles: a title, a near copy of it, a title of spaces, no
    title, another title. *)
Definition titled (title : string) : pydict := {[ "title" := VStr title ]}.

Definition sample_titles : list pydict :=
  [ titled "RIL announces new plant";
    titled "RIL announces a new plant";
    titled "   ";
    {[ "link" := VStr "https://example.com/untitled" ]};
    titled "TCS wins major deal" ].

(** The text analysed for the sample article: the content, a space,
    the title. *)
Definition sample_text : string :=
  sample_content ++ " "
  ++ "Reliance Industries announces major investment in renewable energy sector".

(** What the examples read off a result: the values under some keys,
    the titles of a list of articles, and a score in lowest terms. *)
Definition lookups (keys : list string) (r : result pydict) : result (list (option pyval)) :=
  (fun a => map (fun k => a !! k) keys) <$> r.

Definition titles_of (r : result (list pydict)) : result (list (option pyval)) :=
  map (fun a => a !! "title") <$> r.

Definition reduced_float (key : string) (r : result pydict) : result (option Q) :=
  (fun a => match a !! key with
            | Some (VFloat q) => Some (Qred q)
            | _ => None
            end) <$> r.

(** * Properties *)

(** ** Comparisons *)

Lemma Qlt_bool_iff (x y : Q) : Qlt_bool x y = true <-> (x < y)%Q.
Proof.
  unfold Qlt_bool. rewrite negb_true_iff, <- not_true_iff_false, Qle_bool_iff.
  split; [apply Qnot_le_lt | apply Qlt_not_le].
Qed.

Lemma Qlt_bool_false_iff (x y : Q) : Qlt_bool x y = false <-> (y <= x)%Q.
Proof.
  unfold Qlt_bool. rewrite negb_false_iff. apply Qle_bool_iff.
Qed.


(** ** Impact category *)

Lemma guard_reflect (b : bool) (x y : Q) (P : Prop) :
  (b = true <-> P) ->
  (b && Qlt_bool x y = true <-> P /\ x < y) /\
  (b && Qlt_bool x y = false <-> ~ (P /\ x < y)).
Proof.
  intros Hb. rewrite <- not_true_iff_false, andb_true_iff, Qlt_bool_iff, Hb. tauto.
Qed.

Lemma impact_spec_functional P N s c1 c2 :
  impact_spec P N s c1 -> impact_spec P N s c2 -> c1 = c2.
Proof.
  unfold impact_spec. intros H1 H2.
  repeat match goal with
         | H : _ \/ _ |- _ => destruct H
         | H : _ /\ _ |- _ => destruct H
         end; subst; try reflexivity; exfalso; tauto.
Qed.

(** C6. For every keywords_found mapping and every sentiment score,
    [categorize_news_impact] returns the category obtained by trying
    the five branches of the specification in order, the first one that
    matches winning; and it is the only category that does. *)
Theorem categorize_news_impact_ordered_branches
    (keywords_found : list (string * list string)) (sentiment_score : Q) (c : string) :
  impact_spec (category_count keywords_found "positive")
              (category_count keywords_found "negative") sentiment_score c
  <-> c = categorize_news_impact keywords_found sentiment_score.
Proof.
  set (P := category_count keywords_found "positive").
  set (N := category_count keywords_found "negative").
  assert (Hcode : impact_spec P N sentiment_score
                    (categorize_news_impact keywords_found sentiment_score)).
  { unfold categorize_news_impact, impact_spec. fold P N.
    assert (R : forall a b, (a <? b)%nat = true <-> (b > a)%nat)
      by (intros; rewrite Nat.ltb_lt; lia).
    destruct ((N <? P)%nat && Qlt_bool 0.1 sentiment_score) eqn:E1;
      apply (guard_reflect _ _ _ _ (R N P)) in E1.
    { left. split; [exact E1 | reflexivity]. }
    destruct ((0 <? P)%nat && Qlt_bool 0.05 sentiment_score) eqn:E2;
      apply (guard_reflect _ _ _ _ (R 0%nat P)) in E2.
    { right; left. repeat split; solve [assumption | apply E2]. }
    destruct ((P <? N)%nat && Qlt_bool sentiment_score (-0.1)) eqn:E3;
      apply (guard_reflect _ _ _ _ (R P N)) in E3.
    { right; right; left. repeat split; solve [assumption | apply E3]. }
    destruct ((0 <? N)%nat && Qlt_bool sentiment_score (-0.05)) eqn:E4;
      apply (guard_reflect _ _ _ _ (R 0%nat N)) in E4.
    { right; right; right; left. repeat split; solve [assumption | apply E4]. }
    right; right; right; right. repeat split; assumption. }
  split.
  - intros Hc. eapply impact_spec_functional; eassumption.
  - intros ->. exact Hcode.
Qed.

(** ** Scores *)

Lemma Qmin_nonneg (x y : Q) : 0 <= x -> 0 <= y -> 0 <= Qmin x y.
Proof. intros. apply Q.min_glb; assumption. Qed.

Lemma Qmin_clamped (x : Q) : 0 <= x -> 0 <= Qmin x 1 <= 1.
Proof.
  intros H. split; [apply Qmin_nonneg; [assumption | lra] | apply Q.le_min_r].
Qed.

Lemma inject_nat_nonneg (n : nat) : 0 <= inject_Z (Z.of_nat n).
Proof. change 0 with (inject_Z 0). rewrite <- Zle_Qle. lia. Qed.

Lemma keyword_score_from_nonneg (keywords : list (string * list string)) (acc : Q) :
  0 <= acc ->
  0 <= fold_left
         (fun acc '(category, words) =>
            let n := inject_Z (Z.of_nat (length words)) in
            if String.eqb category "positive" then acc + n * 0.1
            else if String.eqb category "negative" then acc + n * 0.1
            else acc + n * 0.05)
         keywords acc.
Proof.
  revert acc. induction keywords as [| [category words] rest IH]; intros acc Hacc.
  - exact Hacc.
  - cbn [fold_left]. apply IH.
    pose proof (inject_nat_nonneg (length words)) as Hn.
    cbv zeta. destruct (String.eqb category "positive");
      [| destruct (String.eqb category "negative")]; lra.
Qed.

Lemma keyword_score_nonneg (keywords : list (string * list string)) :
  0 <= keyword_score keywords.
Proof. apply keyword_score_from_nonneg. lra. Qed.

Lemma as_number_get (a : pydict) (k : string) :
  when_present is_number (a !! k) ->
  exists q, as_number (get a k (VInt 0)) = Ok q.
Proof.
  unfold get. destruct (a !! k) as [[]|]; cbn; intros H; try contradiction; eauto.
Qed.

Lemma as_nonneg_number_get (a : pydict) (k : string) :
  when_present is_nonneg_number (a !! k) ->
  exists q, as_number (get a k (VInt 0)) = Ok q /\ 0 <= q.
Proof.
  unfold get. destruct (a !! k) as [[]|]; cbn; intros H; try contradiction.
  - eexists; split; [reflexivity |]. change 0 with (inject_Z 0). rewrite <- Zle_Qle. exact H.
  - eauto.
  - eexists; split; [reflexivity |]. apply Qle_refl.
Qed.

Lemma calculate_investment_score_bounds (env : Env) (a : pydict) :
  analysis_input a ->
  exists i, calculate_investment_score env a = Ok i /\ 0 <= i <= 1.
Proof.
  intros [Hs Hk Hd Hsrc _ _ _ _]. unfold calculate_investment_score. cbv zeta.
  destruct (as_number_get a "sentiment_score" Hs) as [s ->]. cbn [mbind result_bind].
  assert (Hkw : exists d, get a "keywords_found" (VKeywords []) = VKeywords d).
  { unfold get. destruct (a !! "keywords_found") as [[]|]; cbn in *; try contradiction; eauto. }
  destruct Hkw as [d ->]. cbn [mbind result_bind].
  pose proof (Qabs_nonneg s) as Habs.
  pose proof (Qmin_nonneg _ 0.3 (keyword_score_nonneg d) ltac:(lra)) as Hkws.
  assert (Hsource : exists src, get a "source" (VStr "") = VStr src).
  { unfold get. destruct (a !! "source") as [[]|]; cbn in *; try contradiction; eauto. }
  destruct Hsource as [src ->].
  set (base := 0 + Qabs s * 0.4 + Qmin (keyword_score d) 0.3).
  assert (Hbase : 0 <= base) by (unfold base; lra).
  assert (Hdate : exists score,
             (if truthy (get a "published_date" VNone) then
                match get a "published_date" VNone with
                | VDate t => Ok (base + Qmax 0 ((7 - inject_Z (days_old env t)) / 7) * 0.2)
                | VAwareDate _ =>
                    Raise (TypeError "can't subtract offset-naive and offset-aware datetimes")
                | _ => Raise (TypeError "unsupported operand type(s) for -")
                end
              else Ok base) = Ok score /\ 0 <= score).
  { unfold get. destruct (a !! "published_date") as [[]|]; cbn in *; try contradiction; eauto.
    eexists; split; [reflexivity |].
    pose proof (Q.le_max_l 0 ((7 - inject_Z (days_old env t)) / 7)). lra. }
  destruct Hdate as (score & -> & Hscore). cbn [mbind result_bind].
  eexists; split; [reflexivity |].
  apply Qmin_clamped.
  destruct (existsb _ credible_sources); lra.
Qed.

Lemma _calculate_relevance_score_bounds (a : pydict) :
  analysis_input a ->
  exists r, _calculate_relevance_score a = Ok r /\ 0 <= r <= 1.
Proof.
  intros [Hs _ _ _ Ht Hc Hd Hl]. unfold _calculate_relevance_score. cbv zeta.
  destruct (as_nonneg_number_get a _ Ht) as (n & -> & Hn). cbn [mbind result_bind].
  destruct (as_number_get a _ Hs) as [s ->]. cbn [mbind result_bind].
  destruct (as_nonneg_number_get a _ Hc) as (c & -> & Hc'). cbn [mbind result_bind].
  destruct (as_nonneg_number_get a _ Hd) as (d & -> & Hd'). cbn [mbind result_bind].
  destruct (as_nonneg_number_get a _ Hl) as (l & -> & Hl'). cbn [mbind result_bind].
  eexists; split; [reflexivity |].
  apply Qmin_clamped.
  pose proof (Qabs_nonneg s) as Habs.
  pose proof (Qmin_nonneg (n * 0.05) 0.3 ltac:(lra) ltac:(lra)).
  pose proof (Qmin_nonneg (c * 0.1) 0.2 ltac:(lra) ltac:(lra)).
  assert (0 <= l / 1000) by (apply Qle_shift_div_l; lra).
  pose proof (Qmin_nonneg (l / 1000) 1 ltac:(assumption) ltac:(lra)).
  lra.
Qed.



(** Outside these types the bound fails.  The relevance score is
    clamped from above only: a negative financial density gives a
    negative score.  A source that is not a string and a date with a
    time zone make the investment score raise. *)
Example negative_density_relevance :
  Qred <$> _calculate_relevance_score negative_density_analysis = Ok (-(3 # 5)).
Proof. vm_compute. reflexivity. Qed.

Example investment_score_raises :
  calculate_investment_score (sample_env (Ok (0, 0))) {[ "source" := VNone ]}
  = Raise (AttributeError "object has no attribute 'lower'") /\
  calculate_investment_score (sample_env (Ok (0, 0)))
    {[ "published_date" := VAwareDate 0 ]}
  = Raise (TypeError "can't subtract offset-naive and offset-aware datetimes").
Proof. split; vm_compute; reflexivity. Qed.



(** ** Sorting and filtering by relevance *)

Section SortFacts.
Context {A : Type} (key : A -> Q).

Lemma insert_desc_Forall (P : A -> Prop) (x : A) (l : list A) :
  P x -> Forall P l -> Forall P (insert_desc key x l).
Proof.
  intros Hx Hl. induction Hl as [| y t Hy Ht IH]; cbn.
  - repeat constructor; assumption.
  - destruct (Qlt_bool (key x) (key y)); repeat constructor; assumption.
Qed.

Lemma sort_desc_Forall (P : A -> Prop) (l : list A) :
  Forall P l -> Forall P (sort_desc key l).
Proof.
  induction 1; cbn; [constructor | apply insert_desc_Forall; assumption].
Qed.

Lemma insert_desc_HdRel (x y : A) (l : list A) :
  desc key y x -> HdRel (desc key) y l -> HdRel (desc key) y (insert_desc key x l).
Proof.
  intros Hyx Hl. destruct Hl as [| z t Hz]; cbn.
  - constructor; assumption.
  - destruct (Qlt_bool (key x) (key z)); constructor; assumption.
Qed.

Lemma insert_desc_Sorted (x : A) (l : list A) :
  Sorted (desc key) l -> Sorted (desc key) (insert_desc key x l).
Proof.
  induction 1 as [| y t Ht IH Hy]; cbn.
  - repeat constructor.
  - destruct (Qlt_bool (key x) (key y)) eqn:E.
    + constructor; [exact IH |].
      apply insert_desc_HdRel; [| exact Hy].
      unfold desc. apply Qlt_bool_iff in E. lra.
    + repeat constructor; try assumption.
      unfold desc. apply Qlt_bool_false_iff in E. exact E.
Qed.

Lemma sort_desc_Sorted (l : list A) : Sorted (desc key) (sort_desc key l).
Proof.
  induction l; cbn; [constructor | apply insert_desc_Sorted; assumption].
Qed.

(** Sorting a list that is already in descending order changes
    nothing: the sort is stable. *)
Lemma sort_desc_fixpoint (l : list A) : Sorted (desc key) l -> sort_desc key l = l.
Proof.
  induction 1 as [| x t Ht IH Hx]; cbn; [reflexivity |].
  rewrite IH. destruct Hx as [| y t' Hy]; cbn; [reflexivity |].
  unfold desc in Hy. apply Qlt_bool_false_iff in Hy. rewrite Hy. reflexivity.
Qed.
End SortFacts.

Lemma keep_relevant_total (min_relevance : Q) (analyzed : list pydict) :
  Forall (fun a => when_present is_number (a !! "relevance_score")) analyzed ->
  exists kept, keep_relevant min_relevance analyzed = Ok kept.
Proof.
  induction 1 as [| a t Ha Ht [kept IH]]; cbn; [eauto |].
  destruct (as_number_get a _ Ha) as [r Hr]. unfold relevance_of. rewrite Hr, IH.
  cbn. eauto.
Qed.

Lemma keep_relevant_decorated (min_relevance : Q) (analyzed kept : list pydict) :
  keep_relevant min_relevance analyzed = Ok kept ->
  exists keys,
    result_map relevance_of kept = Ok keys /\
    length keys = length kept /\
    Forall (decorated min_relevance) (zip keys kept).
Proof.
  revert kept. induction analyzed as [| a t IH]; cbn; intros kept H.
  - injection H as <-. exists []. repeat split. constructor.
  - destruct (relevance_of a) as [r |] eqn:Hr; cbn in H; [| discriminate].
    destruct (keep_relevant min_relevance t) as [kept' |]; cbn in H; [| discriminate].
    injection H as <-. destruct (IH kept' eq_refl) as (keys & Hkeys & Hlen & Hall).
    destruct (Qle_bool min_relevance r) eqn:Hle.
    + exists (r :: keys). cbn. rewrite Hr, Hkeys. cbn. repeat split.
      * congruence.
      * constructor; [split; assumption | exact Hall].
    + exists keys. auto.
Qed.

Lemma decorated_refilter (min_relevance : Q) (ps : list (Q * pydict)) :
  Forall (decorated min_relevance) ps ->
  keep_relevant min_relevance (map snd ps) = Ok (map snd ps) /\
  result_map relevance_of (map snd ps) = Ok (map fst ps).
Proof.
  induction 1 as [| [k a] t [Hk Hle] Ht [IHk IHr]]; cbn in *; [auto |].
  rewrite Hk, IHk, IHr. cbn. rewrite Hle. auto.
Qed.

Lemma zip_fst_snd {A B} (ps : list (A * B)) : zip (map fst ps) (map snd ps) = ps.
Proof. induction ps as [| [a b] t IH]; cbn; congruence. Qed.

Lemma filter_relevant_articles_again (analyzed out : list pydict) (min_relevance : option Q) :
  filter_relevant_articles analyzed min_relevance = Ok out ->
  filter_relevant_articles out min_relevance = Ok out.
Proof.
  unfold filter_relevant_articles.
  set (thr := default relevance_threshold min_relevance).
  destruct (keep_relevant thr analyzed) as [kept |] eqn:Hkept; cbn; [| discriminate].
  destruct (keep_relevant_decorated _ _ _ Hkept) as (keys & -> & _ & Hall). cbn.
  intros [= <-].
  set (sorted := sort_desc fst (zip keys kept)).
  assert (Hsorted : Forall (decorated thr) sorted) by (apply sort_desc_Forall, Hall).
  destruct (decorated_refilter _ _ Hsorted) as [Hk Hr].
  rewrite Hk. cbn [mbind result_bind]. rewrite Hr. cbn [mbind result_bind].
  rewrite zip_fst_snd, sort_desc_fixpoint; [reflexivity |].
  apply sort_desc_Sorted.
Qed.

(** C7. FilterRelevant is idempotent: on every list of analyses whose
    relevance scores, where present, are numbers, and for every
    threshold (given or the default), [filter_relevant_articles]
    returns a list, and applied to that list with the same threshold it
    returns the same list. *)
Theorem filter_relevant_articles_idempotent
    (analyzed : list pydict) (min_relevance : option Q) :
  Forall (fun a => when_present is_number (a !! "relevance_score")) analyzed ->
  exists out,
    filter_relevant_articles analyzed min_relevance = Ok out /\
    filter_relevant_articles out min_relevance = Ok out.
Proof.
  intros Htyped.
  destruct (keep_relevant_total (default relevance_threshold min_relevance) _ Htyped)
    as [kept Hkept].
  destruct (keep_relevant_decorated _ _ _ Hkept) as (keys & Hkeys & _ & _).
  assert (Hout : filter_relevant_articles analyzed min_relevance
                 = Ok (map snd (sort_desc fst (zip keys kept)))).
  { unfold filter_relevant_articles. rewrite Hkept. cbn. rewrite Hkeys. reflexivity. }
  eexists. split; [exact Hout |].
  eapply filter_relevant_articles_again, Hout.
Qed.

Lemma filter_relevant_articles_idempotent_witness :
  Forall (fun a => when_present is_number (a !! "relevance_score")) sample_analyses /\
  exists out,
    filter_relevant_articles sample_analyses None = Ok out /\
    filter_relevant_articles out None = Ok out.
Proof.
  assert (H : Forall (fun a => when_present is_number (a !! "relevance_score"))
                     sample_analyses)
    by (repeat constructor).
  split; [exact H | exact (filter_relevant_articles_idempotent _ None H)].
Defined.

(** The filter on the sample: the rejected and the low-scored analyses
    are dropped, the two analyses of relevance 0.5 keep their order. *)
Example filter_relevant_articles_sample :
  titles_of (filter_relevant_articles sample_analyses None)
  = Ok [ Some (VStr "second"); Some (VStr "first"); Some (VStr "third") ].
Proof. vm_compute. reflexivity. Qed.

(** ** Keyword density and financial density *)

Lemma Qdiv_nat_nonneg (n m : nat) : 0 <= inject_Z (Z.of_nat n) / inject_Z (Z.of_nat (S m)).
Proof.
  apply Qle_shift_div_l.
  - change 0 with (inject_Z 0). rewrite <- Zlt_Qlt. lia.
  - pose proof (inject_nat_nonneg n). lra.
Qed.

(** The keyword density is guarded by the token count: it is defined
    for every text, never negative, and the integer 0 when the text has
    no token. *)
Lemma keyword_density_total (env : Env) (text : string) :
  exists v,
    extract_investment_keywords env text !! "keyword_density" = Some v /\
    is_nonneg_number v /\
    (PyStr.split text = [] -> v = VInt 0).
Proof.
  unfold extract_investment_keywords. cbv zeta.
  destruct (PyStr.split text) as [| w ws] eqn:Hsplit; cbn [length Nat.ltb Nat.leb].
  - eexists. split; [reflexivity |]. split; [cbn; lia | reflexivity].
  - eexists. split; [reflexivity |]. split; [| discriminate].
    cbn [is_nonneg_number]. apply Qdiv_nat_nonneg.
Qed.

(** The financial density is guarded by the text, not by the token
    count: with at least one token it is defined and not negative, on
    the empty text it is the integer 0. *)
Lemma financial_density_with_tokens (text : string) :
  PyStr.split text <> [] ->
  exists d v,
    extract_financial_info text = Ok d /\
    d !! "financial_density" = Some v /\ is_nonneg_number v.
Proof.
  intros Hsplit. unfold extract_financial_info. cbv zeta.
  destruct text as [| c t]; [contradiction Hsplit; reflexivity |].
  cbn [PyStr.truthy].
  destruct (PyStr.split (String c t)) as [| w ws]; [contradiction |].
  cbn [length mbind result_bind].
  eexists _, _. split; [reflexivity |]. split; [reflexivity |].
  cbn [is_nonneg_number]. apply Qdiv_nat_nonneg.
Qed.

Lemma financial_density_empty :
  exists d, extract_financial_info "" = Ok d /\ d !! "financial_density" = Some (VInt 0).
Proof. eexists. split; [reflexivity | vm_compute; reflexivity]. Qed.

(** A text that is not empty and has no token: the division is
    reached with a zero divisor. *)
Lemma financial_density_without_tokens (text : string) :
  text <> "" -> PyStr.split text = [] ->
  extract_financial_info text = Raise (ZeroDivisionError "division by zero").
Proof.
  intros Hne Hsplit. unfold extract_financial_info. cbv zeta.
  destruct text as [| c t]; [contradiction |].
  cbn [PyStr.truthy]. rewrite Hsplit. reflexivity.
Qed.

(** C3. On the whitespace-only text of one space the keyword density
    is 0, and [extract_financial_info] raises ZeroDivisionError: its
    guard tests the text, not the token count, so the division by zero
    is reached. *)
Theorem financial_density_whitespace_only_raises :
  extract_investment_keywords (sample_env (Ok (0, 0))) " " !! "keyword_density"
    = Some (VInt 0) /\
  extract_financial_info " " = Raise (ZeroDivisionError "division by zero").
Proof. split; vm_compute; reflexivity. Qed.

(** ** Company matching: the scan of the variants *)

Lemma scan_variants_cons (text : string) (row : CompanyRecord) (v : string)
    (rest : list string) :
  scan_variants text (PyStr.lower text) row (v :: rest)
  = if variant_accepted text row v then Some (match_of text row v)
    else scan_variants text (PyStr.lower text) row rest.
Proof.
  cbn [scan_variants]. unfold variant_accepted, variant_hit, match_of.
  destruct ((2 <? PyStr.len v)%nat && PyStr.contains (PyStr.lower v) (PyStr.lower text));
    cbn [andb]; [| reflexivity].
  destruct (Qlt_bool 0.3 (_calculate_match_confidence text v (company_name row)));
    reflexivity.
Qed.

Lemma scan_variants_skip (text : string) (row : CompanyRecord) (pre rest : list string) :
  Forall (fun u => variant_accepted text row u = false) pre ->
  scan_variants text (PyStr.lower text) row (pre ++ rest)%list
  = scan_variants text (PyStr.lower text) row rest.
Proof.
  induction 1 as [| u pre Hu Hpre IH]; [reflexivity |].
  change ((u :: pre) ++ rest)%list with (u :: (pre ++ rest)%list).
  rewrite scan_variants_cons, Hu. exact IH.
Qed.

(** A hit of confidence at most 0.3 does not end the scan: the
    variants after it are still tried. *)
Lemma scan_variants_low_confidence_hit (text : string) (row : CompanyRecord) (v : string)
    (post : list string) :
  variant_hit text v = true ->
  _calculate_match_confidence text v (company_name row) <= 0.3 ->
  scan_variants text (PyStr.lower text) row (v :: post)
  = scan_variants text (PyStr.lower text) row post.
Proof.
  intros Hhit Hlow. rewrite scan_variants_cons. unfold variant_accepted.
  apply Qlt_bool_false_iff in Hlow. rewrite Hhit, Hlow. reflexivity.
Qed.

(** C4, as amended. The scan of the variants of a company stops at the
    first variant that is a hit (longer than 2 characters, a
    case-insensitive substring of the text) and whose confidence
    exceeds 0.3: that variant is the recorded match whatever variants
    follow it, and every variant before it, hit or not, was passed
    over. *)
Theorem scan_variants_first_accepted (text : string) (row : CompanyRecord)
    (pre : list string) (v : string) (post : list string) :
  Forall (fun u => variant_accepted text row u = false) pre ->
  variant_accepted text row v = true ->
  scan_variants text (PyStr.lower text) row (pre ++ v :: post)%list
  = Some (match_of text row v).
Proof.
  intros Hpre Hv. rewrite scan_variants_skip by exact Hpre.
  rewrite scan_variants_cons, Hv. reflexivity.
Qed.

(** The variants scanned for the sample company: its acronym THE is a
    hit of confidence 0.1 in the sample text, the symbol after it a hit
    of confidence 0.6. *)
Example horizon_variants :
  row_variants (sample_env (Ok (0, 0))) horizon_row
  = [ "Tata Horizon Enterprises"; "THE"; "tata horizon enterprises"; "THORIZ" ].
Proof. vm_compute. reflexivity. Qed.

Example horizon_match :
  match_companies (sample_env (Ok (0, 0))) horizon_text [horizon_row] !! "matched_companies"
  = Some (VCompanies [ {| cm_symbol := "THORIZ";
                          cm_company_name := "Tata Horizon Enterprises";
                          cm_matched_variant := "THORIZ";
                          cm_confidence := 0.4 + 0.1 + 0.1 |} ]).
Proof. vm_compute. reflexivity. Qed.

(** C4, counterexample. The acronym THE is the first hit; its
    confidence 0.1 does not exceed 0.3, the scan goes on and records
    the symbol. *)
Lemma first_hit_does_not_stop_scan : ~ first_hit_stops_scan.
Proof.
  intros H.
  specialize (H horizon_text horizon_row [ "Tata Horizon Enterprises" ] "THE"
                [ "tata horizon enterprises"; "THORIZ" ]).
  assert (Hpre : Forall (fun u => variant_hit horizon_text u = false)
                        [ "Tata Horizon Enterprises" ])
    by (repeat constructor).
  specialize (H Hpre eq_refl). vm_compute in H. discriminate H.
Qed.

Lemma scan_variants_first_accepted_witness :
  Forall (fun u => variant_accepted horizon_text horizon_row u = false)
         [ "Tata Horizon Enterprises"; "THE"; "tata horizon enterprises" ] /\
  variant_accepted horizon_text horizon_row "THORIZ" = true /\
  scan_variants horizon_text (PyStr.lower horizon_text) horizon_row
    ([ "Tata Horizon Enterprises"; "THE"; "tata horizon enterprises" ] ++ [ "THORIZ" ])%list
  = Some (match_of horizon_text horizon_row "THORIZ").
Proof.
  assert (Hpre : Forall (fun u => variant_accepted horizon_text horizon_row u = false)
                        [ "Tata Horizon Enterprises"; "THE"; "tata horizon enterprises" ])
    by (repeat constructor).
  assert (Hv : variant_accepted horizon_text horizon_row "THORIZ" = true)
    by (vm_compute; reflexivity).
  split; [exact Hpre |]. split; [exact Hv |].
  exact (scan_variants_first_accepted horizon_text horizon_row _ "THORIZ" [] Hpre Hv).
Defined.

(** ** Match confidence *)

Lemma bonus_fold (p : string -> bool) (words : list string) (confidence : Q) :
  fold_left (fun confidence word => if p word then confidence + 0.1 else confidence)
            words confidence
  == confidence + inject_Z (Z.of_nat (length (List.filter p words))) * 0.1.
Proof.
  revert confidence. induction words as [| w ws IH]; intros confidence; cbn [fold_left List.filter].
  - change (inject_Z (Z.of_nat (length []))) with 0. lra.
  - rewrite IH. destruct (p w); [| reflexivity].
    cbn [length]. rewrite Nat2Z.inj_succ, <- Z.add_1_r, inject_Z_plus.
    change (inject_Z 1) with 1. lra.
Qed.

(** The confidence is the clamped sum of the base, the full-name
    bonus, 0.1 for every satisfied context word and the penalty. *)
Lemma _calculate_match_confidence_sum (text variant full_name : string) :
  let text_lower := PyStr.lower text in
  let variant_lower := PyStr.lower variant in
  exists raw,
    _calculate_match_confidence text variant full_name = Qmin raw 1 /\
    raw == (if PyStr.contains variant_lower text_lower then 0.4 else 0)
           + (if PyStr.contains (PyStr.lower full_name) text_lower then 0.3 else 0)
           + inject_Z (Z.of_nat (context_bonus_count text variant)) * 0.1
           - (if str_in_list variant_lower common_words then 0.5 else 0).
Proof.
  cbv zeta. unfold _calculate_match_confidence. cbv zeta.
  eexists. split; [reflexivity |].
  match goal with
  | |- context [fold_left ?f context_words ?c] =>
      pose proof (bonus_fold
                    (fun word =>
                       str_in_list word
                         (_get_words_around_match (PyStr.lower text) (PyStr.lower variant) 10))
                    context_words c) as Hf;
      set (F := fold_left f context_words c) in *
  end.
  fold (satisfied_context_words text variant) in Hf.
  fold (context_bonus_count text variant) in Hf.
  destruct (PyStr.contains (PyStr.lower variant) (PyStr.lower text));
    destruct (PyStr.contains (PyStr.lower full_name) (PyStr.lower text));
    destruct (str_in_list (PyStr.lower variant) common_words); lra.
Qed.

(** C8. Confidence is monotone non-decreasing in the number of
    satisfied context-word bonuses: for the same variant and full
    name, two texts that agree on the base and on the full-name bonus
    and of which the second satisfies at least as many context words
    give the second a confidence at least as high. *)
Theorem confidence_monotone_in_context_bonuses (text1 text2 variant full_name : string) :
  PyStr.contains (PyStr.lower variant) (PyStr.lower text1)
    = PyStr.contains (PyStr.lower variant) (PyStr.lower text2) ->
  PyStr.contains (PyStr.lower full_name) (PyStr.lower text1)
    = PyStr.contains (PyStr.lower full_name) (PyStr.lower text2) ->
  (context_bonus_count text1 variant <= context_bonus_count text2 variant)%nat ->
  _calculate_match_confidence text1 variant full_name
    <= _calculate_match_confidence text2 variant full_name.
Proof.
  intros Hbase Hfull Hcount.
  destruct (_calculate_match_confidence_sum text1 variant full_name) as (raw1 & -> & H1).
  destruct (_calculate_match_confidence_sum text2 variant full_name) as (raw2 & -> & H2).
  apply Q.min_le_compat_r.
  rewrite Hbase, Hfull in H1.
  assert (Hn : inject_Z (Z.of_nat (context_bonus_count text1 variant))
               <= inject_Z (Z.of_nat (context_bonus_count text2 variant)))
    by (rewrite <- Zle_Qle; lia).
  lra.
Qed.

Lemma confidence_monotone_in_context_bonuses_witness :
  (context_bonus_count "TCS wins a large deal" "TCS"
   <= context_bonus_count "TCS company reports a large deal" "TCS")%nat /\
  _calculate_match_confidence "TCS wins a large deal" "TCS" "Tata Consultancy Services"
    <= _calculate_match_confidence "TCS company reports a large deal" "TCS"
         "Tata Consultancy Services".
Proof.
  assert (Hcount : (context_bonus_count "TCS wins a large deal" "TCS"
                    <= context_bonus_count "TCS company reports a large deal" "TCS")%nat)
    by (vm_compute; lia).
  split; [exact Hcount |].
  exact (confidence_monotone_in_context_bonuses
           "TCS wins a large deal" "TCS company reports a large deal"
           "TCS" "Tata Consultancy Services" eq_refl eq_refl Hcount).
Defined.

(** The two confidences of the sample: no context word, then two. *)
Example confidence_sample :
  _calculate_match_confidence "TCS wins a large deal" "TCS" "Tata Consultancy Services" == 0.4 /\
  _calculate_match_confidence "TCS company reports a large deal" "TCS"
    "Tata Consultancy Services" == 0.6.
Proof. split; vm_compute; reflexivity. Qed.

(** ** The batch *)

Lemma error_analysis_dom (i : nat) (article : pydict) (e : exn) :
  dom (error_analysis i article e) = minimal_keys.
Proof.
  unfold error_analysis, minimal_keys. cbn [list_to_map foldr uncurry fst snd].
  rewrite !dom_insert_L, dom_empty_L. set_solver.
Qed.

(** C9. The batch returns one analysis per article, in the order of
    the articles; where the analysis of an article returns, that is
    the analysis recorded; where it raises, the analysis recorded has
    the keys article_id, error, title and source and no other, the
    error being the text of the exception; and this holds at every
    index, whatever happened to the articles before it. *)
Theorem batch_analyze_articles_isolates_failures
    (env : Env) (articles : list pydict) (companies_df : option (list CompanyRecord)) :
  length (batch_analyze_articles env articles companies_df) = length articles /\
  forall (i : nat) (article : pydict),
    articles !! i = Some article ->
    exists analysis,
      batch_analyze_articles env articles companies_df !! i = Some analysis /\
      match analyze_logged env companies_df article with
      | Ok a => analysis = a
      | Raise e =>
          dom analysis = minimal_keys /\
          analysis !! "error" = Some (VStr (str_of_exn e)) /\
          analysis !! "title" = Some (get article "title" (VStr "")) /\
          analysis !! "source" = Some (get article "source" (VStr "")) /\
          analysis !! "article_id"
            = Some (get article "url" (get article "link" (VStr ("article_" +:+ pretty i))))
      end.
Proof.
  unfold batch_analyze_articles. split; [apply length_imap |].
  intros i article Hi. exists (batch_step env companies_df i article).
  split; [rewrite list_lookup_imap, Hi; reflexivity |].
  unfold batch_step. destruct (analyze_logged env companies_df article) as [a | e];
    [reflexivity |].
  split; [apply error_analysis_dom |]. repeat split; reflexivity.
Qed.

(** The three articles of the sample batch: the first fails at the
    log line, the third inside the investment score, the second is
    analysed. *)
Example analyze_logged_untitled :
  analyze_logged (sample_env (Ok (0.2, 0.5))) (Some sample_table) untitled_article
  = Raise (TypeError "object is not subscriptable").
Proof. vm_compute. reflexivity. Qed.

Example analyze_logged_sourceless :
  analyze_logged (sample_env (Ok (0.2, 0.5))) (Some sample_table) sourceless_article
  = Raise (AttributeError "object has no attribute 'lower'").
Proof. vm_compute. reflexivity. Qed.

Example analyze_logged_sample :
  is_ok (analyze_logged (sample_env (Ok (0.2, 0.5))) (Some sample_table) sample_article) = true.
Proof. vm_compute. reflexivity. Qed.

Lemma batch_analyze_articles_isolates_failures_witness :
  let env := sample_env (Ok (0.2, 0.5)) in
  let articles := [ untitled_article; sample_article; sourceless_article ] in
  let batch := batch_analyze_articles env articles (Some sample_table) in
  length batch = 3%nat /\
  articles !! 2%nat = Some sourceless_article /\
  exists analysis,
    batch !! 2%nat = Some analysis /\
    dom analysis = minimal_keys /\
    analysis !! "error" = Some (VStr "object has no attribute 'lower'").
Proof.
  intros env articles batch.
  destruct (batch_analyze_articles_isolates_failures env articles (Some sample_table))
    as [Hlen Hat].
  split; [exact Hlen |]. split; [reflexivity |].
  destruct (Hat 2%nat sourceless_article eq_refl) as (analysis & Hlookup & Hshape).
  unfold env in Hshape. rewrite analyze_logged_sourceless in Hshape.
  destruct Hshape as (Hdom & Herror & _).
  exists analysis. split; [exact Hlookup |]. split; [exact Hdom | exact Herror].
Defined.

(** The whole sample batch: an error record, an analysis, an error
    record. *)
Example batch_sample :
  map (fun analysis => (bool_decide (is_Some (analysis !! "error")),
                        bool_decide (is_Some (analysis !! "relevance_score"))))
      (batch_analyze_articles (sample_env (Ok (0.2, 0.5)))
         [ untitled_article; sample_article; sourceless_article ] (Some sample_table))
  = [ (true, false); (false, true); (true, false) ].
Proof. vm_compute. reflexivity. Qed.

(** ** Title de-duplication *)

Lemma lstrip_head (s : string) :
  PyStr.lstrip s = EmptyString \/
  exists c t, PyStr.lstrip s = String c t /\ PyStr.is_space c = false.
Proof.
  induction s as [| c t IH]; cbn; [left; reflexivity |].
  destruct (PyStr.is_space c) eqn:E; [exact IH | right; eauto].
Qed.

Lemma rstrip_head (c : ascii) (t : string) :
  PyStr.is_space c = false -> exists t', PyStr.rstrip (String c t) = String c t'.
Proof.
  intros Hc. cbn. destruct (PyStr.rstrip t); [rewrite Hc |]; eauto.
Qed.

Lemma split_aux_nonempty (cur : list ascii) (s : string) :
  cur <> [] -> PyStr.split_aux cur s <> [].
Proof.
  revert cur. induction s as [| c t IH]; intros cur Hcur; cbn.
  - destruct cur; [contradiction | discriminate].
  - destruct (PyStr.is_space c).
    + destruct cur; [contradiction | discriminate].
    + apply IH. discriminate.
Qed.

(** A stripped string that is not empty has a word. *)
Lemma strip_split_nonempty (s : string) :
  PyStr.strip s <> EmptyString -> PyStr.split (PyStr.strip s) <> [].
Proof.
  unfold PyStr.strip. intros Hne.
  destruct (lstrip_head s) as [E | (c & t & E & Hc)]; rewrite E in *.
  - contradiction Hne. reflexivity.
  - destruct (rstrip_head c t Hc) as [t' ->].
    unfold PyStr.split. cbn. rewrite Hc. apply split_aux_nonempty. discriminate.
Qed.

Lemma word_set_union_size (title other : string) :
  PyStr.split title <> [] -> size (word_set title ∪ word_set other) <> O.
Proof.
  intros Hsplit Hsize. apply size_empty_iff in Hsize.
  unfold word_set in Hsize. destruct (PyStr.split title) as [| w ws]; [contradiction |].
  set_solver.
Qed.

Lemma title_similarity_jaccard (title other : string) :
  PyStr.split title <> [] -> title_similarity title other = Ok (jaccard title other).
Proof.
  intros Hsplit. unfold title_similarity, jaccard. cbv zeta.
  pose proof (word_set_union_size title other Hsplit) as Hsize.
  destruct (size (word_set title ∪ word_set other)); [contradiction | reflexivity].
Qed.

Lemma is_duplicate_existsb (title : string) (kept : list pydict) :
  PyStr.split title <> [] ->
  is_duplicate title (map norm_title kept)
  = Ok (existsb (fun k => Qlt_bool 0.7 (jaccard title (norm_title k))) kept).
Proof.
  intros Hsplit. induction kept as [| k kept IH]; cbn; [reflexivity |].
  rewrite title_similarity_jaccard by exact Hsplit. cbn.
  destruct (Qlt_bool 0.7 (jaccard title (norm_title k))); [reflexivity | exact IH].
Qed.

Lemma title_of_norm (article : pydict) :
  has_str_title article -> title_of article = Ok (norm_title article).
Proof.
  unfold has_str_title, title_of, norm_title, get.
  destruct (article !! "title") as [[]|]; cbn; intros H; try contradiction; reflexivity.
Qed.

Lemma norm_title_split (article : pydict) :
  norm_title article <> EmptyString -> PyStr.split (norm_title article) <> [].
Proof.
  unfold norm_title. destruct (get article "title" (VStr ""));
    try (intros H; contradiction H; reflexivity).
  apply strip_split_nonempty.
Qed.

Lemma truthy_false_iff (s : string) : PyStr.truthy s = false <-> s = EmptyString.
Proof. destruct s; cbn; split; intros H; try reflexivity; discriminate H. Qed.

Lemma lstrip_all_space (s : string) : all_space (PyStr.lstrip s) = all_space s.
Proof.
  induction s as [| c t IH]; cbn; [reflexivity |].
  destruct (PyStr.is_space c) eqn:E; cbn; [exact IH | rewrite E; reflexivity].
Qed.

Lemma rstrip_empty_iff (s : string) : PyStr.rstrip s = EmptyString <-> all_space s = true.
Proof.
  induction s as [| c t IH]; cbn; [tauto |].
  destruct (PyStr.rstrip t) eqn:E.
  - assert (Ht : all_space t = true) by (apply IH; reflexivity).
    rewrite Ht, andb_true_r. destruct (PyStr.is_space c); split; congruence.
  - assert (Ht : all_space t = false).
    { destruct (all_space t); [| reflexivity]. destruct IH as [_ IH]. discriminate IH. reflexivity. }
    rewrite Ht, andb_false_r. split; discriminate.
Qed.

Lemma strip_empty_iff (s : string) : PyStr.strip s = EmptyString <-> all_space s = true.
Proof. unfold PyStr.strip. rewrite rstrip_empty_iff, lstrip_all_space. tauto. Qed.

Lemma is_space_lower_char (c : ascii) : PyStr.is_space (PyStr.lower_char c) = PyStr.is_space c.
Proof. destruct c as [[] [] [] [] [] [] [] []]; reflexivity. Qed.

Lemma all_space_lower (s : string) : all_space (PyStr.lower s) = all_space s.
Proof.
  induction s as [| c t IH]; cbn; [reflexivity |].
  rewrite is_space_lower_char. fold (PyStr.lower t). rewrite IH. reflexivity.
Qed.

(** For an article whose title, if any, is a string, the compared
    title is empty exactly when the title is blank. *)
Lemma norm_title_blank_iff (article : pydict) :
  has_str_title article -> (norm_title article = EmptyString <-> blank_title article).
Proof.
  unfold has_str_title, norm_title, blank_title, get.
  destruct (article !! "title") as [[]|]; cbn; intros H; try contradiction.
  - rewrite strip_empty_iff, all_space_lower. split.
    + intros Hs. right. eauto.
    + intros [E | (s' & [= <-] & Hs)]; [discriminate | exact Hs].
  - split; [left; reflexivity | reflexivity].
Qed.

(** The loop, started after [done] with the articles kept so far and
    their titles. *)
Lemma dedup_loop_Deduplicated (articles done kept : list pydict) :
  Forall has_str_title articles ->
  Deduplicated done kept ->
  Forall (fun a => ~ blank_title a) kept ->
  exists out,
    dedup_loop articles kept (map norm_title kept) = Ok out /\
    Deduplicated (done ++ articles)%list out /\
    Forall (fun a => ~ blank_title a) out.
Proof.
  intros Htyped. revert done kept.
  induction Htyped as [| a rest Ha Hrest IH]; intros done kept Hdone Hkept.
  - exists kept. rewrite app_nil_r. auto.
  - cbn [dedup_loop]. rewrite (title_of_norm a Ha). cbn [mbind result_bind].
    replace (done ++ a :: rest)%list with ((done ++ [a]) ++ rest)%list
      by (rewrite <- app_assoc; reflexivity).
    pose proof (norm_title_blank_iff a Ha) as Hblank.
    destruct (PyStr.truthy (norm_title a)) eqn:Htruthy; cbn [negb].
    + assert (Hne : norm_title a <> EmptyString).
      { intros E. apply truthy_false_iff in E. congruence. }
      assert (Hnb : ~ blank_title a) by tauto.
      rewrite is_duplicate_existsb by (apply norm_title_split, Hne).
      cbn [mbind result_bind].
      destruct (existsb _ kept) eqn:Hdup.
      * apply IH; [| exact Hkept]. apply dedup_near; [exact Hdone | exact Hnb |].
        apply existsb_exists in Hdup. destruct Hdup as (k & Hk & Hsim).
        apply Exists_exists. exists k. split; [apply list_elem_of_In, Hk |].
        apply Qlt_bool_iff, Hsim.
      * specialize (IH (done ++ [a])%list (kept ++ [a])%list).
        rewrite map_app in IH. cbn [map] in IH. apply IH.
        -- apply dedup_keep; [exact Hdone | exact Hnb |].
           apply Forall_forall. intros k Hk. apply list_elem_of_In in Hk.
           apply Qlt_bool_false_iff.
           destruct (Qlt_bool 0.7 (jaccard (norm_title a) (norm_title k))) eqn:E;
             [| reflexivity].
           assert (existsb (fun k => Qlt_bool 0.7 (jaccard (norm_title a) (norm_title k)))
                           kept = true)
             by (apply existsb_exists; eauto).
           congruence.
        -- apply Forall_app. split; [exact Hkept | repeat constructor; exact Hnb].
    + apply IH; [| exact Hkept]. apply dedup_blank; [exact Hdone |].
      apply Hblank, truthy_false_iff, Htruthy.
Qed.

Lemma Deduplicated_nil_inv (kept : list pydict) : Deduplicated [] kept -> kept = [].
Proof.
  intros H. remember [] as articles eqn:E.
  destruct H as [| l k b | l k b | l k b]; [reflexivity | | |];
    destruct l; discriminate E.
Qed.

Lemma Deduplicated_snoc_inv (articles kept : list pydict) (a : pydict) :
  Deduplicated (articles ++ [a])%list kept ->
  (blank_title a /\ Deduplicated articles kept) \/
  (~ blank_title a /\ Deduplicated articles kept /\
   Exists (fun k => 0.7 < jaccard (norm_title a) (norm_title k)) kept) \/
  (~ blank_title a /\ exists kept',
      kept = (kept' ++ [a])%list /\ Deduplicated articles kept' /\
      Forall (fun k => jaccard (norm_title a) (norm_title k) <= 0.7) kept').
Proof.
  intros H. remember (articles ++ [a])%list as all eqn:E.
  destruct H as [| l k b H' Hb | l k b H' Hb Hn | l k b H' Hb Hf].
  - destruct articles; discriminate E.
  - apply app_inj_tail in E. destruct E as [-> ->]. left. auto.
  - apply app_inj_tail in E. destruct E as [-> ->]. right; left. auto.
  - apply app_inj_tail in E. destruct E as [-> ->]. right; right. eauto.
Qed.

(** The relation determines what is kept. *)
Lemma Deduplicated_functional (articles kept1 kept2 : list pydict) :
  Deduplicated articles kept1 -> Deduplicated articles kept2 -> kept1 = kept2.
Proof.
  intros H1. revert kept2.
  induction H1 as [| articles kept a H IH Hblank | articles kept a H IH Hnb Hnear
                   | articles kept a H IH Hnb Hfar];
    intros kept2 H2.
  - symmetry. apply Deduplicated_nil_inv, H2.
  - apply Deduplicated_snoc_inv in H2.
    destruct H2 as [[_ H2] | [[Hnb _] | [Hnb _]]]; [apply IH, H2 | contradiction ..].
  - apply Deduplicated_snoc_inv in H2.
    destruct H2 as [[Hb _] | [(_ & H2 & _) | (_ & kept' & -> & H2 & Hfar)]];
      [contradiction | apply IH, H2 |].
    exfalso. rewrite (IH _ H2) in Hnear.
    apply Exists_exists in Hnear. destruct Hnear as (x & Hx & Hlt).
    rewrite Forall_forall in Hfar. specialize (Hfar x Hx). lra.
  - apply Deduplicated_snoc_inv in H2.
    destruct H2 as [[Hb _] | [(_ & H2 & Hnear) | (_ & kept' & -> & H2 & _)]];
      [contradiction | | rewrite (IH _ H2); reflexivity].
    exfalso. rewrite <- (IH _ H2) in Hnear.
    apply Exists_exists in Hnear. destruct Hnear as (x & Hx & Hlt).
    rewrite Forall_forall in Hfar. specialize (Hfar x Hx). lra.
Qed.

(** C10. On articles whose titles, where present, are strings,
    [_remove_duplicate_articles] returns the articles read in order
    with every article of missing, empty or whitespace-only title
    dropped and every other article kept exactly when the Jaccard
    similarity of its title to the title of each article kept before
    it is at most 0.7; no article of blank title is in the result. *)
Theorem _remove_duplicate_articles_drops_blank_and_near (articles : list pydict) :
  Forall has_str_title articles ->
  exists out,
    _remove_duplicate_articles articles = Ok out /\
    Deduplicated articles out /\
    Forall (fun a => ~ blank_title a) out.
Proof.
  intros Htyped. unfold _remove_duplicate_articles.
  apply (dedup_loop_Deduplicated articles [] [] Htyped dedup_nil). constructor.
Qed.

(** The de-duplication of the sample: the near copy (similarity 4/5),
    the title of spaces and the article without title are dropped. *)
Example _remove_duplicate_articles_sample :
  titles_of (_remove_duplicate_articles sample_titles)
  = Ok [ Some (VStr "RIL announces new plant"); Some (VStr "TCS wins major deal") ].
Proof. vm_compute. reflexivity. Qed.

Example jaccard_sample :
  jaccard "ril announces a new plant" "ril announces new plant" == 0.8.
Proof. vm_compute. reflexivity. Qed.

Lemma _remove_duplicate_articles_drops_blank_and_near_witness :
  Forall has_str_title sample_titles /\
  exists out,
    _remove_duplicate_articles sample_titles = Ok out /\
    Deduplicated sample_titles out /\
    Forall (fun a => ~ blank_title a) out.
Proof.
  assert (H : Forall has_str_title sample_titles) by (repeat constructor).
  split; [exact H | exact (_remove_duplicate_articles_drops_blank_and_near _ H)].
Defined.

(** ** The analysis of one article *)

Lemma analyze_sentiment_cases (env : Env) (text : string) :
  (exists p s ps ns us l,
      analyze_sentiment_try env text
      = Ok (list_to_map
              [ ("sentiment_score", VFloat p);
                ("sentiment_subjectivity", VFloat s);
                ("sentiment_label", VStr (_get_sentiment_label p));
                ("positive_sentences", VInt ps);
                ("negative_sentences", VInt ns);
                ("neutral_sentences", VInt us);
                ("sentence_sentiments", VFloats l) ])) \/
  (exists e, analyze_sentiment_try env text = Raise e).
Proof.
  unfold analyze_sentiment_try.
  destruct (textblob_sentiment env text) as [[p s] | e]; cbn [mbind result_bind];
    [| right; eauto].
  destruct (sent_tokenize env text) as [sentences | e]; cbn [mbind result_bind];
    [| right; eauto].
  destruct (result_map _ _) as [l | e]; cbn [mbind result_bind]; [| right; eauto].
  left. eexists _, _, _, _, _, _. reflexivity.
Qed.

Lemma extract_financial_info_cases (text : string) :
  PyStr.split text <> [] ->
  exists density,
    is_nonneg_number density /\
    extract_financial_info text
    = Ok (list_to_map
            [ ("financial_numbers", VFloats (extract_numbers_from_text text));
              ("percentages_mentioned",
               VFloats (omap float_of_string (findall true percentage_pattern text)));
              ("financial_terms",
               VStrs (List.filter (fun term => PyStr.contains term (PyStr.lower text))
                                  financial_terms));
              ("financial_density", density) ]).
Proof.
  intros Hsplit. unfold extract_financial_info. cbv zeta.
  destruct text as [| c t]; [contradiction Hsplit; reflexivity |].
  cbn [PyStr.truthy].
  destruct (PyStr.split (String c t)) as [| w ws]; [contradiction |].
  cbn [length mbind result_bind].
  eexists. split; [| reflexivity].
  cbn [is_nonneg_number]. apply Qdiv_nat_nonneg.
Qed.

(** Content that passes the length test has a word: it is stripped
    and not empty. *)
Lemma sufficient_content_has_tokens (env : Env) (article : pydict) :
  insufficient (_extract_text_content env article) = false ->
  PyStr.split (_extract_text_content env article) <> [].
Proof.
  unfold insufficient, _extract_text_content. intros H.
  apply orb_false_iff in H. destruct H as [H _]. apply negb_false_iff in H.
  apply strip_split_nonempty. intros E. rewrite E in H. discriminate H.
Qed.

Lemma typed_get_date (article : pydict) :
  when_present is_date_or_none (article !! "published_date") ->
  is_date_or_none (get article "published_date" VNone).
Proof. unfold get. destruct (article !! "published_date"); cbn; auto. Qed.

Lemma typed_get_source (article : pydict) :
  when_present is_str (article !! "source") ->
  is_str (get article "source" (VStr "")).
Proof. unfold get. destruct (article !! "source"); cbn; auto. Qed.

Lemma analysis_input_insert (k : string) (v : pyval) (a : pydict) :
  str_in_list k [ "sentiment_score"; "keywords_found"; "published_date"; "source";
                  "total_investment_keywords"; "company_count"; "financial_density";
                  "content_length" ] = false ->
  analysis_input a -> analysis_input (<[k := v]> a).
Proof.
  intros Hk [H1 H2 H3 H4 H5 H6 H7 H8].
  constructor; (rewrite lookup_insert_ne; [assumption |]);
    intros E; subst k; vm_compute in Hk; discriminate Hk.
Qed.

(** The dicts of the stages, as lists of keys and values. *)
Lemma analyze_sentiment_shape (env : Env) (text : string) :
  (exists p v2 v3 v4 v5 v6 v7 d,
      analyze_sentiment_try env text = Ok d /\
      analyze_sentiment env text
      = list_to_map
          [ ("sentiment_score", VFloat p);
            ("sentiment_subjectivity", v2);
            ("sentiment_label", v3);
            ("positive_sentences", v4);
            ("negative_sentences", v5);
            ("neutral_sentences", v6);
            ("sentence_sentiments", v7) ]) \/
  (exists p v2 v3 v4 e,
      analyze_sentiment_try env text = Raise e /\
      analyze_sentiment env text
      = list_to_map
          [ ("sentiment_score", VFloat p);
            ("sentiment_subjectivity", v2);
            ("sentiment_label", v3);
            ("error", v4) ]).
Proof.
  unfold analyze_sentiment.
  destruct (analyze_sentiment_cases env text) as [(p & s & ps & ns & us & l & ->) | (e & ->)].
  - left. eexists _, _, _, _, _, _, _, _. split; reflexivity.
  - right. eexists _, _, _, _, _. split; reflexivity.
Qed.

Lemma extract_investment_keywords_shape (env : Env) (text : string) :
  exists found density total,
    is_nonneg_number total /\
    extract_investment_keywords env text
    = list_to_map
        [ ("keywords_found", VKeywords found);
          ("keyword_density", density);
          ("total_investment_keywords", total) ].
Proof.
  unfold extract_investment_keywords. cbv zeta.
  eexists _, _, _. split; [| reflexivity]. apply Nat2Z.is_nonneg.
Qed.

Lemma match_companies_shape (env : Env) (text : string) (df : list CompanyRecord) :
  exists matched count,
    is_nonneg_number count /\
    match_companies env text df
    = list_to_map [ ("matched_companies", matched); ("company_count", count) ].
Proof.
  unfold match_companies. cbv zeta.
  eexists _, _. split; [| reflexivity]. apply Nat2Z.is_nonneg.
Qed.

Lemma identity_fields_shape (article : pydict) :
  exists id title url,
    identity_fields article
    = list_to_map
        [ ("article_id", id);
          ("title", title);
          ("source", get article "source" (VStr ""));
          ("published_date", get article "published_date" VNone);
          ("url", url) ].
Proof. unfold identity_fields. eexists _, _, _. reflexivity. Qed.

(** Replace a lookup by its value. *)
Ltac eval_lookup :=
  match goal with
  | |- context [?m !! ?k] =>
      let o := eval vm_compute in (m !! k) in
      let H := fresh "Hlookup" in
      assert (H : m !! k = o) by (vm_compute; reflexivity);
      rewrite H; clear H
  end.

(** Expose the stage dicts of [signals] as lists of keys and values,
    the values being variables. *)
Ltac expose_signals env article companies_df :=
  unfold signals; cbv zeta;
  let Hcount := fresh "Hcount" in
  let Htotal := fresh "Htotal" in
  let Hlength := fresh "Hlength" in
  destruct (extract_investment_keywords_shape env (_extract_text_content env article))
    as (?found & ?density & ?total & Htotal & ->);
  destruct (identity_fields_shape article) as (?id & ?title & ?url & ->);
  assert (Hlength : is_nonneg_number
                      (VInt (Z.of_nat (PyStr.len (_extract_text_content env article)))))
    by apply Nat2Z.is_nonneg;
  revert Hlength;
  generalize (VInt (Z.of_nat (PyStr.len (_extract_text_content env article))));
  intros ?len Hlength;
  try (destruct companies_df as [?df |];
       [ destruct (match_companies_shape env (_extract_text_content env article) df)
           as (?matched & ?count & Hcount & ->) | ]).

Lemma signals_input (env : Env) (article : pydict)
    (companies_df : option (list CompanyRecord)) (density : pyval) (v1 v2 v3 : pyval) :
  when_present is_date_or_none (article !! "published_date") ->
  when_present is_str (article !! "source") ->
  is_nonneg_number density ->
  analysis_input
    (signals env article companies_df
       (list_to_map
          [ ("financial_numbers", v1); ("percentages_mentioned", v2);
            ("financial_terms", v3); ("financial_density", density) ])).
Proof.
  intros Hdate Hsource Hdensity.
  apply typed_get_date in Hdate. apply typed_get_source in Hsource.
  expose_signals env article companies_df;
    revert Hdate Hsource;
    generalize (get article "published_date" VNone) (get article "source" (VStr ""));
    intros date source Hdate Hsource;
    (destruct (analyze_sentiment_shape env (_extract_text_content env article))
      as [(p & w2 & w3 & w4 & w5 & w6 & w7 & d & _ & ->) | (p & w2 & w3 & w4 & e & _ & ->)]);
    (constructor; eval_lookup; cbn [when_present is_number is_keywords];
     first [ exact I | assumption ]).
Qed.

(** The signals carry the key [error] exactly when the sentiment
    extraction failed. *)
Lemma signals_error (env : Env) (article : pydict)
    (companies_df : option (list CompanyRecord)) (v1 v2 v3 v4 : pyval) :
  is_Some (signals env article companies_df
             (list_to_map
                [ ("financial_numbers", v1); ("percentages_mentioned", v2);
                  ("financial_terms", v3); ("financial_density", v4) ]) !! "error")
  <-> exists e, analyze_sentiment_try env (_extract_text_content env article) = Raise e.
Proof.
  expose_signals env article companies_df;
    generalize (get article "published_date" VNone) (get article "source" (VStr ""));
    intros date source;
    (destruct (analyze_sentiment_shape env (_extract_text_content env article))
      as [(p & w2 & w3 & w4 & w5 & w6 & w7 & d & Htry & ->)
         | (p & w2 & w3 & w4 & e & Htry & ->)]);
    eval_lookup; rewrite Htry;
    (split; [intros [v Hv] | intros [e' He']]); try discriminate; eauto.
Qed.

Lemma signals_keywords (env : Env) (article : pydict)
    (companies_df : option (list CompanyRecord)) (v1 v2 v3 v4 : pyval) :
  exists d,
    signals env article companies_df
      (list_to_map
         [ ("financial_numbers", v1); ("percentages_mentioned", v2);
           ("financial_terms", v3); ("financial_density", v4) ]) !! "keywords_found"
    = Some (VKeywords d).
Proof.
  expose_signals env article companies_df;
    generalize (get article "published_date" VNone) (get article "source" (VStr ""));
    intros date source;
    (destruct (analyze_sentiment_shape env (_extract_text_content env article))
      as [(p & w2 & w3 & w4 & w5 & w6 & w7 & d & _ & ->) | (p & w2 & w3 & w4 & e & _ & ->)]);
    eval_lookup; eauto.
Qed.

(** An article of sufficient content whose source and publication
    date have the types the scraper gives them is analysed to the
    end: the result is the signals with the three scores added, both
    numeric scores within [0, 1]. *)
Lemma analyze_article_sufficient (env : Env) (article : pydict)
    (companies_df : option (list CompanyRecord)) :
  insufficient (_extract_text_content env article) = false ->
  when_present is_date_or_none (article !! "published_date") ->
  when_present is_str (article !! "source") ->
  exists density i d s r,
    let financial :=
      list_to_map
        [ ("financial_numbers",
           VFloats (extract_numbers_from_text (_extract_text_content env article)));
          ("percentages_mentioned",
           VFloats (omap float_of_string
                      (findall true percentage_pattern (_extract_text_content env article))));
          ("financial_terms",
           VStrs (List.filter
                    (fun term =>
                       PyStr.contains term (PyStr.lower (_extract_text_content env article)))
                    financial_terms));
          ("financial_density", density) ] in
    let base := signals env article companies_df financial in
    base !! "keywords_found" = Some (VKeywords d) /\
    as_number (get base "sentiment_score" (VInt 0)) = Ok s /\
    analyze_article env article companies_df
    = Ok (<["relevance_score" := VFloat r]>
            (<["impact_category" := VStr (categorize_news_impact d s)]>
               (<["investment_score" := VFloat i]> base))) /\
    0 <= i <= 1 /\ 0 <= r <= 1.
Proof.
  intros Hsufficient Hdate Hsource.
  destruct (extract_financial_info_cases _ (sufficient_content_has_tokens _ _ Hsufficient))
    as (density & Hdensity & Hfinancial).
  exists density.
  match type of Hfinancial with
  | _ = Ok (list_to_map [ (_, ?v1); (_, ?v2); (_, ?v3); _ ]) =>
      pose proof (signals_input env article companies_df density v1 v2 v3
                    Hdate Hsource Hdensity) as Hinput
  end.
  destruct (calculate_investment_score_bounds env _ Hinput) as (i & Hi & Hibounds).
  exists i.
  match type of Hinput with analysis_input ?m => set (base := m) in * end.
  assert (Hkeywords : exists d, base !! "keywords_found" = Some (VKeywords d))
    by apply signals_keywords.
  destruct Hkeywords as [d Hd].
  set (scored := <["investment_score" := VFloat i]> base).
  assert (Hscored : analysis_input scored).
  { apply analysis_input_insert; [| exact Hinput].
    reflexivity. }
  destruct (as_number_get scored "sentiment_score" (input_sentiment _ Hscored)) as [s Hs].
  set (categorized := <["impact_category" := VStr (categorize_news_impact d s)]> scored).
  assert (Hcategorized : analysis_input categorized).
  { apply analysis_input_insert; [| exact Hscored].
    reflexivity. }
  destruct (_calculate_relevance_score_bounds _ Hcategorized) as (r & Hr & Hrbounds).
  assert (Hkw : as_keywords (get scored "keywords_found" (VKeywords [])) = Ok d).
  { unfold get, scored. rewrite lookup_insert_ne by discriminate. rewrite Hd. reflexivity. }
  assert (Hs' : as_number (get base "sentiment_score" (VInt 0)) = Ok s).
  { unfold get, scored in Hs. rewrite lookup_insert_ne in Hs by discriminate. exact Hs. }
  exists d, s, r. cbv zeta.
  split; [exact Hd |]. split; [exact Hs' |]. split; [| split; assumption].
  clear Hs' Hd.
  subst categorized scored base. unfold signals in Hi, Hkw, Hs, Hr |- *.
  cbv zeta in Hi, Hkw, Hs, Hr |- *.
  unfold analyze_article. cbv zeta. rewrite Hsufficient, Hfinancial.
  cbn [mbind result_bind]. rewrite Hi. cbn [mbind result_bind].
  rewrite Hkw. cbn [mbind result_bind]. rewrite Hs. cbn [mbind result_bind].
  rewrite Hr. reflexivity.
Qed.


(** The record of the batch for a failed article has no score. *)
Lemma error_analysis_has_no_scores (i : nat) (article : pydict) (e : exn) :
  Forall (fun k => error_analysis i article e !! k = None) score_keys.
Proof. repeat constructor. Qed.

(** The sample article analysed when TextBlob fails: the analysis
    carries the error marker, the neutral defaults and the scores. *)
Example analyze_article_sentiment_failure :
  let r := analyze_article (sample_env (Raise (LibraryError "MissingCorpusError")))
                           sample_article None in
  lookups [ "error"; "sentiment_label"; "impact_category" ] r
    = Ok [ Some (VStr "MissingCorpusError"); Some (VStr "Neutral"); Some (VStr "Neutral") ] /\
  reduced_float "investment_score" r = Ok (Some (2 # 5)) /\
  reduced_float "relevance_score" r = Ok (Some (19203 # 55000)).
Proof. repeat split; vm_compute; reflexivity. Qed.



(** ** The sample article *)

(** The text analysed for the sample article, whatever the
    environment: the content, a space, the title. *)
Lemma sample_article_content (env : Env) :
  _extract_text_content env sample_article = sample_text.
Proof. vm_compute. reflexivity. Qed.

(** In [Rs 75,000 crores] the pattern for crores has no place for
    the comma: it matches [000 crores] and captures [000]. *)
Example crore_pattern_on_sample :
  findall true (nth 0 number_patterns Eps) "Rs 75,000 crores" = [ "000" ] /\
  extract_numbers_from_text "Rs 75,000 crores" = [ 0 ] /\
  extract_numbers_from_text "₹75,000 crores" = [ 0; 75000 ].
Proof. repeat split; vm_compute; reflexivity. Qed.

(** C2. Whatever TextBlob answers, whatever the order of sets and
    the clock, the sample article is analysed with the company table
    of RIL, and the financial numbers of the analysis are the list
    [0.0]: 75000.0 is not among them. *)
Theorem sample_article_financial_numbers (env : Env) :
  exists a,
    analyze_article env sample_article (Some sample_table) = Ok a /\
    a !! "financial_numbers" = Some (VFloats [ 0 ]) /\
    ~ Exists (fun q => q == 75000) [ 0 ].
Proof.
  assert (Hcontent : insufficient (_extract_text_content env sample_article) = false)
    by (vm_compute; reflexivity).
  destruct (analyze_article_sufficient env sample_article (Some sample_table) Hcontent I I)
    as (density & i & d & s & r & _ & _ & Ha & _ & _).
  cbv zeta in Ha. eexists. split; [exact Ha |]. split.
  - rewrite !lookup_insert_ne by discriminate.
    unfold signals. cbv zeta. apply lookup_union_Some_l.
    assert (Hnumbers : extract_numbers_from_text (_extract_text_content env sample_article)
                       = [ 0 ]) by (vm_compute; reflexivity).
    rewrite Hnumbers. reflexivity.
  - intros H. apply Exists_cons in H. destruct H as [H | H].
    + vm_compute in H. discriminate H.
    + apply Exists_nil in H. exact H.
Qed.

(** The rest of the end-to-end example, with a TextBlob that gives
    the sample a polarity of 0.2: the label is Positive, RIL is
    matched through the full name with confidence 0.7, the impact is
    Highly Positive. *)
Example sample_article_analysis :
  lookups [ "sentiment_label"; "impact_category"; "financial_numbers"; "matched_companies" ]
          (analyze_article (sample_env (Ok (0.2, 0.5))) sample_article (Some sample_table))
  = Ok [ Some (VStr "Positive");
         Some (VStr "Highly Positive");
         Some (VFloats [ 0 ]);
         Some (VCompanies [ {| cm_symbol := "RIL";
                               cm_company_name := "Reliance Industries";
                               cm_matched_variant := "Reliance Industries";
                               cm_confidence := 0.4 + 0.3 |} ]) ].
Proof. vm_compute. reflexivity. Qed.

(** *** The parts of the end-to-end example that hold *)

Lemma list_to_map_lookup_none (l : list (string * pyval)) (k : string) :
  str_in_list k (map fst l) = false -> (list_to_map l : pydict) !! k = None.
Proof.
  induction l as [| [k' v] l IH]; cbn [map fst str_in_list existsb list_to_map foldr uncurry].
  - intros _. apply lookup_empty.
  - intros H. apply orb_false_iff in H. destruct H as [Hk Hl].
    rewrite lookup_insert_ne; [apply IH, Hl |].
    intros ->. rewrite String.eqb_refl in Hk. discriminate Hk.
Qed.

Lemma scan_variants_Exists (text : string) (row : CompanyRecord) (variants : list string) :
  Exists (fun v => variant_accepted text row v = true) variants ->
  exists v,
    v ∈ variants /\ variant_accepted text row v = true /\
    scan_variants text (PyStr.lower text) row variants = Some (match_of text row v).
Proof.
  induction variants as [| u rest IH]; intros H; [inversion H |].
  rewrite scan_variants_cons.
  destruct (variant_accepted text row u) eqn:Hu.
  - exists u. split; [left | auto].
  - apply Exists_cons in H. destruct H as [H | H]; [congruence |].
    destruct (IH H) as (v & Hv & Hacc & Hscan). exists v. split; [right; exact Hv | auto].
Qed.

(** Whatever the order of the variants, the sample company is matched
    in the sample text. *)
Lemma sample_row_match (env : Env) :
  set_order_ok env ->
  exists m,
    omap (match_row env sample_text (PyStr.lower sample_text)) sample_table = [ m ] /\
    cm_symbol m = "RIL" /\ 0.3 < cm_confidence m.
Proof.
  intros Hset. set (row := {| symbol := "RIL"; company_name := "Reliance Industries" |}).
  assert (Hname : "Reliance Industries" ∈ row_variants env row).
  { unfold row_variants, extract_company_variants. cbn [symbol PyStr.truthy].
    apply elem_of_app. left. apply (Hset _). vm_compute. left. }
  destruct (scan_variants_Exists sample_text row (row_variants env row))
    as (v & _ & Hacc & Hscan).
  { apply Exists_exists. exists "Reliance Industries". split; [exact Hname |].
    vm_compute. reflexivity. }
  exists (match_of sample_text row v). split; [| split].
  - unfold sample_table. cbn [omap list_omap]. fold row. unfold match_row.
    cbn [company_name row PyStr.truthy negb]. fold row. rewrite Hscan. reflexivity.
  - reflexivity.
  - unfold variant_accepted in Hacc. apply andb_true_iff in Hacc.
    destruct Hacc as [_ Hacc]. apply Qlt_bool_iff in Hacc. exact Hacc.
Qed.

Lemma list_of_set_nil (env : Env) : set_order_ok env -> list_of_set env [] = [].
Proof.
  intros Hset. destruct (list_of_set env []) as [| x l] eqn:E; [reflexivity |].
  assert (Hx : x ∈ list_of_set env []) by (rewrite E; left).
  destruct (Hset []) as [_ Hmem]. apply Hmem in Hx. inversion Hx.
Qed.

(** The keywords found in the sample text: eight positive phrases, no
    negative and no neutral one. *)
Lemma sample_keywords_found (env : Env) :
  extract_investment_keywords env sample_text !! "keywords_found"
  = Some (VKeywords
            [ ("positive",
               list_of_set env
                 [ "investment"; "growth"; "upgraded"; "renewable energy"; "green";
                   "win"; "boost"; "upgrade" ]);
              ("negative", list_of_set env []);
              ("neutral", list_of_set env []) ]).
Proof. vm_compute. reflexivity. Qed.

Lemma sample_impact (env : Env) (p : Q) :
  set_order_ok env -> 0.1 < p ->
  categorize_news_impact
    [ ("positive",
       list_of_set env
         [ "investment"; "growth"; "upgraded"; "renewable energy"; "green";
           "win"; "boost"; "upgrade" ]);
      ("negative", list_of_set env []);
      ("neutral", list_of_set env []) ] p
  = "Highly Positive".
Proof.
  intros Hset Hp. unfold categorize_news_impact, category_count.
  cbn [kw_lookup String.eqb Ascii.eqb Bool.eqb default].
  rewrite (list_of_set_nil env Hset). cbn [length].
  assert (Hin : "investment" ∈ list_of_set env
                  [ "investment"; "growth"; "upgraded"; "renewable energy"; "green";
                    "win"; "boost"; "upgrade" ])
    by (apply (Hset _); left).
  destruct (list_of_set env _) as [| x l]; [inversion Hin |].
  cbn [length Nat.ltb Nat.leb andb]. apply Qlt_bool_iff in Hp. rewrite Hp. reflexivity.
Qed.

(** The sentiment dict when TextBlob answers and the sentence-level
    analysis goes through. *)
Lemma analyze_sentiment_ok (env : Env) (text : string) (p s : Q) :
  textblob_sentiment env text = Ok (p, s) ->
  is_ok (analyze_sentiment_try env text) = true ->
  exists v4 v5 v6 v7,
    analyze_sentiment env text
    = list_to_map
        [ ("sentiment_score", VFloat p);
          ("sentiment_subjectivity", VFloat s);
          ("sentiment_label", VStr (_get_sentiment_label p));
          ("positive_sentences", v4);
          ("negative_sentences", v5);
          ("neutral_sentences", v6);
          ("sentence_sentiments", v7) ].
Proof.
  unfold analyze_sentiment, analyze_sentiment_try. intros ->. cbn [mbind result_bind].
  destruct (sent_tokenize env text) as [sentences | e]; cbn [mbind result_bind];
    [| discriminate].
  destruct (result_map _ _) as [l | e]; cbn [mbind result_bind]; [| discriminate].
  intros _. eexists _, _, _, _. reflexivity.
Qed.

(** Look a key up in a union of dicts given as lists of keys and
    values. *)
Ltac union_lookup :=
  repeat first
    [ rewrite lookup_union_r by (apply list_to_map_lookup_none; reflexivity)
    | erewrite lookup_union_Some_l by reflexivity ].

Ltac union_lookup_in H :=
  repeat first
    [ rewrite lookup_union_r in H by (apply list_to_map_lookup_none; reflexivity)
    | erewrite lookup_union_Some_l in H by reflexivity ].

(** The end-to-end example but for the number: for every environment
    in which TextBlob gives the sample text a polarity above 0.1, the
    analysis of the sample article is labelled Positive, its impact is
    Highly Positive, its one matched company is RIL; and its financial
    numbers are the list [0.0]. *)
Lemma sample_article_end_to_end (env : Env) (p s : Q) :
  set_order_ok env ->
  textblob_sentiment env sample_text = Ok (p, s) ->
  is_ok (analyze_sentiment_try env sample_text) = true ->
  0.1 < p ->
  exists a,
    analyze_article env sample_article (Some sample_table) = Ok a /\
    a !! "sentiment_label" = Some (VStr "Positive") /\
    a !! "impact_category" = Some (VStr "Highly Positive") /\
    (exists m, a !! "matched_companies" = Some (VCompanies [ m ]) /\ cm_symbol m = "RIL") /\
    a !! "financial_numbers" = Some (VFloats [ 0 ]).
Proof.
  intros Hset Hblob Hok Hp.
  pose proof (sample_article_content env) as Htext.
  assert (Hcontent : insufficient (_extract_text_content env sample_article) = false)
    by (vm_compute; reflexivity).
  destruct (analyze_article_sufficient env sample_article (Some sample_table) Hcontent I I)
    as (density & i & d & s' & r & Hd & Hs & Ha & _ & _).
  cbv zeta in Hd, Hs, Ha. rewrite Htext in Hd, Hs, Ha.
  destruct (analyze_sentiment_ok env sample_text p s Hblob Hok)
    as (v4 & v5 & v6 & v7 & Hsentiment).
  destruct (sample_row_match env Hset) as (m & Hrow & Hsymbol & _).
  assert (Hfinancial_numbers : extract_numbers_from_text sample_text = [ 0 ])
    by (vm_compute; reflexivity).
  rewrite Hfinancial_numbers in Hd, Hs, Ha.
  match type of Ha with
  | _ = Ok (<[_:=_]> (<[_:=_]> (<[_:=_]> ?b))) => set (base := b) in *
  end.
  assert (Hlookup : forall k,
             str_in_list k [ "financial_numbers"; "percentages_mentioned";
                             "financial_terms"; "financial_density" ] = false ->
             base !! k
             = (match_companies env sample_text sample_table
                ∪ (extract_investment_keywords env sample_text
                   ∪ (analyze_sentiment env sample_text
                      ∪ <["content_length" := VInt (Z.of_nat (PyStr.len sample_text))]>
                          (identity_fields sample_article)))) !! k).
  { intros k Hk. subst base. unfold signals. cbv zeta. rewrite Htext.
    apply lookup_union_r. apply list_to_map_lookup_none. exact Hk. }
  assert (Hcompanies : match_companies env sample_text sample_table
                       = list_to_map [ ("matched_companies", VCompanies [ m ]);
                                       ("company_count", VInt 1) ]).
  { unfold match_companies. cbv zeta. rewrite Hrow. reflexivity. }
  destruct (extract_investment_keywords_shape env sample_text)
    as (found & kd & kt & _ & Hkeywords).
  pose proof (sample_keywords_found env) as Hfound. rewrite Hkeywords in Hfound.
  change (Some (VKeywords found) = Some (VKeywords
            [ ("positive",
               list_of_set env
                 [ "investment"; "growth"; "upgraded"; "renewable energy"; "green";
                   "win"; "boost"; "upgrade" ]);
              ("negative", list_of_set env []);
              ("neutral", list_of_set env []) ])) in Hfound.
  injection Hfound as ->.
  rewrite Hcompanies, Hkeywords, Hsentiment in Hlookup.
  generalize dependent (identity_fields sample_article). intros identity Hlookup.
  rewrite Hlookup in Hd by reflexivity.
  unfold get in Hs. rewrite Hlookup in Hs by reflexivity.
  union_lookup_in Hd. union_lookup_in Hs.
  injection Hd as <-. injection Hs as <-.
  eexists. split; [exact Ha |]. repeat split.
  - rewrite !lookup_insert_ne by discriminate. rewrite Hlookup by reflexivity.
    union_lookup. unfold _get_sentiment_label.
    apply Qlt_bool_iff in Hp. rewrite Hp. reflexivity.
  - rewrite lookup_insert_ne, lookup_insert_eq by discriminate.
    rewrite (sample_impact env p Hset Hp). reflexivity.
  - exists m. split; [| exact Hsymbol].
    rewrite !lookup_insert_ne by discriminate. rewrite Hlookup by reflexivity.
    union_lookup. reflexivity.
  - rewrite !lookup_insert_ne by discriminate. subst base.
    unfold signals. cbv zeta. apply lookup_union_Some_l. reflexivity.
Qed.

Lemma sample_env_set_order_ok (sentiment : result (Q * Q)) :
  set_order_ok (sample_env sentiment).
Proof.
  intros l. split; [apply NoDup_remove_dups | intros x; apply elem_of_remove_dups].
Qed.

(** The hypotheses of the end-to-end lemma hold in the sample
    environment with a polarity of 0.2. *)
Example sample_article_end_to_end_sample :
  exists a,
    analyze_article (sample_env (Ok (0.2, 0.5))) sample_article (Some sample_table) = Ok a /\
    a !! "sentiment_label" = Some (VStr "Positive") /\
    a !! "impact_category" = Some (VStr "Highly Positive") /\
    (exists m, a !! "matched_companies" = Some (VCompanies [ m ]) /\ cm_symbol m = "RIL") /\
    a !! "financial_numbers" = Some (VFloats [ 0 ]).
Proof.
  apply (sample_article_end_to_end (sample_env (Ok (0.2, 0.5))) 0.2 0.5).
  - apply sample_env_set_order_ok.
  - reflexivity.
  - vm_compute. reflexivity.
  - reflexivity.
Qed.

(** * Further properties *)

(** ** Text similarity *)

Lemma gset_intersection_comm (a b : gset string) : a ∩ b = b ∩ a.
Proof. set_solver. Qed.

Lemma gset_union_comm (a b : gset string) : a ∪ b = b ∪ a.
Proof. set_solver. Qed.

Lemma size_intersection_le_union (a b : gset string) : (size (a ∩ b) <= size (a ∪ b))%nat.
Proof. apply subseteq_size. set_solver. Qed.

Lemma Qdiv_nat_le_1 (n m : nat) :
  (n <= m)%nat -> (0 < m)%nat -> inject_Z (Z.of_nat n) / inject_Z (Z.of_nat m) <= 1.
Proof.
  intros Hle Hpos. apply Qle_shift_div_r.
  - change 0 with (inject_Z 0). rewrite <- Zlt_Qlt. lia.
  - rewrite Qmult_1_l, <- Zle_Qle. lia.
Qed.

(** X1. The similarity of two texts does not depend on their order
    and lies between 0 and 1. *)
Theorem calculate_text_similarity_symmetric_bounded (text1 text2 : string) :
  calculate_text_similarity text1 text2 = calculate_text_similarity text2 text1 /\
  0 <= calculate_text_similarity text1 text2 <= 1.
Proof.
  unfold calculate_text_similarity. cbv zeta. split.
  - rewrite orb_comm, (gset_intersection_comm (word_set (PyStr.lower text2))),
      (gset_union_comm (word_set (PyStr.lower text2))).
    reflexivity.
  - destruct (negb (PyStr.truthy text1) || negb (PyStr.truthy text2)); [lra |].
    set (a := word_set (PyStr.lower text1)). set (b := word_set (PyStr.lower text2)).
    pose proof (size_intersection_le_union a b) as Hle.
    destruct (size (a ∪ b)) as [| n] eqn:Hsize; cbn [Nat.ltb Nat.leb]; [lra |].
    split; [apply Qdiv_nat_nonneg | apply Qdiv_nat_le_1; lia].
Qed.

Lemma word_set_nonempty (text : string) : PyStr.split text <> [] -> word_set text <> ∅.
Proof.
  unfold word_set. destruct (PyStr.split text) as [| w ws]; [contradiction |].
  intros _ Hempty. assert (Hw : w ∈ (∅ : gset string)) by (rewrite <- Hempty; set_solver).
  set_solver.
Qed.

Lemma map_chars_of_list (f : ascii -> ascii) (l : list ascii) :
  PyStr.map_chars f (string_of_list_ascii l) = string_of_list_ascii (map f l).
Proof. induction l as [| c l IH]; cbn; [reflexivity | rewrite IH; reflexivity]. Qed.

(** Lower-casing a text lower-cases its words. *)
Lemma split_aux_lower (cur : list ascii) (s : string) :
  PyStr.split_aux (map PyStr.lower_char cur) (PyStr.lower s)
  = map PyStr.lower (PyStr.split_aux cur s).
Proof.
  revert cur. induction s as [| c t IH]; intros cur; cbn.
  - destruct cur as [| d cur]; [reflexivity |]. cbn [map].
    unfold PyStr.lower. rewrite map_chars_of_list, map_rev. reflexivity.
  - rewrite is_space_lower_char. fold (PyStr.lower t).
    destruct (PyStr.is_space c).
    + destruct cur as [| d cur]; cbn [map].
      * apply (IH []).
      * unfold PyStr.lower at 2. rewrite map_chars_of_list, map_rev. cbn [map].
        f_equal. apply (IH []).
    + apply (IH (c :: cur)).
Qed.

Lemma split_lower (s : string) : PyStr.split (PyStr.lower s) = map PyStr.lower (PyStr.split s).
Proof. apply (split_aux_lower []). Qed.

Lemma split_nonempty_truthy (s : string) : PyStr.split s <> [] -> PyStr.truthy s = true.
Proof. destruct s; [intros H; contradiction H; reflexivity | reflexivity]. Qed.

Lemma lower_words_nonempty (text : string) : PyStr.split text <> [] -> lower_words text <> ∅.
Proof.
  intros H. apply word_set_nonempty. rewrite split_lower.
  destruct (PyStr.split text); [contradiction | discriminate].
Qed.

Lemma Qdiv_nat_eq_1 (n m : nat) :
  (0 < m)%nat -> (inject_Z (Z.of_nat n) / inject_Z (Z.of_nat m) == 1 <-> n = m).
Proof.
  intros Hm.
  assert (Hm' : ~ inject_Z (Z.of_nat m) == 0).
  { change 0 with (inject_Z 0). rewrite inject_Z_injective. lia. }
  split.
  - intros H. apply Nat2Z.inj, inject_Z_injective.
    rewrite <- (Qmult_div_r (inject_Z (Z.of_nat n)) (inject_Z (Z.of_nat m)) Hm'), H.
    apply Qmult_1_r.
  - intros ->. apply Qmult_inv_r, Hm'.
Qed.

(** X2. Two texts with at least one word have similarity 1 exactly
    when they have the same words up to case, whatever the order and
    the repetitions of the words. *)
Theorem calculate_text_similarity_one_iff (text1 text2 : string) :
  PyStr.split text1 <> [] -> PyStr.split text2 <> [] ->
  (calculate_text_similarity text1 text2 == 1 <-> lower_words text1 = lower_words text2).
Proof.
  intros H1 H2. unfold calculate_text_similarity. cbv zeta.
  rewrite (split_nonempty_truthy _ H1), (split_nonempty_truthy _ H2). cbn [negb orb].
  fold (lower_words text1) (lower_words text2).
  pose proof (lower_words_nonempty _ H1) as Hne.
  set (a := lower_words text1) in *. set (b := lower_words text2) in *.
  assert (Hpos : (0 < size (a ∪ b))%nat).
  { destruct (size (a ∪ b)) eqn:E; [| lia].
    apply size_empty_iff in E. exfalso. apply Hne. set_solver. }
  assert (Hltb : (0 <? size (a ∪ b))%nat = true) by (apply Nat.ltb_lt, Hpos).
  rewrite Hltb, (Qdiv_nat_eq_1 _ _ Hpos). split.
  - intros Hsize.
    assert (Heq : a ∩ b = a ∪ b).
    { apply set_subseteq_size_eq; [set_solver | lia]. }
    set_solver.
  - intros ->. f_equal. set_solver.
Qed.

Lemma calculate_text_similarity_one_iff_witness :
  PyStr.split "RIL Wins Deal" <> [] /\ PyStr.split "deal wins   ril deal" <> [] /\
  (calculate_text_similarity "RIL Wins Deal" "deal wins   ril deal" == 1
   <-> lower_words "RIL Wins Deal" = lower_words "deal wins   ril deal").
Proof.
  assert (H1 : PyStr.split "RIL Wins Deal" <> []) by discriminate.
  assert (H2 : PyStr.split "deal wins   ril deal" <> []) by discriminate.
  split; [exact H1 |]. split; [exact H2 |].
  exact (calculate_text_similarity_one_iff _ _ H1 H2).
Defined.

(** A text without a word, even if it is not empty, is similar to
    nothing; the division is guarded by the size of the union. *)
Lemma calculate_text_similarity_no_word (text1 text2 : string) :
  PyStr.split text1 = [] -> PyStr.split text2 = [] ->
  calculate_text_similarity text1 text2 = 0.
Proof.
  intros H1 H2. unfold calculate_text_similarity. cbv zeta.
  destruct (negb (PyStr.truthy text1) || negb (PyStr.truthy text2)); [reflexivity |].
  unfold word_set. rewrite !split_lower, H1, H2. reflexivity.
Qed.

(** ** Numbers in text *)

Lemma digits_value_nonneg (s : string) (acc v : Z) :
  (0 <= acc)%Z -> digits_value acc s = Some v -> (0 <= v)%Z.
Proof.
  revert acc. induction s as [| c t IH]; intros acc Hacc; cbn.
  - intros [= <-]. exact Hacc.
  - destruct (PyStr.is_digit c); [| discriminate].
    apply IH. lia.
Qed.

Lemma float_of_string_nonneg (s : string) (q : Q) : float_of_string s = Some q -> 0 <= q.
Proof.
  unfold float_of_string. destruct (split_at_dot s) as [ip [fp |]].
  - destruct (PyStr.truthy ip || PyStr.truthy fp); [| discriminate].
    destruct (digits_value 0 ip) as [i |] eqn:Ei; [| discriminate].
    destruct (digits_value 0 fp) as [f |] eqn:Ef; [| discriminate].
    cbn. intros [= <-].
    apply digits_value_nonneg in Ei; [| lia]. apply digits_value_nonneg in Ef; [| lia].
    assert (Hi : 0 <= inject_Z i).
    { change 0 with (inject_Z 0). rewrite <- Zle_Qle. exact Ei. }
    assert (Hf : 0 <= f # 10 ^ Pos.of_nat (PyStr.len fp)) by (unfold Qle; cbn; lia).
    lra.
  - destruct (PyStr.truthy ip); [| discriminate].
    destruct (digits_value 0 ip) as [i |] eqn:Ei; [| discriminate].
    cbn. intros [= <-]. apply digits_value_nonneg in Ei; [| lia].
    change 0 with (inject_Z 0). rewrite <- Zle_Qle. exact Ei.
Qed.

Lemma omap_float_nonneg (f : string -> string) (matches : list string) :
  Forall (fun q => 0 <= q) (omap (fun m => float_of_string (f m)) matches).
Proof.
  induction matches as [| m t IH]; cbn; [constructor |].
  destruct (float_of_string (f m)) as [q |] eqn:E; [| exact IH].
  constructor; [exact (float_of_string_nonneg _ _ E) | exact IH].
Qed.

(** X3. No number and no percentage read from a text is negative: the
    patterns capture digits only, so the sign before a number is
    lost. *)
Theorem extracted_numbers_never_negative (text : string) :
  Forall (fun q => 0 <= q) (extract_numbers_from_text text) /\
  Forall (fun q => 0 <= q) (omap float_of_string (findall true percentage_pattern text)).
Proof.
  split.
  - unfold extract_numbers_from_text, floats_of_matches.
    induction number_patterns as [| p ps IH]; cbn [flat_map]; [constructor |].
    apply Forall_app. split; [apply omap_float_nonneg | exact IH].
  - apply (omap_float_nonneg (fun m => m)).
Qed.

Example negative_amounts_lose_their_sign :
  extract_numbers_from_text "a loss of -5 crore" = [ 5 ] /\
  omap float_of_string (findall true percentage_pattern "margin fell -2.5%") = [ 2.5 ].
Proof. split; vm_compute; reflexivity. Qed.

(** A pattern run on a text without a digit hands its continuation
    texts without a digit only. *)
Lemma run_no_digit {R : Type} (ignorecase : bool) (r : regex) :
  forall (s : string) (cap : option string) (k : string -> option string -> option R),
    has_digit s = false ->
    (forall s' cap', has_digit s' = false -> k s' cap' = None) ->
    run ignorecase r s cap k = None.
Proof.
  assert (Hstar : forall (r1 : regex) (k : string -> option string -> option R),
             (forall s cap (k' : string -> option string -> option R),
                 has_digit s = false ->
                 (forall s' cap', has_digit s' = false -> k' s' cap' = None) ->
                 run ignorecase r1 s cap k' = None) ->
             (forall s' cap', has_digit s' = false -> k s' cap' = None) ->
             forall n s0 cap0, has_digit s0 = false ->
               (fix star (n : nat) (s0 : string) (cap0 : option string) {struct n} : option R :=
                  match n with
                  | O => k s0 cap0
                  | S n' =>
                      or_else
                        (run ignorecase r1 s0 cap0 (fun s1 cap1 =>
                           if (PyStr.len s1 <? PyStr.len s0)%nat then star n' s1 cap1 else None))
                        (fun _ => k s0 cap0)
                  end) n s0 cap0 = None).
  { intros r1 k IH Hk n. induction n as [| n IHn]; intros s0 cap0 Hs0.
    - apply Hk, Hs0.
    - rewrite IH; [cbn; apply Hk, Hs0 | exact Hs0 |].
      intros s' cap' Hs'. destruct (PyStr.len s' <? PyStr.len s0)%nat; [| reflexivity].
      apply IHn, Hs'. }
  induction r as [| c | | | r1 IH1 r2 IH2 | r1 IH1 r2 IH2 | r1 IH1 | r1 IH1 | r1 IH1 | r1 IH1];
    intros s cap k Hs Hk; cbn [run].
  - apply Hk, Hs.
  - destruct s as [| d t]; cbn; [reflexivity |].
    cbn in Hs. apply orb_false_iff in Hs as [_ Ht].
    destruct (char_matches ignorecase c d); [apply Hk, Ht | reflexivity].
  - destruct s as [| d t]; cbn; [reflexivity |].
    cbn in Hs. apply orb_false_iff in Hs as [-> _]. reflexivity.
  - destruct s as [| d t]; cbn; [reflexivity |].
    cbn in Hs. apply orb_false_iff in Hs as [_ Ht].
    destruct (PyStr.is_space d); [apply Hk, Ht | reflexivity].
  - apply IH1; [exact Hs |]. intros s' cap' Hs'. apply IH2; assumption.
  - rewrite IH1 by assumption. cbn. apply IH2; assumption.
  - rewrite IH1 by assumption. cbn. apply Hk, Hs.
  - apply Hstar; assumption.
  - apply IH1; [exact Hs |]. intros s' cap' Hs'. apply Hstar; assumption.
  - apply IH1; [exact Hs |]. intros s' cap' Hs'. apply Hk, Hs'.
Qed.

Lemma run_needs_digit {R : Type} (ignorecase : bool) (r : regex) :
  needs_digit r = true ->
  forall (s : string) (cap : option string) (k : string -> option string -> option R),
    has_digit s = false -> run ignorecase r s cap k = None.
Proof.
  induction r as [| c | | | r1 IH1 r2 IH2 | r1 IH1 r2 IH2 | r1 IH1 | r1 IH1 | r1 IH1 | r1 IH1];
    cbn [needs_digit]; intros Hr s cap k Hs; try discriminate; cbn [run].
  - destruct s as [| d t]; cbn; [reflexivity |].
    cbn in Hs. apply orb_false_iff in Hs as [-> _]. reflexivity.
  - destruct (needs_digit r1).
    + apply IH1; [reflexivity | exact Hs].
    + apply run_no_digit; [exact Hs |]. intros s' cap' Hs'. apply IH2; assumption.
  - apply andb_true_iff in Hr as [Hr1 Hr2].
    rewrite IH1 by assumption. cbn. apply IH2; assumption.
  - apply IH1; assumption.
  - apply IH1; assumption.
Qed.

Lemma findall_needs_digit (ignorecase : bool) (r : regex) (s : string) :
  needs_digit r = true -> has_digit s = false -> findall ignorecase r s = [].
Proof.
  intros Hr. unfold findall. generalize (S (PyStr.len s)) as fuel. intros fuel.
  revert s. induction fuel as [| fuel IH]; intros s Hs; cbn [findall_aux]; [reflexivity |].
  unfold match_here. rewrite run_needs_digit by assumption.
  destruct s as [| c t]; [reflexivity |].
  apply IH. cbn in Hs. apply orb_false_iff in Hs as [_ Ht]. exact Ht.
Qed.

(** X4. A text without a digit has no financial number and no
    percentage: a unit or a currency sign alone is not a number. *)
Theorem no_digit_no_numbers (text : string) :
  has_digit text = false ->
  extract_numbers_from_text text = [] /\
  findall true percentage_pattern text = [].
Proof.
  intros Htext. split.
  - unfold extract_numbers_from_text.
    assert (Hall : forallb needs_digit number_patterns = true) by reflexivity.
    induction number_patterns as [| p ps IH]; cbn [flat_map]; [reflexivity |].
    cbn in Hall. apply andb_true_iff in Hall as [Hp Hps].
    rewrite (findall_needs_digit _ _ _ Hp Htext). cbn. apply IH, Hps.
  - apply findall_needs_digit; [reflexivity | exact Htext].
Qed.

Lemma no_digit_no_numbers_witness :
  has_digit "profit in crores, up by a few percent ($)" = false /\
  extract_numbers_from_text "profit in crores, up by a few percent ($)" = [] /\
  findall true percentage_pattern "profit in crores, up by a few percent ($)" = [].
Proof.
  split; [reflexivity |].
  apply (no_digit_no_numbers "profit in crores, up by a few percent ($)"). reflexivity.
Defined.

(** ** The investment score and the publication date *)

Lemma get_delete_ne (a : pydict) (k k' : string) (dflt : pyval) :
  k <> k' -> get (delete k a) k' dflt = get a k' dflt.
Proof. intros H. unfold get. rewrite lookup_delete_ne by exact H. reflexivity. Qed.

Lemma stale_recency (env : Env) (t : Z) :
  (7 * 86400 <= now env - t)%Z ->
  Qmax 0 ((7 - inject_Z (days_old env t)) / 7) * 0.2 == 0.
Proof.
  intros Hold.
  assert (Hdays : (7 <= days_old env t)%Z).
  { unfold days_old. apply Z.div_le_lower_bound; lia. }
  assert (Hq : inject_Z 7 <= inject_Z (days_old env t)) by (rewrite <- Zle_Qle; exact Hdays).
  change (inject_Z 7) with 7 in Hq.
  rewrite Q.max_l; [reflexivity |].
  apply Qle_shift_div_r; [reflexivity | lra].
Qed.

(** X5. A naive publication date seven days old or older earns no
    recency: the investment score of the article is the score it
    would have with no date at all, and the same exception when it
    has none.  A date with a time zone is another matter: it cannot
    be subtracted from the clock, whatever its age. *)
Theorem stale_date_scores_as_undated (env : Env) (article_data : pydict) (t : Z) :
  article_data !! "published_date" = Some (VDate t) ->
  (7 * 86400 <= now env - t)%Z ->
  match calculate_investment_score env article_data,
        calculate_investment_score env (delete "published_date" article_data) with
  | Ok score, Ok undated => score == undated
  | Raise e, Raise e' => e = e'
  | _, _ => False
  end.
Proof.
  intros Hdate Hold. unfold calculate_investment_score. cbv zeta.
  assert (Hget : get article_data "published_date" VNone = VDate t)
    by (unfold get; rewrite Hdate; reflexivity).
  assert (Hnone : get (delete "published_date" article_data) "published_date" VNone = VNone)
    by (unfold get; rewrite lookup_delete_eq; reflexivity).
  rewrite Hget, Hnone, !get_delete_ne by discriminate. cbn [truthy].
  destruct (as_number (get article_data "sentiment_score" (VInt 0))) as [s | e];
    cbn [mbind result_bind]; [| reflexivity].
  destruct (get article_data "keywords_found" (VKeywords [])) as [| | | | | | | | d |];
    cbn [mbind result_bind]; try reflexivity.
  destruct (get article_data "source" (VStr "")) as [| src | | | | | | | |];
    cbn [mbind result_bind]; try reflexivity.
  pose proof (stale_recency env t Hold) as Hrec.
  set (recency := Qmax 0 ((7 - inject_Z (days_old env t)) / 7) * 0.2) in *.
  destruct (existsb _ credible_sources).
  - apply Q.min_compat; [lra | reflexivity].
  - apply Q.min_compat; [lra | reflexivity].
Qed.

Lemma stale_date_scores_as_undated_witness :
  let env := sample_env (Ok (0, 0)) in
  let a : pydict :=
    list_to_map [ ("sentiment_score", VFloat 0.5); ("published_date", VDate (-691200));
                  ("source", VStr "Mint") ] in
  a !! "published_date" = Some (VDate (-691200)) /\
  (7 * 86400 <= now env - -691200)%Z /\
  match calculate_investment_score env a,
        calculate_investment_score env (delete "published_date" a) with
  | Ok score, Ok undated => score == undated
  | Raise e, Raise e' => e = e'
  | _, _ => False
  end.
Proof.
  intros env a.
  assert (Hdate : a !! "published_date" = Some (VDate (-691200))) by reflexivity.
  assert (Hold : (7 * 86400 <= now env - -691200)%Z) by (cbn; lia).
  split; [exact Hdate |]. split; [exact Hold |].
  exact (stale_date_scores_as_undated env a (-691200) Hdate Hold).
Defined.

Example aware_date_is_not_scored :
  let env := sample_env (Ok (0, 0)) in
  let a : pydict :=
    list_to_map [ ("sentiment_score", VFloat 0.5); ("published_date", VAwareDate (-691200));
                  ("source", VStr "Mint") ] in
  calculate_investment_score env a
  = Raise (TypeError "can't subtract offset-naive and offset-aware datetimes") /\
  is_ok (calculate_investment_score env (delete "published_date" a)) = true.
Proof. split; vm_compute; reflexivity. Qed.

(** ** Company names *)

Lemma split_aux_all_space (cur : list ascii) (s : string) :
  all_space s = true ->
  PyStr.split_aux cur s
  = match cur with [] => [] | _ => [string_of_list_ascii (rev cur)] end.
Proof.
  revert cur. induction s as [| c t IH]; intros cur; cbn; [reflexivity |].
  intros H. apply andb_true_iff in H as [-> Ht].
  rewrite (IH [] Ht). destruct cur; reflexivity.
Qed.

Lemma split_lstrip (s : string) : PyStr.split (PyStr.lstrip s) = PyStr.split s.
Proof.
  unfold PyStr.split. induction s as [| c t IH]; cbn; [reflexivity |].
  destruct (PyStr.is_space c) eqn:E; [exact IH |].
  cbn. rewrite E. reflexivity.
Qed.

Lemma rstrip_cons_nonspace (c : ascii) (t : string) :
  PyStr.is_space c = false -> PyStr.rstrip (String c t) = String c (PyStr.rstrip t).
Proof. intros E. cbn. rewrite E. destruct (PyStr.rstrip t); reflexivity. Qed.

Lemma split_aux_rstrip (s : string) (cur : list ascii) :
  PyStr.split_aux cur (PyStr.rstrip s) = PyStr.split_aux cur s.
Proof.
  revert cur. induction s as [| c t IH]; intros cur; [reflexivity |].
  destruct (PyStr.is_space c) eqn:E.
  - cbn [PyStr.rstrip]. destruct (PyStr.rstrip t) as [| d t'] eqn:Er.
    + rewrite E. apply rstrip_empty_iff in Er.
      cbn [PyStr.split_aux]. rewrite E.
      rewrite (split_aux_all_space [] t Er). destruct cur; reflexivity.
    + cbn [PyStr.split_aux]. rewrite E. rewrite <- (IH []). reflexivity.
  - rewrite rstrip_cons_nonspace by exact E.
    cbn [PyStr.split_aux]. rewrite E. apply IH.
Qed.

Lemma split_strip (s : string) : PyStr.split (PyStr.strip s) = PyStr.split s.
Proof.
  unfold PyStr.strip, PyStr.split at 1. rewrite split_aux_rstrip.
  apply split_lstrip.
Qed.

(** The words of a text do not depend on the length of its runs of
    whitespace. *)
Lemma split_aux_collapse (s : string) :
  PyStr.split_aux [] (PyStr.collapse_spaces_aux true s) = PyStr.split_aux [] s /\
  forall cur, PyStr.split_aux cur (PyStr.collapse_spaces_aux false s) = PyStr.split_aux cur s.
Proof.
  induction s as [| c t [IHa IHb]]; [split; reflexivity |].
  cbn [PyStr.collapse_spaces_aux PyStr.split_aux].
  destruct (PyStr.is_space c) eqn:E.
  - split; [exact IHa |]. intros cur. cbn [PyStr.split_aux].
    change (PyStr.is_space " ") with true. cbv iota. rewrite IHa. reflexivity.
  - split; [| intros cur]; cbn [PyStr.split_aux]; rewrite E; apply IHb.
Qed.

Lemma lstrip_collapse (b : bool) (s : string) :
  PyStr.lstrip (PyStr.collapse_spaces_aux b s)
  = PyStr.collapse_spaces_aux false (PyStr.lstrip s).
Proof.
  revert b. induction s as [| c t IH]; intros b; [reflexivity |].
  cbn [PyStr.collapse_spaces_aux PyStr.lstrip].
  destruct (PyStr.is_space c) eqn:E.
  - destruct b; [apply IH |]. cbn [PyStr.lstrip].
    change (PyStr.is_space " ") with true. cbv iota. apply IH.
  - cbn [PyStr.lstrip PyStr.collapse_spaces_aux]. rewrite E. reflexivity.
Qed.

Lemma string_of_rev_cons (c : ascii) (cur : list ascii) (t : string) :
  (string_of_list_ascii (rev (c :: cur)) ++ t = string_of_list_ascii (rev cur) ++ String c t)%string.
Proof.
  cbn [rev]. generalize (rev cur) as l. intros l.
  induction l as [| d l IH]; [reflexivity |].
  change (String d (string_of_list_ascii (l ++ [c]) ++ t)%string
          = String d (string_of_list_ascii l ++ String c t)%string).
  f_equal. exact IH.
Qed.

Lemma append_empty_r (s : string) : (s ++ "")%string = s.
Proof.
  induction s as [| c t IH]; [reflexivity |].
  change (String c (t ++ "")%string = String c t). f_equal. exact IH.
Qed.

Lemma rstrip_cons_keep (c : ascii) (t : string) :
  PyStr.rstrip t <> EmptyString -> PyStr.rstrip (String c t) = String c (PyStr.rstrip t).
Proof. intros H. cbn. destruct (PyStr.rstrip t); [contradiction | reflexivity]. Qed.

(** The collapsed text, its trailing whitespace stripped, is its words
    joined by single spaces: after a word being read, and after a run
    of whitespace. *)
Lemma rstrip_collapse_join (s : string) :
  (forall cur, cur <> [] ->
     (string_of_list_ascii (rev cur) ++ PyStr.rstrip (PyStr.collapse_spaces_aux false s))%string
     = PyStr.join " " (PyStr.split_aux cur s)) /\
  PyStr.rstrip (String " " (PyStr.collapse_spaces_aux true s))
  = match PyStr.split_aux [] s with
    | [] => EmptyString
    | ws => String " " (PyStr.join " " ws)
    end.
Proof.
  induction s as [| c t [IHa IHb]].
  - split; [| reflexivity]. intros cur Hcur. cbn.
    destruct cur; [contradiction |]. apply append_empty_r.
  - cbn [PyStr.collapse_spaces_aux PyStr.split_aux].
    destruct (PyStr.is_space c) eqn:E.
    + split; [| exact IHb]. intros cur Hcur.
      destruct cur as [| d cur]; [contradiction |].
      rewrite IHb. cbn [PyStr.join].
      destruct (PyStr.split_aux [] t); [apply append_empty_r | reflexivity].
    + assert (Hword : forall cur,
                 (string_of_list_ascii (rev cur)
                  ++ PyStr.rstrip (String c (PyStr.collapse_spaces_aux false t)))%string
                 = PyStr.join " " (PyStr.split_aux (c :: cur) t)).
      { intros cur. rewrite rstrip_cons_nonspace by exact E.
        rewrite <- string_of_rev_cons. apply IHa. discriminate. }
      split; [intros cur _; apply Hword |].
      pose proof (split_aux_nonempty [c] t ltac:(discriminate)) as Hne.
      pose proof (Hword []) as Hw.
      change (PyStr.rstrip (String c (PyStr.collapse_spaces_aux false t))
              = PyStr.join " " (PyStr.split_aux [c] t)) in Hw.
      destruct (PyStr.split_aux [c] t) as [| w ws] eqn:Es; [contradiction |].
      rewrite <- Hw. apply rstrip_cons_keep.
      rewrite rstrip_cons_nonspace by exact E. discriminate.
Qed.

Lemma strip_collapse_join (s : string) :
  PyStr.strip (PyStr.collapse_spaces s) = PyStr.join " " (PyStr.split s).
Proof.
  unfold PyStr.strip, PyStr.collapse_spaces. rewrite lstrip_collapse, <- split_lstrip.
  destruct (lstrip_head s) as [-> | (c & t & -> & E)]; [reflexivity |].
  cbn [PyStr.collapse_spaces_aux]. rewrite E.
  unfold PyStr.split. cbn [PyStr.split_aux]. rewrite E.
  rewrite <- (proj1 (rstrip_collapse_join t) [c]) by discriminate.
  rewrite rstrip_cons_nonspace by exact E. reflexivity.
Qed.

Lemma lower_cons (c : ascii) (t : string) :
  PyStr.lower (String c t) = String c t <-> PyStr.lower_char c = c /\ PyStr.lower t = t.
Proof.
  change (PyStr.lower (String c t)) with (String (PyStr.lower_char c) (PyStr.lower t)).
  split; [intros [= Hc Ht]; split; assumption | intros [-> ->]; reflexivity].
Qed.

Lemma lower_char_idempotent (c : ascii) :
  PyStr.lower_char (PyStr.lower_char c) = PyStr.lower_char c.
Proof. destruct c as [[] [] [] [] [] [] [] []]; reflexivity. Qed.

Lemma lower_idempotent (s : string) : PyStr.lower (PyStr.lower s) = PyStr.lower s.
Proof.
  induction s as [| c t IH]; [reflexivity |].
  change (PyStr.lower (String c t)) with (String (PyStr.lower_char c) (PyStr.lower t)).
  apply lower_cons. split; [apply lower_char_idempotent | exact IH].
Qed.

Lemma lower_replace_aux (old : string) (s : string) (skip : nat) :
  PyStr.lower s = s -> PyStr.lower (PyStr.replace_aux old "" skip s) = PyStr.replace_aux old "" skip s.
Proof.
  revert skip. induction s as [| c t IH]; intros skip Hs; [reflexivity |].
  apply lower_cons in Hs as [Hc Ht]. cbn [PyStr.replace_aux].
  destruct skip as [| k]; [| apply IH, Ht].
  destruct (PyStr.starts_with old (String c t)).
  - change (("" ++ ?x)%string) with x. apply IH, Ht.
  - apply lower_cons. split; [exact Hc | apply IH, Ht].
Qed.

Lemma lower_remove_suffixes (suffixes : list string) (s : string) :
  PyStr.lower s = s ->
  let cleaned := fold_left (fun acc suffix => PyStr.replace suffix "" acc) suffixes s in
  PyStr.lower cleaned = cleaned.
Proof.
  revert s. induction suffixes as [| x l IH]; intros s Hs; cbn; [exact Hs |].
  apply IH, lower_replace_aux, Hs.
Qed.

Lemma lower_sub_nonword_space (s : string) :
  PyStr.lower s = s -> PyStr.lower (PyStr.sub_nonword_space s) = PyStr.sub_nonword_space s.
Proof.
  induction s as [| c t IH]; intros Hs; [reflexivity |].
  apply lower_cons in Hs as [Hc Ht].
  unfold PyStr.sub_nonword_space. cbn [PyStr.map_chars].
  apply lower_cons. split; [| apply IH, Ht].
  destruct (PyStr.is_word c || PyStr.is_space c); [exact Hc | reflexivity].
Qed.

Lemma lower_collapse_spaces (s : string) (in_run : bool) :
  PyStr.lower s = s ->
  PyStr.lower (PyStr.collapse_spaces_aux in_run s) = PyStr.collapse_spaces_aux in_run s.
Proof.
  revert in_run. induction s as [| c t IH]; intros in_run Hs; [reflexivity |].
  apply lower_cons in Hs as [Hc Ht]. cbn [PyStr.collapse_spaces_aux].
  destruct (PyStr.is_space c).
  - destruct in_run; [apply IH, Ht |].
    apply lower_cons. split; [reflexivity | apply IH, Ht].
  - apply lower_cons. split; [exact Hc | apply IH, Ht].
Qed.

Lemma lower_lstrip (s : string) :
  PyStr.lower s = s -> PyStr.lower (PyStr.lstrip s) = PyStr.lstrip s.
Proof.
  induction s as [| c t IH]; intros Hs; [reflexivity |].
  cbn [PyStr.lstrip]. destruct (PyStr.is_space c); [| exact Hs].
  apply lower_cons in Hs as [_ Ht]. apply IH, Ht.
Qed.

Lemma lower_rstrip (s : string) :
  PyStr.lower s = s -> PyStr.lower (PyStr.rstrip s) = PyStr.rstrip s.
Proof.
  induction s as [| c t IH]; intros Hs; [reflexivity |].
  apply lower_cons in Hs as [Hc Ht]. specialize (IH Ht).
  cbn [PyStr.rstrip]. destruct (PyStr.rstrip t) as [| d t'].
  - destruct (PyStr.is_space c); [reflexivity |].
    apply lower_cons. split; [exact Hc | reflexivity].
  - apply lower_cons. split; [exact Hc | exact IH].
Qed.

(** X6. A cleaned company name is in normal form: its words joined
    by single spaces, with no whitespace at either end, and in lower
    case. *)
Theorem clean_company_name_normal_form (name : string) :
  clean_company_name name = PyStr.join " " (PyStr.split (clean_company_name name)) /\
  PyStr.lower (clean_company_name name) = clean_company_name name.
Proof.
  unfold clean_company_name. cbv zeta. split.
  - rewrite split_strip. unfold PyStr.collapse_spaces at 2, PyStr.split.
    rewrite (proj2 (split_aux_collapse _) []). apply strip_collapse_join.
  - apply lower_rstrip, lower_lstrip, lower_collapse_spaces, lower_sub_nonword_space.
    apply lower_remove_suffixes, lower_idempotent.
Qed.

Example clean_company_name_samples :
  clean_company_name "  Tata  Motors (India) Ltd. " = "tata motors india" /\
  clean_company_name "Larsen & Toubro Limited" = "larsen toubro" /\
  clean_company_name "Bharat Coking Coal" = "bharatkingal".
Proof. repeat split; vm_compute; reflexivity. Qed.

Lemma company_variants_list_bounds (company_name : string) :
  company_name ∈ company_variants_list company_name /\
  (length (company_variants_list company_name) <= 4)%nat.
Proof.
  unfold company_variants_list. cbv zeta.
  generalize (clean_company_name company_name) as clean_name. intros clean_name.
  generalize (acronym_of (PyStr.split clean_name)) as acronym.
  generalize (PyStr.join " " (take (Nat.min 3 (length (PyStr.split clean_name)))
                                   (PyStr.split clean_name))) as partial.
  intros partial acronym.
  destruct (PyStr.truthy clean_name && negb (String.eqb clean_name (PyStr.lower company_name)));
    destruct (1 <? length (PyStr.split clean_name))%nat;
    destruct (1 <? PyStr.len acronym)%nat;
    destruct (2 <=? length (PyStr.split clean_name))%nat;
    (split; [apply list_elem_of_In; rewrite ?in_app_iff; cbn [In]; tauto
            | rewrite ?length_app; cbn [length]; lia]).
Qed.

(** X7. The variants of a company name hold the name itself, hold no
    variant twice, and are four at most: the name, its cleaned form,
    the acronym and the first words. *)
Theorem extract_company_variants_bounds (env : Env) (company_name : string) :
  set_order_ok env ->
  company_name ∈ extract_company_variants env company_name /\
  NoDup (extract_company_variants env company_name) /\
  (1 <= length (extract_company_variants env company_name) <= 4)%nat.
Proof.
  intros Hset. unfold extract_company_variants.
  destruct (Hset (company_variants_list company_name)) as [Hnodup Hmem].
  destruct (company_variants_list_bounds company_name) as [Hname Hlen].
  assert (Hin : company_name ∈ list_of_set env (company_variants_list company_name))
    by (apply Hmem, Hname).
  split; [exact Hin |]. split; [exact Hnodup |]. split.
  - destruct (list_of_set env (company_variants_list company_name)); [| cbn [length]; lia].
    inversion Hin.
  - etransitivity; [| exact Hlen].
    apply submseteq_length, NoDup_submseteq; [exact Hnodup |].
    intros x Hx. apply Hmem, Hx.
Qed.

Lemma extract_company_variants_bounds_witness :
  let env := sample_env (Ok (0, 0)) in
  set_order_ok env /\
  "Tata Horizon Enterprises" ∈ extract_company_variants env "Tata Horizon Enterprises" /\
  NoDup (extract_company_variants env "Tata Horizon Enterprises") /\
  (1 <= length (extract_company_variants env "Tata Horizon Enterprises") <= 4)%nat.
Proof.
  intros env.
  pose proof (sample_env_set_order_ok (Ok (0, 0))) as Hset.
  split; [exact Hset |].
  exact (extract_company_variants_bounds env "Tata Horizon Enterprises" Hset).
Defined.

(** ** Sentiment and keywords *)

Lemma result_map_length {A B} (f : A -> result B) (l : list A) (out : list B) :
  result_map f l = Ok out -> length out = length l.
Proof.
  revert out. induction l as [| x t IH]; intros out; cbn.
  - intros [= <-]. reflexivity.
  - destruct (f x) as [y |]; cbn; [| discriminate].
    destruct (result_map f t) as [ys |]; cbn; [| discriminate].
    intros [= <-]. cbn. f_equal. apply IH. reflexivity.
Qed.

Lemma polar_counts (l : list Q) :
  (length (List.filter (fun s => Qlt_bool 0.1 s) l)
   + length (List.filter (fun s => Qlt_bool s (-0.1)) l) <= length l)%nat.
Proof.
  induction l as [| s t IH]; cbn; [lia |].
  destruct (Qlt_bool 0.1 s) eqn:Ep, (Qlt_bool s (-0.1)) eqn:En; cbn; try lia.
  apply Qlt_bool_iff in Ep, En. lra.
Qed.



Lemma total_keywords_length (found : list (string * list string)) :
  fold_right (fun '(_, kw_list) acc => (length kw_list + acc)%nat) O found
  = length (concat (map snd found)).
Proof.
  induction found as [| [category phrases] t IH]; [reflexivity |].
  cbn [fold_right map concat snd]. rewrite length_app, IH. reflexivity.
Qed.

(** X9. The keywords found in a text are, category by category in
    the order of the lexicon, exactly the phrases of the category that
    occur in the text when both are lower-cased, each of them once,
    also when the lexicon lists a phrase twice; the total is their
    number. *)
Theorem extract_investment_keywords_exact (env : Env) (text : string) :
  set_order_ok env ->
  exists found,
    extract_investment_keywords env text !! "keywords_found" = Some (VKeywords found) /\
    extract_investment_keywords env text !! "total_investment_keywords"
    = Some (VInt (Z.of_nat (length (concat (map snd found))))) /\
    Forall2
      (fun entry hit =>
         fst hit = fst entry /\ NoDup (snd hit) /\
         forall keyword,
           keyword ∈ snd hit
           <-> keyword ∈ snd entry /\
               PyStr.contains (PyStr.lower keyword) (PyStr.lower text) = true)
      investment_keywords found.
Proof.
  intros Hset. unfold extract_investment_keywords. cbv zeta.
  rewrite total_keywords_length.
  set (found := map _ investment_keywords).
  exists found. split; [| split].
  - generalize found. intros f.
    match goal with |- context [("keyword_density", ?v)] => generalize v end.
    intros v. vm_compute. reflexivity.
  - generalize (Z.of_nat (length (concat (map snd found)))). intros n.
    generalize found. intros f.
    match goal with |- context [("keyword_density", ?v)] => generalize v end.
    intros v. vm_compute. reflexivity.
  - subst found. apply Forall2_fmap_r, Forall_Forall2_diag, Forall_forall.
    intros [category lexicon] _. cbn [fst snd].
    destruct (Hset (List.filter
                      (fun keyword => PyStr.contains (PyStr.lower keyword) (PyStr.lower text))
                      lexicon)) as [Hnodup Hmem].
    split; [reflexivity |]. split; [exact Hnodup |].
    intros keyword. rewrite Hmem, !list_elem_of_In, filter_In. reflexivity.
Qed.

Lemma extract_investment_keywords_exact_witness :
  let env := sample_env (Ok (0, 0)) in
  set_order_ok env /\
  exists found,
    extract_investment_keywords env "Weak results are disappointing" !! "keywords_found"
    = Some (VKeywords found) /\
    extract_investment_keywords env "Weak results are disappointing"
      !! "total_investment_keywords"
    = Some (VInt (Z.of_nat (length (concat (map snd found))))) /\
    Forall2
      (fun entry hit =>
         fst hit = fst entry /\ NoDup (snd hit) /\
         forall keyword,
           keyword ∈ snd hit
           <-> keyword ∈ snd entry /\
               PyStr.contains (PyStr.lower keyword)
                 (PyStr.lower "Weak results are disappointing") = true)
      investment_keywords found.
Proof.
  intros env.
  pose proof (sample_env_set_order_ok (Ok (0, 0))) as Hset.
  split; [exact Hset |].
  exact (extract_investment_keywords_exact env "Weak results are disappointing" Hset).
Defined.

Example disappointing_counted_once :
  extract_investment_keywords (sample_env (Ok (0, 0))) "Weak results are disappointing"
    !! "keywords_found"
  = Some (VKeywords [ ("positive", []); ("negative", [ "weak"; "disappointing" ]);
                      ("neutral", [ "results" ]) ]).
Proof. vm_compute. reflexivity. Qed.

(** ** The confidence of a match *)

Lemma starts_with_has_space (p s : string) :
  PyStr.starts_with p s = true -> has_space p = true -> has_space s = true.
Proof.
  revert s. induction p as [| a p IH]; intros s; cbn; [discriminate |].
  destruct s as [| b s]; [discriminate |].
  destruct (Ascii.eqb_spec a b) as [<- |]; [| discriminate].
  intros Hstart Hp. cbn. destruct (PyStr.is_space a); [reflexivity |].
  apply (IH s Hstart Hp).
Qed.

Lemma contains_has_space (needle hay : string) :
  PyStr.contains needle hay = true -> has_space needle = true -> has_space hay = true.
Proof.
  intros Hc Hn. induction hay as [| c t IH]; cbn in Hc.
  - rewrite orb_false_r in Hc. apply (starts_with_has_space _ _ Hc Hn).
  - apply orb_true_iff in Hc as [Hc | Hc]; [apply (starts_with_has_space _ _ Hc Hn) |].
    cbn. rewrite (IH Hc). apply orb_true_r.
Qed.

Lemma has_space_of_list (l : list ascii) :
  Forall (fun c => PyStr.is_space c = false) l -> has_space (string_of_list_ascii l) = false.
Proof. induction 1 as [| c l Hc _ IH]; cbn; [reflexivity | rewrite Hc, IH; reflexivity]. Qed.

(** No word of [text.split()] has a whitespace character. *)
Lemma split_aux_no_space (s : string) (cur : list ascii) :
  Forall (fun c => PyStr.is_space c = false) cur ->
  Forall (fun w => has_space w = false) (PyStr.split_aux cur s).
Proof.
  revert cur. induction s as [| c t IH]; intros cur Hcur; cbn.
  - destruct cur; constructor; [| constructor].
    apply has_space_of_list, Forall_rev, Hcur.
  - destruct (PyStr.is_space c) eqn:E.
    + destruct cur; [apply IH; constructor |].
      constructor; [| apply IH; constructor].
      apply has_space_of_list, Forall_rev, Hcur.
    + apply IH. constructor; assumption.
Qed.

Lemma match_positions_spaced (mtch : string) (words : list string) (i : nat) :
  has_space mtch = true ->
  Forall (fun w => has_space w = false) words ->
  match_positions_from i mtch words = [].
Proof.
  intros Hm Hwords. revert i. induction Hwords as [| w ws Hw _ IH]; intros i; cbn; [reflexivity |].
  destruct (PyStr.contains mtch w) eqn:E; [| apply IH].
  rewrite (contains_has_space _ _ E Hm) in Hw. discriminate.
Qed.

Lemma has_space_lower (s : string) : has_space (PyStr.lower s) = has_space s.
Proof.
  induction s as [| c t IH]; [reflexivity |].
  change (PyStr.lower (String c t)) with (String (PyStr.lower_char c) (PyStr.lower t)).
  cbn. rewrite is_space_lower_char, IH. reflexivity.
Qed.

(** X10. A variant with whitespace in it, such as a full company
    name of several words, earns no context bonus: it is looked for
    inside the single words of the text, where it cannot be, so no
    word around it is found and its confidence is 0.7 at most. *)
Theorem spaced_variant_has_no_context (text variant full_name : string) :
  has_space variant = true ->
  (forall window, _get_words_around_match (PyStr.lower text) (PyStr.lower variant) window = []) /\
  _calculate_match_confidence text variant full_name <= 0.7.
Proof.
  intros Hspace.
  assert (Hwords : forall window,
             _get_words_around_match (PyStr.lower text) (PyStr.lower variant) window = []).
  { intros window. unfold _get_words_around_match. cbv zeta.
    rewrite match_positions_spaced; [reflexivity | |].
    - rewrite has_space_lower. exact Hspace.
    - apply split_aux_no_space. constructor. }
  split; [exact Hwords |].
  destruct (_calculate_match_confidence_sum text variant full_name) as (raw & -> & Hraw).
  assert (Hcount : context_bonus_count text variant = O).
  { unfold context_bonus_count, satisfied_context_words. rewrite Hwords. reflexivity. }
  rewrite Hcount in Hraw. change (inject_Z (Z.of_nat 0)) with 0 in Hraw.
  pose proof (Q.le_min_l raw 1) as Hmin.
  destruct (PyStr.contains (PyStr.lower variant) (PyStr.lower text)),
    (PyStr.contains (PyStr.lower full_name) (PyStr.lower text)),
    (str_in_list (PyStr.lower variant) common_words); lra.
Qed.

Lemma spaced_variant_has_no_context_witness :
  has_space "Reliance Industries" = true /\
  (forall window,
      _get_words_around_match
        (PyStr.lower "The company Reliance Industries Limited announces a plant")
        (PyStr.lower "Reliance Industries") window = []) /\
  _calculate_match_confidence "The company Reliance Industries Limited announces a plant"
    "Reliance Industries" "Reliance Industries" <= 0.7.
Proof.
  split; [reflexivity |].
  apply (spaced_variant_has_no_context
           "The company Reliance Industries Limited announces a plant"
           "Reliance Industries" "Reliance Industries").
  reflexivity.
Defined.

Example one_word_variant_context :
  _calculate_match_confidence "The company Reliance Industries Limited announces a plant"
    "Reliance" "Reliance Industries" == 1.
Proof. vm_compute. reflexivity. Qed.

(** ** Company matches *)

Section SortPermutation.
Context {A : Type} (key : A -> Q).

Lemma insert_desc_Permutation (x : A) (l : list A) : insert_desc key x l ≡ₚ x :: l.
Proof.
  induction l as [| y t IH]; cbn; [reflexivity |].
  destruct (Qlt_bool (key x) (key y)); [| reflexivity].
  rewrite IH. apply Permutation_swap.
Qed.

Lemma sort_desc_Permutation (l : list A) : sort_desc key l ≡ₚ l.
Proof.
  induction l as [| x t IH]; cbn; [reflexivity |].
  rewrite insert_desc_Permutation, IH. reflexivity.
Qed.
End SortPermutation.

Lemma scan_variants_Some (text : string) (row : CompanyRecord) (variants : list string)
    (m : CompanyMatch) :
  scan_variants text (PyStr.lower text) row variants = Some m ->
  exists v, v ∈ variants /\ variant_accepted text row v = true /\ m = match_of text row v.
Proof.
  induction variants as [| v rest IH]; [discriminate |].
  rewrite scan_variants_cons. destruct (variant_accepted text row v) eqn:E.
  - intros [= <-]. exists v. split; [left | split; [exact E | reflexivity]].
  - intros H. destruct (IH H) as (u & Hu & Hacc & ->).
    exists u. split; [right; exact Hu | split; [exact Hacc | reflexivity]].
Qed.

Lemma _calculate_match_confidence_le_1 (text variant full_name : string) :
  _calculate_match_confidence text variant full_name <= 1.
Proof. unfold _calculate_match_confidence. cbv zeta. apply Q.le_min_r. Qed.

Lemma match_row_from (env : Env) (text : string) (df : list CompanyRecord) (row : CompanyRecord)
    (m : CompanyMatch) :
  row ∈ df -> match_row env text (PyStr.lower text) row = Some m -> match_from env text df m.
Proof.
  intros Hrow. unfold match_row.
  destruct (negb (PyStr.truthy (company_name row))); [discriminate |].
  intros H. apply scan_variants_Some in H as (v & Hv & Hacc & ->).
  unfold variant_accepted in Hacc. apply andb_true_iff in Hacc as [_ Hconf].
  apply Qlt_bool_iff in Hconf.
  split; [split; [exact Hconf | apply _calculate_match_confidence_le_1] |].
  exists row. cbn. repeat split; assumption.
Qed.

Lemma matched_companies_from (env : Env) (text : string) (df : list CompanyRecord) :
  Forall (match_from env text df) (omap (match_row env text (PyStr.lower text)) df).
Proof.
  apply Forall_forall. intros m Hm.
  apply list_elem_of_omap in Hm as (row & Hrow & Hmatch).
  apply (match_row_from env text df row m Hrow Hmatch).
Qed.

Lemma unique_update_keys (company : CompanyMatch) (unique : list (string * CompanyMatch)) :
  forall k, k ∈ map fst (unique_update company unique)
            <-> k = cm_symbol company \/ k ∈ map fst unique.
Proof.
  intros k. induction unique as [| [k' old] t IH]; cbn.
  - rewrite list_elem_of_singleton. split; [left; assumption | intros [H | H]; [exact H | inversion H]].
  - destruct (String.eqb_spec k' (cm_symbol company)) as [-> | Hne].
    + destruct (Qlt_bool (cm_confidence old) (cm_confidence company)); cbn;
        rewrite !elem_of_cons; tauto.
    + cbn. rewrite !elem_of_cons, IH. tauto.
Qed.

Lemma unique_update_keyed (P : CompanyMatch -> Prop) (company : CompanyMatch)
    (unique : list (string * CompanyMatch)) :
  P company -> keyed P unique -> keyed P (unique_update company unique).
Proof.
  intros Hc [Hnodup Hall]. induction unique as [| [k old] t IH]; cbn.
  - split; [apply NoDup_singleton | repeat constructor; assumption].
  - cbn in Hnodup. apply NoDup_cons in Hnodup as [Hk Hnodup].
    apply Forall_cons in Hall as [[Hkey Hold] Hall]. cbn in Hkey, Hold.
    destruct (String.eqb_spec k (cm_symbol company)) as [-> | Hne].
    + destruct (Qlt_bool (cm_confidence old) (cm_confidence company)).
      * split; [cbn; apply NoDup_cons; split; assumption |].
        constructor; [split; [reflexivity | exact Hc] | exact Hall].
      * split; [cbn; apply NoDup_cons; split; assumption |].
        constructor; [split; assumption | exact Hall].
    + destruct (IH Hnodup Hall) as [Hnodup' Hall'].
      split.
      * cbn. apply NoDup_cons. split; [| exact Hnodup'].
        rewrite unique_update_keys. intros [-> | Hin]; [apply Hne; reflexivity | exact (Hk Hin)].
      * constructor; [split; assumption | exact Hall'].
Qed.

Lemma unique_companies_keyed (P : CompanyMatch -> Prop) (matched : list CompanyMatch)
    (unique : list (string * CompanyMatch)) :
  Forall P matched -> keyed P unique ->
  keyed P (fold_left (fun u c => unique_update c u) matched unique).
Proof.
  intros Hall. revert unique. induction Hall as [| c t Hc _ IH]; intros unique Hu; cbn.
  - exact Hu.
  - apply IH, unique_update_keyed; assumption.
Qed.

Lemma unique_companies_keys (matched : list CompanyMatch) (unique : list (string * CompanyMatch)) :
  forall k, k ∈ map fst (fold_left (fun u c => unique_update c u) matched unique)
            <-> k ∈ map cm_symbol matched \/ k ∈ map fst unique.
Proof.
  revert unique. induction matched as [| c t IH]; intros unique k; cbn.
  - split; [right; assumption | intros [H | H]; [inversion H | exact H]].
  - rewrite IH, unique_update_keys, elem_of_cons. tauto.
Qed.

Lemma keyed_symbols (P : CompanyMatch -> Prop) (unique : list (string * CompanyMatch)) :
  keyed P unique -> map cm_symbol (map snd unique) = map fst unique.
Proof.
  intros [_ Hall]. induction Hall as [| [k m] t [Hk _] _ IH]; cbn; [reflexivity |].
  cbn in Hk. rewrite IH, Hk. reflexivity.
Qed.

(** X11. The companies matched in a text: at most the five of
    highest confidence are reported, the count is the number of all of
    them; they are in descending order of confidence, no symbol
    occurs twice, and each is the match of a row of the table for one
    of its variants, with a confidence above 0.3 and at most 1. *)
Theorem match_companies_invariants (env : Env) (text : string)
    (companies_df : list CompanyRecord) :
  let all := sorted_companies env text companies_df in
  match_companies env text companies_df !! "matched_companies"
  = Some (VCompanies (take 5 all)) /\
  match_companies env text companies_df !! "company_count"
  = Some (VInt (Z.of_nat (length all))) /\
  Sorted (desc cm_confidence) all /\
  NoDup (map cm_symbol all) /\
  Forall (match_from env text companies_df) all.
Proof.
  unfold match_companies, sorted_companies. cbv zeta.
  pose proof (matched_companies_from env text companies_df) as Hfrom.
  set (matched := omap _ companies_df) in *.
  assert (Hkeyed : keyed (match_from env text companies_df)
                     (fold_left (fun u c => unique_update c u) matched [])).
  { apply unique_companies_keyed; [exact Hfrom |]. split; constructor. }
  set (unique := fold_left _ matched []) in *.
  pose proof (sort_desc_Permutation cm_confidence (map snd unique)) as Hperm.
  set (all := sort_desc cm_confidence (map snd unique)) in *.
  split; [| split; [| split; [| split]]].
  - generalize (take 5 all) (Z.of_nat (length all)). intros l n. vm_compute. reflexivity.
  - generalize (take 5 all) (Z.of_nat (length all)). intros l n. vm_compute. reflexivity.
  - apply sort_desc_Sorted.
  - rewrite Hperm, (keyed_symbols _ _ Hkeyed). apply Hkeyed.
  - rewrite Hperm. apply Forall_fmap. destruct Hkeyed as [_ Hall].
    eapply Forall_impl; [exact Hall |]. intros p [_ Hp]. exact Hp.
Qed.

Lemma context_bonus_nonneg (text variant : string) :
  0 <= inject_Z (Z.of_nat (context_bonus_count text variant)) * 0.1.
Proof. pose proof (inject_nat_nonneg (context_bonus_count text variant)). nra. Qed.

(** X12. A company of the table whose name, of more than two
    characters and not a stop word, occurs in the text is among the
    companies found, whatever the case of the letters. *)
Theorem named_company_is_matched (env : Env) (text : string)
    (companies_df : list CompanyRecord) (row : CompanyRecord) :
  set_order_ok env ->
  row ∈ companies_df ->
  (2 < PyStr.len (company_name row))%nat ->
  PyStr.contains (PyStr.lower (company_name row)) (PyStr.lower text) = true ->
  str_in_list (PyStr.lower (company_name row)) common_words = false ->
  symbol row ∈ map cm_symbol (sorted_companies env text companies_df).
Proof.
  intros Hset Hrow Hlen Hcontains Hcommon.
  assert (Haccepted : variant_accepted text row (company_name row) = true).
  { unfold variant_accepted, variant_hit. rewrite Hcontains.
    apply Nat.ltb_lt in Hlen. rewrite Hlen. cbn [andb].
    apply Qlt_bool_iff.
    destruct (_calculate_match_confidence_sum text (company_name row) (company_name row))
      as (raw & -> & Hraw).
    cbv zeta in Hraw. rewrite Hcontains, Hcommon in Hraw.
    pose proof (context_bonus_nonneg text (company_name row)) as Hbonus.
    apply Q.min_glb_lt; lra. }
  assert (Hmatch : exists m, match_row env text (PyStr.lower text) row = Some m /\
                             cm_symbol m = symbol row).
  { unfold match_row.
    destruct (company_name row) as [| c name] eqn:Ename; [cbn in Hlen; lia |].
    cbn [PyStr.truthy negb]. rewrite <- Ename in *.
    destruct (scan_variants_Exists text row (row_variants env row)) as (v & _ & _ & ->).
    - apply Exists_exists. exists (company_name row). split; [| exact Haccepted].
      unfold row_variants.
      assert (Hin : company_name row ∈ extract_company_variants env (company_name row)).
      { unfold extract_company_variants. apply (Hset _), company_variants_list_bounds. }
      destruct (PyStr.truthy (symbol row)); [apply elem_of_app; left |]; exact Hin.
    - eexists. split; reflexivity. }
  destruct Hmatch as (m & Hm & Hsym).
  unfold sorted_companies. cbv zeta.
  pose proof (matched_companies_from env text companies_df) as Hfrom.
  assert (Hin : m ∈ omap (match_row env text (PyStr.lower text)) companies_df).
  { apply list_elem_of_omap. exists row. split; assumption. }
  set (matched := omap _ companies_df) in *.
  assert (Hkeyed : keyed (match_from env text companies_df)
                     (fold_left (fun u c => unique_update c u) matched [])).
  { apply unique_companies_keyed; [exact Hfrom |]. split; constructor. }
  rewrite sort_desc_Permutation, (keyed_symbols _ _ Hkeyed).
  apply unique_companies_keys. left. rewrite <- Hsym.
  apply list_elem_of_fmap_2, Hin.
Qed.

Lemma named_company_is_matched_witness :
  let env := sample_env (Ok (0, 0)) in
  let row := {| symbol := "RIL"; company_name := "Reliance Industries" |} in
  set_order_ok env /\
  row ∈ sample_table /\
  (2 < PyStr.len (company_name row))%nat /\
  PyStr.contains (PyStr.lower (company_name row)) (PyStr.lower sample_text) = true /\
  str_in_list (PyStr.lower (company_name row)) common_words = false /\
  symbol row ∈ map cm_symbol (sorted_companies env sample_text sample_table).
Proof.
  intros env row.
  pose proof (sample_env_set_order_ok (Ok (0, 0))) as Hset.
  assert (Hrow : row ∈ sample_table) by (left).
  assert (Hlen : (2 < PyStr.len (company_name row))%nat) by (cbn; lia).
  assert (Hcontains : PyStr.contains (PyStr.lower (company_name row)) (PyStr.lower sample_text)
                      = true) by reflexivity.
  assert (Hcommon : str_in_list (PyStr.lower (company_name row)) common_words = false)
    by reflexivity.
  repeat (split; [assumption |]).
  exact (named_company_is_matched env sample_text sample_table row
           Hset Hrow Hlen Hcontains Hcommon).
Defined.

(** ** The analysis of an article *)

(** What [analyze_article] returns, when it returns: the marker of
    insufficient content on the identity fields, or the signals with
    the three scores added. *)
Lemma analyze_article_inv (env : Env) (article : pydict)
    (companies_df : option (list CompanyRecord)) (a : pydict) :
  analyze_article env article companies_df = Ok a ->
  (insufficient (_extract_text_content env article) = true /\
   a = <["error" := VStr "Insufficient content"]> (identity_fields article)) \/
  (insufficient (_extract_text_content env article) = false /\
   exists v1 v2 v3 density i d s r,
     let base :=
       signals env article companies_df
         (list_to_map
            [ ("financial_numbers", v1); ("percentages_mentioned", v2);
              ("financial_terms", v3); ("financial_density", density) ]) in
     is_nonneg_number density /\
     base !! "keywords_found" = Some (VKeywords d) /\
     as_number (get base "sentiment_score" (VInt 0)) = Ok s /\
     calculate_investment_score env base = Ok i /\
     a = <["relevance_score" := VFloat r]>
           (<["impact_category" := VStr (categorize_news_impact d s)]>
              (<["investment_score" := VFloat i]> base))).
Proof.
  unfold analyze_article. cbv zeta.
  destruct (insufficient (_extract_text_content env article)) eqn:Hcontent.
  - intros [= <-]. left. split; reflexivity.
  - intros H. right. split; [reflexivity |].
    destruct (extract_financial_info_cases _ (sufficient_content_has_tokens _ _ Hcontent))
      as (density & Hdensity & Hfinancial).
    rewrite Hfinancial in H. cbn [mbind result_bind] in H.
    match type of Hfinancial with
    | _ = Ok (list_to_map [ (_, ?v1); (_, ?v2); (_, ?v3); _ ]) =>
        exists v1, v2, v3, density;
        destruct (signals_keywords env article companies_df v1 v2 v3 density) as [d Hd]
    end.
    unfold signals in *. cbv zeta in *.
    match type of Hd with ?m !! _ = _ => set (base := m) in * end.
    destruct (calculate_investment_score env base) as [i |] eqn:Hi;
      cbn [mbind result_bind] in H; [| discriminate].
    assert (Hkw : as_keywords (get (<["investment_score" := VFloat i]> base)
                                   "keywords_found" (VKeywords [])) = Ok d).
    { unfold get. rewrite lookup_insert_ne by discriminate. rewrite Hd. reflexivity. }
    rewrite Hkw in H. cbn [mbind result_bind] in H.
    assert (Hs : get (<["investment_score" := VFloat i]> base) "sentiment_score" (VInt 0)
                 = get base "sentiment_score" (VInt 0)).
    { unfold get. rewrite lookup_insert_ne by discriminate. reflexivity. }
    rewrite Hs in H.
    destruct (as_number (get base "sentiment_score" (VInt 0))) as [s |];
      cbn [mbind result_bind] in H; [| discriminate].
    destruct (_calculate_relevance_score _) as [r |]; cbn [mbind result_bind] in H;
      [| discriminate].
    injection H as <-.
    exists i, d, s, r. repeat split; try assumption; reflexivity.
Qed.

Lemma signals_sentiment (env : Env) (article : pydict)
    (companies_df : option (list CompanyRecord)) (v1 v2 v3 v4 : pyval) :
  exists p,
    let base :=
      signals env article companies_df
        (list_to_map
           [ ("financial_numbers", v1); ("percentages_mentioned", v2);
             ("financial_terms", v3); ("financial_density", v4) ]) in
    base !! "sentiment_score" = Some (VFloat p) /\
    base !! "sentiment_label" = Some (VStr (_get_sentiment_label p)).
Proof.
  cbv zeta.
  expose_signals env article companies_df;
    generalize (get article "published_date" VNone) (get article "source" (VStr ""));
    intros date source;
    unfold analyze_sentiment;
    (destruct (analyze_sentiment_cases env (_extract_text_content env article))
      as [(p & s & ps & ns & us & l & ->) | (e & ->)];
     [ exists p; generalize (_get_sentiment_label p); intros label
     | exists 0; change (_get_sentiment_label 0) with "Neutral";
       generalize (str_of_exn e); intros msg ]);
    split; eval_lookup; reflexivity.
Qed.

Lemma labels_coherent_scores (d : list (string * list string)) (p : Q) :
  labels_coherent (_get_sentiment_label p) (categorize_news_impact d p).
Proof.
  unfold _get_sentiment_label, categorize_news_impact. cbv zeta.
  destruct (Qlt_bool 0.1 p) eqn:E1, (Qlt_bool 0.05 p) eqn:E2,
           (Qlt_bool p (-0.1)) eqn:E3, (Qlt_bool p (-0.05)) eqn:E4;
    try apply Qlt_bool_iff in E1; try apply Qlt_bool_false_iff in E1;
    try apply Qlt_bool_iff in E2; try apply Qlt_bool_false_iff in E2;
    try apply Qlt_bool_iff in E3; try apply Qlt_bool_false_iff in E3;
    try apply Qlt_bool_iff in E4; try apply Qlt_bool_false_iff in E4;
    try (exfalso; lra);
    rewrite ?andb_true_r, ?andb_false_r;
    repeat match goal with
           | |- context [if ?b then _ else _] => destruct b
           end;
    unfold labels_coherent; repeat split; intros; try discriminate; auto.
Qed.

(** X13. In the analysis of an article the sentiment label and the
    impact category never contradict each other: a highly positive
    impact has the label Positive, a highly negative one the label
    Negative, and a label never comes with an impact of the opposite
    sign.  An article of insufficient content has neither. *)
Theorem analysis_labels_coherent (env : Env) (article : pydict)
    (companies_df : option (list CompanyRecord)) (a : pydict) :
  analyze_article env article companies_df = Ok a ->
  if insufficient (_extract_text_content env article) then
    a !! "sentiment_label" = None /\ a !! "impact_category" = None
  else
    exists label impact,
      a !! "sentiment_label" = Some (VStr label) /\
      a !! "impact_category" = Some (VStr impact) /\
      labels_coherent label impact.
Proof.
  intros Ha.
  destruct (analyze_article_inv env article companies_df a Ha)
    as [[-> ->] | (-> & v1 & v2 & v3 & density & i & d & s & r & _ & _ & Hs & _ & ->)].
  - unfold identity_fields.
    generalize (get article "url" (get article "link" (VStr ""))) (get article "title" (VStr ""))
               (get article "source" (VStr "")) (get article "published_date" VNone).
    intros id title source date. split; vm_compute; reflexivity.
  - cbv zeta in Hs.
    destruct (signals_sentiment env article companies_df v1 v2 v3 density)
      as (p & Hscore & Hlabel).
    cbv zeta in Hscore, Hlabel.
    unfold get in Hs. rewrite Hscore in Hs. injection Hs as <-.
    exists (_get_sentiment_label p), (categorize_news_impact d p).
    split; [| split].
    + rewrite !lookup_insert_ne by discriminate. exact Hlabel.
    + rewrite lookup_insert_ne, lookup_insert_eq by discriminate. reflexivity.
    + apply labels_coherent_scores.
Qed.

Lemma analysis_labels_coherent_witness :
  let env := sample_env (Ok (0.2, 0.5)) in
  exists a,
    analyze_article env sample_article (Some sample_table) = Ok a /\
    if insufficient (_extract_text_content env sample_article) then
      a !! "sentiment_label" = None /\ a !! "impact_category" = None
    else
      exists label impact,
        a !! "sentiment_label" = Some (VStr label) /\
        a !! "impact_category" = Some (VStr impact) /\
        labels_coherent label impact.
Proof.
  intros env.
  assert (Hok : is_ok (analyze_article env sample_article (Some sample_table)) = true)
    by (vm_compute; reflexivity).
  destruct (analyze_article env sample_article (Some sample_table)) as [a | e] eqn:Ha;
    [| discriminate Hok].
  exists a. split; [reflexivity |].
  exact (analysis_labels_coherent env sample_article (Some sample_table) a Ha).
Defined.

(** X14. Whatever the analysis adds, it keeps the identity of the
    article: the title, the source, the publication date and the
    address are those of the article, the identifier is the address,
    the link standing in for a missing address. *)
Theorem analysis_keeps_identity (env : Env) (article : pydict)
    (companies_df : option (list CompanyRecord)) (a : pydict) :
  analyze_article env article companies_df = Ok a ->
  a !! "title" = Some (get article "title" (VStr "")) /\
  a !! "source" = Some (get article "source" (VStr "")) /\
  a !! "published_date" = Some (get article "published_date" VNone) /\
  a !! "url" = Some (get article "url" (get article "link" (VStr ""))) /\
  a !! "article_id" = a !! "url".
Proof.
  intros Ha.
  destruct (analyze_article_inv env article companies_df a Ha)
    as [[_ ->] | (_ & v1 & v2 & v3 & density & i & d & s & r & _ & _ & _ & _ & ->)].
  - unfold identity_fields.
    generalize (get article "url" (get article "link" (VStr ""))) (get article "title" (VStr ""))
               (get article "source" (VStr "")) (get article "published_date" VNone).
    intros id title source date. repeat split; vm_compute; reflexivity.
  - cbv zeta. rewrite !lookup_insert_ne by discriminate.
    unfold signals. cbv zeta.
    destruct (extract_investment_keywords_shape env (_extract_text_content env article))
      as (found & kd & total & _ & ->).
    unfold identity_fields.
    generalize (get article "url" (get article "link" (VStr ""))) (get article "title" (VStr ""))
               (get article "source" (VStr "")) (get article "published_date" VNone)
               (VInt (Z.of_nat (PyStr.len (_extract_text_content env article)))).
    intros id title source date len.
    destruct companies_df as [df |];
      [destruct (match_companies_shape env (_extract_text_content env article) df)
         as (matched & count & _ & ->) |];
      (destruct (analyze_sentiment_shape env (_extract_text_content env article))
        as [(p & w2 & w3 & w4 & w5 & w6 & w7 & d' & _ & ->) | (p & w2 & w3 & w4 & e & _ & ->)]);
      repeat split; vm_compute; reflexivity.
Qed.

Lemma analysis_keeps_identity_witness :
  let env := sample_env (Ok (0.2, 0.5)) in
  exists a,
    analyze_article env sample_article (Some sample_table) = Ok a /\
    a !! "title" = Some (get sample_article "title" (VStr "")) /\
    a !! "source" = Some (get sample_article "source" (VStr "")) /\
    a !! "published_date" = Some (get sample_article "published_date" VNone) /\
    a !! "url" = Some (get sample_article "url" (get sample_article "link" (VStr ""))) /\
    a !! "article_id" = a !! "url".
Proof.
  intros env.
  assert (Hok : is_ok (analyze_article env sample_article (Some sample_table)) = true)
    by (vm_compute; reflexivity).
  destruct (analyze_article env sample_article (Some sample_table)) as [a | e] eqn:Ha;
    [| discriminate Hok].
  exists a. split; [reflexivity |].
  exact (analysis_keeps_identity env sample_article (Some sample_table) a Ha).
Defined.

(** ** The batch, the filter and the summary *)

Lemma analyze_article_scored (env : Env) (article : pydict)
    (companies_df : option (list CompanyRecord)) (a : pydict) :
  analyze_article env article companies_df = Ok a ->
  scored_analysis a \/ rejected_analysis a.
Proof.
  intros Ha.
  destruct (analyze_article_inv env article companies_df a Ha)
    as [[_ ->] | (_ & v1 & v2 & v3 & density & i & d & s & r & _ & Hd & _ & _ & ->)].
  - right. unfold rejected_analysis, identity_fields.
    generalize (get article "url" (get article "link" (VStr ""))) (get article "title" (VStr ""))
               (get article "source" (VStr "")) (get article "published_date" VNone).
    intros id title source date. split; [eexists |]; vm_compute; reflexivity.
  - left. cbv zeta in *.
    destruct (signals_sentiment env article companies_df v1 v2 v3 density)
      as (p & Hscore & Hlabel).
    cbv zeta in Hscore, Hlabel.
    constructor.
    + exists (_get_sentiment_label p). rewrite !lookup_insert_ne by discriminate. exact Hlabel.
    + eexists. rewrite lookup_insert_ne, lookup_insert_eq by discriminate. reflexivity.
    + rewrite !lookup_insert_ne by discriminate.
      unfold signals. cbv zeta.
      destruct (extract_investment_keywords_shape env (_extract_text_content env article))
        as (found & kd & total & _ & ->).
      destruct (identity_fields_shape article) as (id & title & url & ->).
      generalize (get article "published_date" VNone) (get article "source" (VStr ""))
                 (VInt (Z.of_nat (PyStr.len (_extract_text_content env article)))).
      intros date source len.
      destruct companies_df as [df |];
        [unfold match_companies; cbv zeta;
         match goal with
         | |- context [("matched_companies", VCompanies ?l)] => generalize l; intros matched
         end;
         match goal with
         | |- context [("company_count", ?c)] => generalize c; intros count
         end |];
        (destruct (analyze_sentiment_shape env (_extract_text_content env article))
          as [(q & w2 & w3 & w4 & w5 & w6 & w7 & d' & _ & ->)
             | (q & w2 & w3 & w4 & e & _ & ->)]);
        eval_lookup; exact I.
    + exists d. rewrite !lookup_insert_ne by discriminate. exact Hd.
    + exists p. rewrite !lookup_insert_ne by discriminate. exact Hscore.
    + exists r. rewrite lookup_insert_eq. reflexivity.
    + exists i. rewrite !lookup_insert_ne, lookup_insert_eq by discriminate. reflexivity.
Qed.

Lemma error_analysis_rejected (i : nat) (article : pydict) (e : exn) :
  rejected_analysis (error_analysis i article e).
Proof.
  unfold rejected_analysis, error_analysis.
  generalize (get article "url" (get article "link" (VStr ("article_" +:+ pretty i))))
             (get article "title" (VStr "")) (get article "source" (VStr ""))
             (str_of_exn e).
  intros id title source msg. split; [eexists |]; vm_compute; reflexivity.
Qed.

(** Every analysis of the batch was carried to the end or stopped
    early. *)
Lemma batch_analyses_cases (env : Env) (articles : list pydict)
    (companies_df : option (list CompanyRecord)) :
  Forall (fun a => scored_analysis a \/ rejected_analysis a)
         (batch_analyze_articles env articles companies_df).
Proof.
  apply Forall_forall. intros a Ha. unfold batch_analyze_articles in Ha.
  apply elem_of_lookup_imap_1 in Ha as (i & article & -> & _).
  unfold batch_step, analyze_logged.
  destruct (check_sliceable (get article "title" (VStr "No title"))) as [[] | e];
    cbn [mbind result_bind]; [| right; apply error_analysis_rejected].
  destruct (analyze_article env article companies_df) as [a | e] eqn:Ha;
    [apply (analyze_article_scored _ _ _ _ Ha) | right; apply error_analysis_rejected].
Qed.

Lemma keep_relevant_subset (min_relevance : Q) (analyzed kept : list pydict) :
  keep_relevant min_relevance analyzed = Ok kept -> Forall (fun a => a ∈ analyzed) kept.
Proof.
  revert kept. induction analyzed as [| a t IH]; intros kept; cbn.
  - intros [= <-]. constructor.
  - destruct (relevance_of a) as [r |]; cbn [mbind result_bind]; [| discriminate].
    destruct (keep_relevant min_relevance t) as [kept' |]; cbn [mbind result_bind];
      [| discriminate].
    intros [= <-]. specialize (IH kept' eq_refl).
    assert (Htail : Forall (fun x => x ∈ a :: t) kept').
    { eapply Forall_impl; [exact IH |]. intros x Hx. right. exact Hx. }
    destruct (Qle_bool min_relevance r); [constructor; [left | exact Htail] | exact Htail].
Qed.

Lemma zip_snd_elem {A B} (keys : list A) (l : list B) :
  Forall (fun p => snd p ∈ l) (zip keys l).
Proof.
  revert keys. induction l as [| x t IH]; intros [| k keys]; cbn; try constructor.
  - left.
  - eapply Forall_impl; [apply IH |]. intros p Hp. right. exact Hp.
Qed.

(** X15. The filter never fails on the analyses of a batch, whatever
    the articles.  With a positive threshold every analysis it keeps
    is one of the batch that was carried to the end, with a relevance
    score at or above the threshold: the analyses of rejected and of
    failed articles are never kept. *)
Theorem filter_after_batch (env : Env) (articles : list pydict)
    (companies_df : option (list CompanyRecord)) (min_relevance : option Q) :
  0 < default relevance_threshold min_relevance ->
  exists out,
    filter_relevant_articles (batch_analyze_articles env articles companies_df) min_relevance
    = Ok out /\
    Forall (fun a =>
              a ∈ batch_analyze_articles env articles companies_df /\
              scored_analysis a /\
              exists r, a !! "relevance_score" = Some (VFloat r) /\
                        default relevance_threshold min_relevance <= r)
           out.
Proof.
  intros Hmin.
  pose proof (batch_analyses_cases env articles companies_df) as Hcases.
  set (batch := batch_analyze_articles env articles companies_df) in *.
  assert (Hnum : Forall (fun a => when_present is_number (a !! "relevance_score")) batch).
  { eapply Forall_impl; [exact Hcases |]. intros a [Hs | [_ Hr]].
    - destruct (scored_relevance a Hs) as [r ->]. exact I.
    - rewrite Hr. exact I. }
  destruct (keep_relevant_total (default relevance_threshold min_relevance) batch Hnum)
    as [kept Hkept].
  destruct (keep_relevant_decorated _ _ _ Hkept) as (keys & Hkeys & _ & Hdec).
  unfold filter_relevant_articles. cbv zeta. rewrite Hkept. cbn [mbind result_bind].
  rewrite Hkeys. cbn [mbind result_bind].
  eexists. split; [reflexivity |].
  apply Forall_fmap, sort_desc_Forall.
  pose proof (zip_snd_elem keys kept) as Hsnd.
  pose proof (keep_relevant_subset _ _ _ Hkept) as Hsub.
  rewrite Forall_forall in Hdec. rewrite Forall_forall in Hsnd.
  rewrite Forall_forall in Hsub. rewrite Forall_forall in Hcases. apply Forall_forall.
  intros [r a] Hp. specialize (Hdec _ Hp) as [Hrel Hle]. specialize (Hsnd _ Hp).
  cbn [fst snd] in *. specialize (Hsub _ Hsnd).
  split; [exact Hsub |].
  apply Qle_bool_iff in Hle. unfold relevance_of, get in Hrel.
  destruct (Hcases _ Hsub) as [Hs | [_ Hr]].
  - split; [exact Hs |]. destruct (scored_relevance a Hs) as [r' Hr'].
    rewrite Hr' in Hrel. injection Hrel as ->. exists r. split; [exact Hr' | exact Hle].
  - rewrite Hr in Hrel. injection Hrel as <-. change (inject_Z 0) with 0 in Hle. lra.
Qed.

Lemma filter_after_batch_witness :
  let env := sample_env (Ok (0.2, 0.5)) in
  let articles := [ untitled_article; sample_article; sourceless_article ] in
  0 < default relevance_threshold None /\
  exists out,
    filter_relevant_articles (batch_analyze_articles env articles (Some sample_table)) None
    = Ok out /\
    Forall (fun a =>
              a ∈ batch_analyze_articles env articles (Some sample_table) /\
              scored_analysis a /\
              exists r, a !! "relevance_score" = Some (VFloat r) /\
                        default relevance_threshold None <= r)
           out.
Proof.
  intros env articles.
  assert (Hmin : 0 < default relevance_threshold None) by reflexivity.
  split; [exact Hmin |].
  exact (filter_after_batch env articles (Some sample_table) None Hmin).
Defined.

Example filter_after_batch_sample :
  titles_of (filter_relevant_articles
               (batch_analyze_articles (sample_env (Ok (0.2, 0.5)))
                  [ untitled_article; sample_article; sourceless_article ]
                  (Some sample_table)) None)
  = Ok [ Some (VStr "Reliance Industries announces major investment in renewable energy sector") ].
Proof. vm_compute. reflexivity. Qed.

Lemma result_map_total {A B} (f : A -> result B) (l : list A) :
  Forall (fun x => exists y, f x = Ok y) l -> exists ys, result_map f l = Ok ys.
Proof.
  induction 1 as [| x t [y Hy] _ [ys Hys]]; cbn; [eexists; reflexivity |].
  rewrite Hy, Hys. eexists. reflexivity.
Qed.

Lemma counter_of_strings (l : list pyval) :
  Forall is_str l -> counter_of_values l = Ok (counter py_eqb l).
Proof.
  intros Hl. unfold counter_of_values.
  assert (Hall : forallb hashable l = true).
  { induction Hl as [| v t Hv _ IH]; [reflexivity |].
    destruct v; try contradiction. exact IH. }
  rewrite Hall. reflexivity.
Qed.

Lemma scored_strings (key dflt : string) (l : list pydict) :
  Forall (fun a => exists s, a !! key = Some (VStr s)) l ->
  Forall is_str (map (fun a => get a key (VStr dflt)) l).
Proof.
  intros Hl. apply Forall_fmap. eapply Forall_impl; [exact Hl |].
  intros a [s Hs]. unfold get. cbn. rewrite Hs. exact I.
Qed.

Lemma scored_numbers (key : string) (l : list pydict) :
  Forall (fun a => exists q, a !! key = Some (VFloat q)) l ->
  exists qs, numbers_at key l = Ok qs.
Proof.
  intros Hl. apply result_map_total. eapply Forall_impl; [exact Hl |].
  intros a [q Hq]. unfold get. rewrite Hq. eexists. reflexivity.
Qed.

(** The summary of analyses that were carried to the end, or carry an
    error, is computed. *)
Lemma generate_summary_insights_total (round3 : Q -> Q) (analyzed_articles : list pydict) :
  Forall (fun a => scored_analysis a \/ is_Some (a !! "error")) analyzed_articles ->
  exists summary, generate_summary_insights round3 analyzed_articles = Ok summary.
Proof.
  intros Hall. unfold generate_summary_insights.
  destruct analyzed_articles as [| a0 rest]; [eexists; reflexivity |].
  set (valid := List.filter _ (a0 :: rest)).
  assert (Hvalid : Forall scored_analysis valid).
  { apply Forall_forall. intros a Ha. apply list_elem_of_In, filter_In in Ha as [Ha Herr].
    apply list_elem_of_In in Ha. rewrite Forall_forall in Hall.
    destruct (Hall a Ha) as [Hs | He]; [exact Hs |].
    apply negb_true_iff, bool_decide_eq_false in Herr. contradiction. }
  clearbody valid. destruct valid as [| v0 valid]; [eexists; reflexivity |].
  set (articles := v0 :: valid) in *. clearbody articles.
  rewrite (counter_of_strings _ (scored_strings "sentiment_label" "Neutral" articles
             (Forall_impl _ _ _ Hvalid (fun a H => scored_label a H)))).
  cbn [mbind result_bind].
  rewrite (counter_of_strings _ (scored_strings "impact_category" "Neutral" articles
             (Forall_impl _ _ _ Hvalid (fun a H => scored_impact a H)))).
  cbn [mbind result_bind].
  destruct (result_map_total
              (fun a => symbols_of (get a "matched_companies" (VCompanies []))) articles)
    as [companies ->].
  { eapply Forall_impl; [exact Hvalid |]. intros a Ha.
    pose proof (scored_companies a Ha) as Hc. unfold get.
    destruct (a !! "matched_companies") as [[] |]; cbn in Hc |- *;
      try contradiction; eexists; reflexivity. }
  cbn [mbind result_bind].
  destruct (scored_numbers "sentiment_score" articles
              (Forall_impl _ _ _ Hvalid (fun a H => scored_sentiment a H))) as [ss ->].
  cbn [mbind result_bind].
  destruct (scored_numbers "relevance_score" articles
              (Forall_impl _ _ _ Hvalid (fun a H => scored_relevance a H))) as [rs ->].
  cbn [mbind result_bind].
  destruct (scored_numbers "investment_score" articles
              (Forall_impl _ _ _ Hvalid (fun a H => scored_investment a H))) as [is' ->].
  cbn [mbind result_bind].
  destruct (result_map_total
              (fun a => keyword_pairs <$> as_keywords (get a "keywords_found" (VKeywords [])))
              articles) as [kws ->].
  { eapply Forall_impl; [exact Hvalid |]. intros a Ha.
    destruct (scored_keywords a Ha) as [d Hd]. unfold get. rewrite Hd.
    eexists. reflexivity. }
  cbn [mbind result_bind]. eexists. reflexivity.
Qed.

(** X16. The summary never fails on the analyses of a batch, whatever
    the articles: every analysis without an error holds the labels,
    the scores, the keywords and the companies the summary reads. *)
Theorem summary_after_batch (round3 : Q -> Q) (env : Env) (articles : list pydict)
    (companies_df : option (list CompanyRecord)) :
  exists summary,
    generate_summary_insights round3 (batch_analyze_articles env articles companies_df)
    = Ok summary.
Proof.
  apply generate_summary_insights_total.
  eapply Forall_impl; [apply batch_analyses_cases |].
  intros a [Hs | [He _]]; [left; exact Hs | right; exact He].
Qed.

Section CounterFacts.
Context {A : Type} (eqb : A -> A -> bool).

Lemma total_count_cons (p : A * nat) (c : list (A * nat)) :
  total_count (p :: c) = (snd p + total_count c)%nat.
Proof. reflexivity. Qed.

Lemma counter_add_total (x : A) (c : list (A * nat)) :
  total_count (counter_add eqb x c) = S (total_count c).
Proof.
  induction c as [| [y n] t IH]; [reflexivity |].
  cbn [counter_add]. destruct (eqb y x); rewrite !total_count_cons; cbn [snd]; [lia |].
  rewrite IH. lia.
Qed.

Lemma counter_total (l : list A) : total_count (counter eqb l) = length l.
Proof.
  unfold counter.
  assert (H : forall c, total_count (fold_left (fun c x => counter_add eqb x c) l c)
                        = (length l + total_count c)%nat).
  { induction l as [| x t IH]; intros c; cbn [fold_left length]; [reflexivity |].
    rewrite IH, counter_add_total. lia. }
  rewrite H. unfold total_count. cbn [fold_right]. lia.
Qed.

Lemma most_common_length (n : nat) (c : list (A * nat)) :
  (length (most_common n c) <= n)%nat.
Proof. unfold most_common. rewrite length_take. lia. Qed.
End CounterFacts.

Lemma Sorted_take {A} (R : A -> A -> Prop) (n : nat) (l : list A) :
  Sorted R l -> Sorted R (take n l).
Proof.
  intros Hl. revert n. induction Hl as [| x l Hl IH Hhd]; intros [| n]; cbn; try constructor.
  - apply IH.
  - destruct Hhd as [| y l' Hxy]; [destruct n; constructor |].
    destruct n; cbn; constructor. exact Hxy.
Qed.

Lemma counter_of_values_total (l : list pyval) (c : list (pyval * nat)) :
  counter_of_values l = Ok c -> total_count c = length l.
Proof.
  unfold counter_of_values. destruct (forallb hashable l); [| discriminate].
  intros [= <-]. apply counter_total.
Qed.

(** X17. The summary of analyses of which one at least has no
    error counts what it read: the total is the number of analyses, the valid ones are
    those without an error and there is at least one, the counts of
    the sentiment labels and of the impact categories each add up to
    the number of valid analyses, the highly relevant ones are among
    them, and at most ten companies and fifteen keywords are listed,
    the keywords by descending count. *)
Theorem summary_counts (round3 : Q -> Q) (analyzed_articles : list pydict)
    (summary : gmap string sumval) :
  generate_summary_insights round3 analyzed_articles = Ok summary ->
  valid_articles analyzed_articles <> [] ->
  exists (valid highly_relevant : nat) sentiment_dist impact_dist top_companies top_keywords,
    summary !! "total_articles" = Some (SInt (Z.of_nat (length analyzed_articles))) /\
    summary !! "valid_articles" = Some (SInt (Z.of_nat valid)) /\
    summary !! "sentiment_distribution" = Some (SCounts sentiment_dist) /\
    summary !! "impact_distribution" = Some (SCounts impact_dist) /\
    summary !! "top_companies_mentioned" = Some (SCounts top_companies) /\
    summary !! "top_keywords" = Some (SPairs top_keywords) /\
    summary !! "highly_relevant_articles" = Some (SInt (Z.of_nat highly_relevant)) /\
    valid = length (valid_articles analyzed_articles) /\
    (0 < valid <= length analyzed_articles)%nat /\
    total_count sentiment_dist = valid /\
    total_count impact_dist = valid /\
    (highly_relevant <= valid)%nat /\
    (length top_companies <= 10)%nat /\
    (length top_keywords <= 15)%nat /\
    Sorted (desc count_key) top_keywords.
Proof.
  unfold generate_summary_insights.
  destruct analyzed_articles as [| a0 rest]; [intros _ Hvalid; contradiction Hvalid; reflexivity |].
  cbv iota. fold (valid_articles (a0 :: rest)).
  assert (Hle : (length (valid_articles (a0 :: rest)) <= length (a0 :: rest))%nat)
    by apply filter_length_le.
  generalize dependent (a0 :: rest). intros analyzed Hle.
  destruct (valid_articles analyzed) as [| v0 valid] eqn:Evalid;
    [intros _ Hvalid; contradiction Hvalid; reflexivity |].
  cbv iota. set (articles := v0 :: valid) in *.
  assert (Hpos : (0 < length articles)%nat) by (cbn; lia).
  clearbody articles.
  destruct (counter_of_values
              (map (fun a => get a "sentiment_label" (VStr "Neutral")) articles))
    as [sentiment_dist |] eqn:Esent; cbn [mbind result_bind]; [| discriminate].
  destruct (counter_of_values
              (map (fun a => get a "impact_category" (VStr "Neutral")) articles))
    as [impact_dist |] eqn:Eimpact; cbn [mbind result_bind]; [| discriminate].
  destruct (result_map (fun a => symbols_of (get a "matched_companies" (VCompanies [])))
                       articles) as [companies |]; cbn [mbind result_bind]; [| discriminate].
  destruct (numbers_at "sentiment_score" articles) as [ss |]; cbn [mbind result_bind];
    [| discriminate].
  destruct (numbers_at "relevance_score" articles) as [rs |] eqn:Erel; cbn [mbind result_bind];
    [| discriminate].
  destruct (numbers_at "investment_score" articles) as [is' |]; cbn [mbind result_bind];
    [| discriminate].
  destruct (result_map _ articles) as [kws |]; cbn [mbind result_bind]; [| discriminate].
  intros [= <-] _.
  apply counter_of_values_total in Esent, Eimpact. rewrite length_map in Esent, Eimpact.
  apply result_map_length in Erel.
  pose proof (filter_length_le (fun r => Qlt_bool 0.6 r) rs) as Hhr.
  pose proof (most_common_length 10 (counter String.eqb (concat companies))) as Htc.
  pose proof (most_common_length 15 (counter pair_eqb (concat kws))) as Htk.
  assert (Hsorted : Sorted (desc count_key) (most_common 15 (counter pair_eqb (concat kws))))
    by (apply Sorted_take, (sort_desc_Sorted count_key)).
  exists (length articles), (length (List.filter (fun r => Qlt_bool 0.6 r) rs)),
    sentiment_dist, impact_dist,
    (map (fun '(s, n) => (VStr s, n)) (most_common 10 (counter String.eqb (concat companies)))),
    (most_common 15 (counter pair_eqb (concat kws))).
  rewrite length_map.
  revert Hsorted Htk Htc.
  generalize (most_common 15 (counter pair_eqb (concat kws)))
             (most_common 10 (counter String.eqb (concat companies))).
  intros tk tc Hsorted Htk Htc.
  generalize (round3 (mean ss)) (round3 (mean rs)) (round3 (mean is')).
  intros m1 m2 m3.
  repeat (split; [vm_compute; reflexivity |]).
  repeat split; try assumption; lia.
Qed.

Lemma summary_counts_witness :
  valid_articles sample_analyses <> [] /\
  exists summary (valid highly_relevant : nat) sentiment_dist impact_dist top_companies
         top_keywords,
    generate_summary_insights Qred sample_analyses = Ok summary /\
    summary !! "total_articles" = Some (SInt (Z.of_nat (length sample_analyses))) /\
    summary !! "valid_articles" = Some (SInt (Z.of_nat valid)) /\
    summary !! "sentiment_distribution" = Some (SCounts sentiment_dist) /\
    summary !! "impact_distribution" = Some (SCounts impact_dist) /\
    summary !! "top_companies_mentioned" = Some (SCounts top_companies) /\
    summary !! "top_keywords" = Some (SPairs top_keywords) /\
    summary !! "highly_relevant_articles" = Some (SInt (Z.of_nat highly_relevant)) /\
    valid = length (valid_articles sample_analyses) /\
    (0 < valid <= length sample_analyses)%nat /\
    total_count sentiment_dist = valid /\
    total_count impact_dist = valid /\
    (highly_relevant <= valid)%nat /\
    (length top_companies <= 10)%nat /\
    (length top_keywords <= 15)%nat /\
    Sorted (desc count_key) top_keywords.
Proof.
  assert (Hlen : length (valid_articles sample_analyses) = 4%nat) by (vm_compute; reflexivity).
  assert (Hvalid : valid_articles sample_analyses <> []).
  { intros Hnil. rewrite Hnil in Hlen. discriminate Hlen. }
  split; [exact Hvalid |].
  assert (Hok : is_ok (generate_summary_insights Qred sample_analyses) = true)
    by (vm_compute; reflexivity).
  destruct (generate_summary_insights Qred sample_analyses) as [summary | e] eqn:Hsummary;
    [| discriminate Hok].
  destruct (summary_counts Qred sample_analyses summary Hsummary Hvalid)
    as (valid & hr & sd & id & tc & tk & H).
  exists summary, valid, hr, sd, id, tc, tk. split; [reflexivity | exact H].
Defined.

Example summary_sample :
  let summary := generate_summary_insights Qred sample_analyses in
  (fun s => (s !! "total_articles", s !! "valid_articles", s !! "highly_relevant_articles",
             s !! "average_relevance_score")) <$> summary
  = Ok (Some (SInt 5), Some (SInt 4), Some (SInt 1), Some (SFloat (1 # 2))).
Proof. vm_compute. reflexivity. Qed.

(** ** The order of the filter *)

Lemma keep_relevant_filter (min_relevance : Q) (analyzed kept : list pydict) :
  keep_relevant min_relevance analyzed = Ok kept ->
  kept = List.filter (fun a => Qle_bool min_relevance (relevance_or_zero a)) analyzed.
Proof.
  revert kept. induction analyzed as [| a t IH]; intros kept; cbn.
  - intros [= <-]. reflexivity.
  - unfold relevance_or_zero at 1.
    destruct (relevance_of a) as [r |]; cbn [mbind result_bind]; [| discriminate].
    destruct (keep_relevant min_relevance t) as [kept' |]; cbn [mbind result_bind];
      [| discriminate].
    intros [= <-]. rewrite (IH kept' eq_refl). reflexivity.
Qed.

Lemma Sorted_decorated (min_relevance : Q) (ps : list (Q * pydict)) :
  Sorted (desc fst) ps -> Forall (decorated min_relevance) ps ->
  Sorted (desc relevance_or_zero) (map snd ps).
Proof.
  assert (Hkey : forall p, decorated min_relevance p -> relevance_or_zero (snd p) = fst p).
  { intros p [Hp _]. unfold relevance_or_zero. rewrite Hp. reflexivity. }
  induction 1 as [| p ps Hsorted IH Hhd]; intros Hall; cbn; [constructor |].
  apply Forall_cons in Hall as [Hp Hall]. constructor; [apply IH, Hall |].
  destruct Hhd as [| q ps' Hpq]; cbn; constructor.
  apply Forall_cons in Hall as [Hq _].
  unfold desc in *. rewrite (Hkey _ Hp), (Hkey _ Hq). exact Hpq.
Qed.

(** X18. What the filter returns is the analyses whose relevance, 0
    when they have none, reaches the threshold: all of them, nothing
    else, in descending order of relevance. *)
Theorem filter_relevant_articles_sorted (analyzed_articles out : list pydict)
    (min_relevance : option Q) :
  filter_relevant_articles analyzed_articles min_relevance = Ok out ->
  Sorted (desc relevance_or_zero) out /\
  out ≡ₚ List.filter (fun a => Qle_bool (default relevance_threshold min_relevance)
                                        (relevance_or_zero a))
                     analyzed_articles.
Proof.
  unfold filter_relevant_articles. cbv zeta.
  destruct (keep_relevant _ analyzed_articles) as [kept |] eqn:Hkept;
    cbn [mbind result_bind]; [| discriminate].
  destruct (keep_relevant_decorated _ _ _ Hkept) as (keys & Hkeys & Hlen & Hdec).
  rewrite Hkeys. cbn [mbind result_bind]. intros [= <-].
  split.
  - apply (Sorted_decorated (default relevance_threshold min_relevance)).
    + apply sort_desc_Sorted.
    + apply sort_desc_Forall, Hdec.
  - rewrite sort_desc_Permutation, snd_zip by lia.
    rewrite (keep_relevant_filter _ _ _ Hkept). reflexivity.
Qed.

Lemma filter_relevant_articles_sorted_witness :
  exists out,
    filter_relevant_articles sample_analyses None = Ok out /\
    Sorted (desc relevance_or_zero) out /\
    out ≡ₚ List.filter (fun a => Qle_bool (default relevance_threshold None)
                                          (relevance_or_zero a))
                       sample_analyses.
Proof.
  assert (Hok : is_ok (filter_relevant_articles sample_analyses None) = true)
    by (vm_compute; reflexivity).
  destruct (filter_relevant_articles sample_analyses None) as [out | e] eqn:Hout;
    [| discriminate Hok].
  exists out. split; [reflexivity |].
  exact (filter_relevant_articles_sorted sample_analyses out None Hout).
Defined.

(** ** De-duplication, again *)

Lemma Deduplicated_sublist (articles kept : list pydict) :
  Deduplicated articles kept -> kept `sublist_of` articles.
Proof.
  induction 1 as [| articles kept a _ IH _ | articles kept a _ IH _ _ | articles kept a _ IH _ _].
  - constructor.
  - apply sublist_inserts_r, IH.
  - apply sublist_inserts_r, IH.
  - apply sublist_app; [exact IH | reflexivity].
Qed.

Lemma Deduplicated_again (articles kept : list pydict) :
  Deduplicated articles kept -> Deduplicated kept kept.
Proof.
  induction 1 as [| articles kept a _ IH _ | articles kept a _ IH _ _
                  | articles kept a _ IH Hblank Hfar]; try exact IH.
  - constructor.
  - apply dedup_keep; assumption.
Qed.

(** X19. De-duplication only removes: what it returns is the
    articles it was given with some left out, in their order.  And it
    has nothing to remove from its own result: run again on it, it
    returns it unchanged. *)
Theorem _remove_duplicate_articles_idempotent (articles : list pydict) :
  Forall has_str_title articles ->
  exists out,
    _remove_duplicate_articles articles = Ok out /\
    out `sublist_of` articles /\
    _remove_duplicate_articles out = Ok out.
Proof.
  intros Htitles. unfold _remove_duplicate_articles.
  destruct (dedup_loop_Deduplicated articles [] [] Htitles dedup_nil (Forall_nil_2 _))
    as (out & Hout & Hded & _).
  cbn [map app] in Hout, Hded.
  pose proof (Deduplicated_sublist _ _ Hded) as Hsub.
  exists out. split; [exact Hout |]. split; [exact Hsub |].
  assert (Htitles' : Forall has_str_title out).
  { apply Forall_forall. intros a Ha. rewrite Forall_forall in Htitles.
    apply Htitles. exact (sublist_subseteq _ _ Hsub a Ha). }
  destruct (dedup_loop_Deduplicated out [] [] Htitles' dedup_nil (Forall_nil_2 _))
    as (out' & Hout' & Hded' & _).
  cbn [map app] in Hout', Hded'. cbn [map]. rewrite Hout'. f_equal.
  apply (Deduplicated_functional out out' out Hded' (Deduplicated_again _ _ Hded)).
Qed.

Lemma _remove_duplicate_articles_idempotent_witness :
  Forall has_str_title sample_titles /\
  exists out,
    _remove_duplicate_articles sample_titles = Ok out /\
    out `sublist_of` sample_titles /\
    _remove_duplicate_articles out = Ok out.
Proof.
  assert (Htitles : Forall has_str_title sample_titles)
    by (repeat constructor).
  split; [exact Htitles |].
  exact (_remove_duplicate_articles_idempotent sample_titles Htitles).
Defined.

(** ** Recent articles *)

Lemma is_recent_typed (cutoff_date : Z) (article : pydict) :
  when_present is_date_or_none (article !! "published_date") ->
  is_recent cutoff_date article = Ok (recent cutoff_date article).
Proof.
  unfold is_recent, recent, get. cbv zeta.
  destruct (article !! "published_date") as [[] |]; cbn; intros H;
    try contradiction; reflexivity.
Qed.

Lemma filter_recent_loop_filter (cutoff_date : Z) (articles : list pydict) :
  Forall (fun a => when_present is_date_or_none (a !! "published_date")) articles ->
  filter_recent_loop cutoff_date articles = Ok (List.filter (recent cutoff_date) articles).
Proof.
  induction 1 as [| a t Ha _ IH]; cbn [filter_recent_loop List.filter]; [reflexivity |].
  rewrite (is_recent_typed _ _ Ha), IH. reflexivity.
Qed.

Lemma filter_sublist_impl {A} (f g : A -> bool) (l : list A) :
  (forall x, f x = true -> g x = true) -> List.filter f l `sublist_of` List.filter g l.
Proof.
  intros Hfg. induction l as [| x t IH]; cbn; [constructor |].
  destruct (f x) eqn:Ef.
  - rewrite (Hfg x Ef). constructor. exact IH.
  - destruct (g x); [constructor |]; exact IH.
Qed.

Lemma filter_sublist {A} (f : A -> bool) (l : list A) : List.filter f l `sublist_of` l.
Proof.
  induction l as [| x t IH]; cbn; [constructor |].
  destruct (f x); constructor; exact IH.
Qed.

Lemma cutoff_date_in_range (env : Env) (days_back : Z) :
  look_back_in_range env days_back ->
  cutoff_date env days_back = Ok (now env - days_back * 86400)%Z.
Proof.
  intros [Hdays [Hmin Hmax]]. unfold cutoff_date. cbv zeta.
  destruct (Z.ltb_spec max_timedelta_days (Z.abs days_back)) as [Hover |]; [lia |].
  destruct (Z.ltb_spec (now env - days_back * 86400) datetime_min) as [Hlow |]; [lia |].
  destruct (Z.ltb_spec datetime_max (now env - days_back * 86400)) as [Hhigh |]; [lia |].
  reflexivity.
Qed.

(** X20. On articles whose date is a naive [datetime] or missing,
    and for look-backs the clock can take, the filter of recent
    articles only removes articles, never one without a date, and a
    longer look-back keeps everything a shorter one keeps. *)
Theorem filter_recent_articles_window (env : Env) (articles : list pydict)
    (days_back longer : Z) :
  Forall (fun a => when_present is_date_or_none (a !! "published_date")) articles ->
  look_back_in_range env days_back ->
  look_back_in_range env longer ->
  (days_back <= longer)%Z ->
  exists recent_articles more,
    filter_recent_articles env articles days_back = Ok recent_articles /\
    filter_recent_articles env articles longer = Ok more /\
    List.filter undated articles `sublist_of` recent_articles /\
    recent_articles `sublist_of` more /\
    more `sublist_of` articles.
Proof.
  intros Htyped Hshort Hlong Hle. unfold filter_recent_articles.
  rewrite (cutoff_date_in_range _ _ Hshort), (cutoff_date_in_range _ _ Hlong).
  cbn [mbind result_bind].
  rewrite !filter_recent_loop_filter by exact Htyped.
  eexists _, _. split; [reflexivity |]. split; [reflexivity |].
  split; [| split].
  - apply filter_sublist_impl. intros a. unfold undated, recent.
    destruct (a !! "published_date") as [[] |]; try reflexivity; discriminate.
  - apply filter_sublist_impl. intros a. unfold recent.
    destruct (a !! "published_date") as [[] |]; try reflexivity. lia.
  - apply filter_sublist.
Qed.

Lemma filter_recent_articles_window_witness :
  let env := sample_env (Ok (0, 0)) in
  let articles : list pydict :=
    [ {[ "published_date" := VDate (-86400) ]}; titled "undated";
      {[ "published_date" := VDate (-864000) ]}; {[ "published_date" := VNone ]} ] in
  Forall (fun a => when_present is_date_or_none (a !! "published_date")) articles /\
  look_back_in_range env 7 /\
  look_back_in_range env 30 /\
  (7 <= 30)%Z /\
  exists recent_articles more,
    filter_recent_articles env articles 7 = Ok recent_articles /\
    filter_recent_articles env articles 30 = Ok more /\
    List.filter undated articles `sublist_of` recent_articles /\
    recent_articles `sublist_of` more /\
    more `sublist_of` articles.
Proof.
  intros env articles.
  assert (Htyped : Forall (fun a => when_present is_date_or_none (a !! "published_date"))
                          articles).
  { unfold articles. repeat (apply List.Forall_cons; [exact I |]). apply List.Forall_nil. }
  assert (Hshort : look_back_in_range env 7) by (vm_compute; intuition discriminate).
  assert (Hlong : look_back_in_range env 30) by (vm_compute; intuition discriminate).
  assert (Hle : (7 <= 30)%Z) by lia.
  split; [exact Htyped |]. split; [exact Hshort |]. split; [exact Hlong |].
  split; [exact Hle |].
  exact (filter_recent_articles_window env articles 7 30 Htyped Hshort Hlong Hle).
Defined.

Example filter_recent_articles_text_date :
  filter_recent_articles (sample_env (Ok (0, 0)))
    [ {[ "published_date" := VStr "Mon, 03 Nov 2025 10:00:00 GMT" ]} ] 7
  = Raise (TypeError "'>=' not supported between instances").
Proof. vm_compute. reflexivity. Qed.

Example filter_recent_articles_aware_date :
  filter_recent_articles (sample_env (Ok (0, 0)))
    [ {[ "published_date" := VAwareDate (-86400) ]} ] 7
  = Raise (TypeError "can't compare offset-naive and offset-aware datetimes").
Proof. vm_compute. reflexivity. Qed.

Example filter_recent_articles_out_of_range :
  filter_recent_articles (sample_env (Ok (0, 0))) [] 1000000000
  = Raise (OverflowError "days=1000000000; must have magnitude <= 999999999") /\
  filter_recent_articles (sample_env (Ok (0, 0))) [] 800000
  = Raise (OverflowError "date value out of range").
Proof. split; vm_compute; reflexivity. Qed.

Lemma jaccard_comm (title1 title2 : string) : jaccard title1 title2 = jaccard title2 title1.
Proof.
  unfold jaccard.
  rewrite (gset_intersection_comm (word_set title1)), (gset_union_comm (word_set title1)).
  reflexivity.
Qed.

Lemma Deduplicated_pairwise (articles kept : list pydict) :
  Deduplicated articles kept ->
  forall (i j : nat) (a b : pydict),
    (i < j)%nat -> kept !! i = Some a -> kept !! j = Some b ->
    jaccard (norm_title b) (norm_title a) <= 0.7.
Proof.
  induction 1 as [| articles kept x _ IH _ | articles kept x _ IH _ _
                  | articles kept x _ IH _ Hfar]; try exact IH.
  - intros i j a b _ Ha. rewrite lookup_nil in Ha. discriminate.
  - intros i j a b Hij Ha Hb.
    assert (Hj : (j < length (kept ++ [x]))%nat) by (apply lookup_lt_Some in Hb; exact Hb).
    rewrite length_app in Hj. cbn in Hj.
    rewrite lookup_app_l in Ha by lia.
    destruct (decide (j < length kept)%nat) as [Hlt | Hge].
    + rewrite lookup_app_l in Hb by lia. apply (IH i j a b Hij Ha Hb).
    + rewrite lookup_app_r in Hb by lia.
      replace (j - length kept)%nat with O in Hb by lia. injection Hb as <-.
      rewrite Forall_forall in Hfar. apply Hfar. apply (list_elem_of_lookup_2 _ _ _ Ha).
Qed.

(** X21. After de-duplication no two articles are near-duplicates
    and none is blank: every article kept has a title with a word in
    it, and the similarity the code computes between the titles of
    any two of them, in either order, is 0.7 at most. *)
Theorem _remove_duplicate_articles_pairwise_distinct (articles : list pydict) :
  Forall has_str_title articles ->
  exists out,
    _remove_duplicate_articles articles = Ok out /\
    forall (i j : nat) (a b : pydict),
      (i < j)%nat -> out !! i = Some a -> out !! j = Some b ->
      exists title_a title_b similarity,
        title_of a = Ok title_a /\ title_of b = Ok title_b /\
        PyStr.split title_a <> [] /\ PyStr.split title_b <> [] /\
        title_similarity title_a title_b = Ok similarity /\
        title_similarity title_b title_a = Ok similarity /\
        similarity <= 0.7.
Proof.
  intros Htitles. unfold _remove_duplicate_articles.
  destruct (dedup_loop_Deduplicated articles [] [] Htitles dedup_nil (Forall_nil_2 _))
    as (out & Hout & Hded & Hblank).
  cbn [map app] in Hout, Hded. exists out. split; [exact Hout |].
  intros i j a b Hij Ha Hb.
  pose proof (Deduplicated_pairwise _ _ Hded i j a b Hij Ha Hb) as Hfar.
  assert (Hword : forall x, x ∈ out ->
             title_of x = Ok (norm_title x) /\ PyStr.split (norm_title x) <> []).
  { intros x Hx.
    assert (Hstr : has_str_title x).
    { rewrite Forall_forall in Htitles. apply Htitles.
      apply (sublist_subseteq _ _ (Deduplicated_sublist _ _ Hded) x Hx). }
    split; [apply title_of_norm, Hstr |].
    apply norm_title_split. intros Hempty.
    rewrite Forall_forall in Hblank. apply (Hblank x Hx).
    apply norm_title_blank_iff; assumption. }
  destruct (Hword a (list_elem_of_lookup_2 _ _ _ Ha)) as [Hta Hwa].
  destruct (Hword b (list_elem_of_lookup_2 _ _ _ Hb)) as [Htb Hwb].
  exists (norm_title a), (norm_title b), (jaccard (norm_title a) (norm_title b)).
  split; [exact Hta |]. split; [exact Htb |]. split; [exact Hwa |]. split; [exact Hwb |].
  split; [apply title_similarity_jaccard, Hwa |].
  split; [rewrite jaccard_comm; apply title_similarity_jaccard, Hwb |].
  rewrite jaccard_comm. exact Hfar.
Qed.

Lemma _remove_duplicate_articles_pairwise_distinct_witness :
  Forall has_str_title sample_titles /\
  exists out,
    _remove_duplicate_articles sample_titles = Ok out /\
    forall (i j : nat) (a b : pydict),
      (i < j)%nat -> out !! i = Some a -> out !! j = Some b ->
      exists title_a title_b similarity,
        title_of a = Ok title_a /\ title_of b = Ok title_b /\
        PyStr.split title_a <> [] /\ PyStr.split title_b <> [] /\
        title_similarity title_a title_b = Ok similarity /\
        title_similarity title_b title_a = Ok similarity /\
        similarity <= 0.7.
Proof.
  assert (Htitles : Forall has_str_title sample_titles) by (repeat constructor).
  split; [exact Htitles |].
  exact (_remove_duplicate_articles_pairwise_distinct sample_titles Htitles).
Defined.

(** ** When the analysis of an article fails *)

Lemma signals_date_source (env : Env) (article : pydict)
    (companies_df : option (list CompanyRecord)) (v1 v2 v3 v4 : pyval) :
  let base :=
    signals env article companies_df
      (list_to_map
         [ ("financial_numbers", v1); ("percentages_mentioned", v2);
           ("financial_terms", v3); ("financial_density", v4) ]) in
  base !! "published_date" = Some (get article "published_date" VNone) /\
  base !! "source" = Some (get article "source" (VStr "")).
Proof.
  cbv zeta.
  expose_signals env article companies_df;
    generalize (get article "published_date" VNone) (get article "source" (VStr ""));
    intros date source;
    (destruct (analyze_sentiment_shape env (_extract_text_content env article))
      as [(p & w2 & w3 & w4 & w5 & w6 & w7 & d & _ & ->) | (p & w2 & w3 & w4 & e & _ & ->)]);
    split; eval_lookup; reflexivity.
Qed.

Lemma signals_numbers (env : Env) (article : pydict)
    (companies_df : option (list CompanyRecord)) (density : pyval) (v1 v2 v3 : pyval) :
  is_nonneg_number density ->
  Forall (fun k =>
            when_present is_number
              (signals env article companies_df
                 (list_to_map
                    [ ("financial_numbers", v1); ("percentages_mentioned", v2);
                      ("financial_terms", v3); ("financial_density", density) ]) !! k))
         relevance_inputs.
Proof.
  intros Hdensity.
  assert (Hnum : forall v, is_nonneg_number v -> is_number v) by (intros []; cbn; tauto).
  expose_signals env article companies_df;
    generalize (get article "published_date" VNone) (get article "source" (VStr ""));
    intros date source;
    (destruct (analyze_sentiment_shape env (_extract_text_content env article))
      as [(p & w2 & w3 & w4 & w5 & w6 & w7 & d & _ & ->) | (p & w2 & w3 & w4 & e & _ & ->)]);
    unfold relevance_inputs;
    do 5 (apply List.Forall_cons;
          [eval_lookup; cbn [when_present is_number];
           first [ exact I | apply Hnum; assumption ] |]);
    apply List.Forall_nil.
Qed.

Lemma _calculate_relevance_score_total (a : pydict) :
  Forall (fun k => when_present is_number (a !! k)) relevance_inputs ->
  exists r, _calculate_relevance_score a = Ok r.
Proof.
  intros Hall. unfold relevance_inputs in Hall.
  repeat match goal with
         | H : Forall _ (_ :: _) |- _ => apply Forall_cons in H as [?Hk H]
         end.
  unfold _calculate_relevance_score. cbv zeta.
  destruct (as_number_get a "total_investment_keywords" Hk) as [n ->].
  destruct (as_number_get a "sentiment_score" Hk0) as [s ->].
  destruct (as_number_get a "company_count" Hk1) as [c ->].
  destruct (as_number_get a "financial_density" Hk2) as [d ->].
  destruct (as_number_get a "content_length" Hk3) as [l ->].
  cbn [mbind result_bind]. eexists. reflexivity.
Qed.

Lemma analyze_article_scoring (env : Env) (article : pydict)
    (companies_df : option (list CompanyRecord)) (financial : pydict) :
  insufficient (_extract_text_content env article) = false ->
  extract_financial_info (_extract_text_content env article) = Ok financial ->
  analyze_article env article companies_df
  = (investment_score ← calculate_investment_score env
                          (signals env article companies_df financial);
     let analysis :=
       <["investment_score" := VFloat investment_score]>
         (signals env article companies_df financial) in
     keywords_found ← as_keywords (get analysis "keywords_found" (VKeywords []));
     sentiment_score ← as_number (get analysis "sentiment_score" (VInt 0));
     let analysis :=
       <["impact_category" := VStr (categorize_news_impact keywords_found sentiment_score)]>
         analysis in
     relevance_score ← _calculate_relevance_score analysis;
     Ok (<["relevance_score" := VFloat relevance_score]> analysis)).
Proof.
  intros Hcontent Hfinancial. unfold analyze_article, signals. cbv zeta.
  rewrite Hcontent, Hfinancial. reflexivity.
Qed.

(** The investment score of an analysis whose sentiment score and
    keywords are well formed: whether it is computed depends on the
    date and on the source only. *)
Lemma calculate_investment_score_status (env : Env) (base : pydict) (p : Q)
    (d : list (string * list string)) (date source : pyval) :
  base !! "sentiment_score" = Some (VFloat p) ->
  base !! "keywords_found" = Some (VKeywords d) ->
  base !! "published_date" = Some date ->
  base !! "source" = Some source ->
  match calculate_investment_score env base with
  | Ok _ => (truthy date = false \/ is_date date) /\ is_str source
  | Raise e =>
      (truthy date = true /\ ~ is_date date /\ exists msg, e = TypeError msg) \/
      ((truthy date = false \/ is_date date) /\ ~ is_str source /\
       exists msg, e = AttributeError msg)
  end.
Proof.
  intros Hscore Hd Hdate Hsource. unfold calculate_investment_score, get. cbv zeta.
  rewrite Hscore, Hd, Hdate, Hsource.
  cbn [default from_option id as_number mbind result_bind].
  destruct date as [| ds | dn | dq | t | t | [| ? ?] | [| ? ?] | [| ? ?] | [| ? ?]];
    cbn [truthy];
    try match goal with
        | |- context [if ?b then _ else _] => destruct b
        end;
    destruct source; cbn [mbind result_bind is_date is_str];
    first [ split; [first [left; reflexivity | right; exact I] | exact I]
          | left; split; [reflexivity | split; [intros [] | eexists; reflexivity]]
          | right; split; [first [left; reflexivity | right; exact I]
                          | split; [intros [] | eexists; reflexivity]] ].
Qed.

(** X22. For an article of sufficient content and a table of
    companies with string names and symbols, whether the analysis is
    returned depends on the publication date and on the source alone,
    whatever TextBlob and the sentence splitter do.  Over the values
    an article field holds here ([None], a string, a number, a naive
    or an aware [datetime], a list, a dict) the analysis is returned
    exactly when the date is false or a naive [datetime] and the
    source is a string.  A date that is true and not a naive
    [datetime], a [datetime] with a time zone included, is a
    [TypeError]; a source that is not a string, the date being
    accepted, is an [AttributeError]. *)
Theorem analyze_article_failures (env : Env) (article : pydict)
    (companies_df : option (list CompanyRecord)) :
  insufficient (_extract_text_content env article) = false ->
  let date := get article "published_date" VNone in
  let source := get article "source" (VStr "") in
  match analyze_article env article companies_df with
  | Ok _ => (truthy date = false \/ is_date date) /\ is_str source
  | Raise e =>
      (truthy date = true /\ ~ is_date date /\ exists msg, e = TypeError msg) \/
      ((truthy date = false \/ is_date date) /\ ~ is_str source /\
       exists msg, e = AttributeError msg)
  end.
Proof.
  intros Hcontent. cbv zeta.
  destruct (extract_financial_info_cases _ (sufficient_content_has_tokens _ _ Hcontent))
    as (density & Hdensity & Hfinancial).
  rewrite (analyze_article_scoring _ _ _ _ Hcontent Hfinancial).
  match type of Hfinancial with
  | _ = Ok (list_to_map [ (_, ?v1); (_, ?v2); (_, ?v3); _ ]) =>
      destruct (signals_keywords env article companies_df v1 v2 v3 density) as [d Hd];
      destruct (signals_sentiment env article companies_df v1 v2 v3 density)
        as (p & Hscore & _);
      destruct (signals_date_source env article companies_df v1 v2 v3 density)
        as [Hdate Hsource];
      pose proof (signals_numbers env article companies_df density v1 v2 v3 Hdensity)
        as Hnumbers
  end.
  cbv zeta in Hscore, Hdate, Hsource.
  match type of Hd with ?m !! _ = _ => generalize dependent m end.
  intros base Hd Hscore Hdate Hsource Hnumbers.
  pose proof (calculate_investment_score_status env base p d _ _ Hscore Hd Hdate Hsource)
    as Hstatus.
  destruct (calculate_investment_score env base) as [i | e]; cbn [mbind result_bind];
    [| exact Hstatus].
  unfold get. rewrite !lookup_insert_ne by discriminate. rewrite Hd, Hscore.
  cbn [default from_option id as_keywords as_number mbind result_bind].
  destruct (_calculate_relevance_score_total
              (<["impact_category" := VStr (categorize_news_impact d p)]>
                 (<["investment_score" := VFloat i]> base))) as [r ->];
    [| exact Hstatus].
  unfold relevance_inputs in *.
  repeat match goal with
         | H : Forall _ (_ :: _) |- _ => apply Forall_cons in H as [?Hk H]
         end.
  do 5 (apply List.Forall_cons; [rewrite !lookup_insert_ne by discriminate; assumption |]).
  apply List.Forall_nil.
Qed.

Lemma analyze_article_failures_witness :
  let env := sample_env (Ok (0.2, 0.5)) in
  insufficient (_extract_text_content env sourceless_article) = false /\
  let date := get sourceless_article "published_date" VNone in
  let source := get sourceless_article "source" (VStr "") in
  match analyze_article env sourceless_article (Some sample_table) with
  | Ok _ => (truthy date = false \/ is_date date) /\ is_str source
  | Raise e =>
      (truthy date = true /\ ~ is_date date /\ exists msg, e = TypeError msg) \/
      ((truthy date = false \/ is_date date) /\ ~ is_str source /\
       exists msg, e = AttributeError msg)
  end.
Proof.
  intros env.
  assert (Hcontent : insufficient (_extract_text_content env sourceless_article) = false)
    by (vm_compute; reflexivity).
  split; [exact Hcontent |].
  exact (analyze_article_failures env sourceless_article (Some sample_table) Hcontent).
Defined.

Example analyze_article_aware_date :
  analyze_article (sample_env (Ok (0.2, 0.5)))
    (<["published_date" := VAwareDate (-86400)]> sample_article) None
  = Raise (TypeError "can't subtract offset-naive and offset-aware datetimes").
Proof. vm_compute. reflexivity. Qed.

Example analyze_article_text_date :
  analyze_article (sample_env (Ok (0.2, 0.5)))
    (<["published_date" := VStr "Mon, 03 Nov 2025 10:00:00 GMT"]> sample_article) None
  = Raise (TypeError "unsupported operand type(s) for -").
Proof. vm_compute. reflexivity. Qed.
